(** * perceval: the Bugzilla REST backend (perceval/backends/bugzillarest.py)

    A shallow embedding of the cache-backed fetch / replay pipeline of the
    [BugzillaREST] backend and of its [BugzillaRESTClient], followed by the
    properties stated about it.

    Python values decoded from JSON are the type [json]; a generator is run
    to completion and is described by the items it yielded, the state it
    left behind and the way it ended.  The libraries the module calls
    (json, requests, datetime, the builtin [str]) and the helpers of
    [perceval.utils] are an interface, [PyLib] and [Network]. *)

From Stdlib Require Import String Ascii ZArith List Bool Lia DecimalString.
Import ListNotations.

Local Open Scope string_scope.
Local Open Scope Z_scope.
Local Open Scope list_scope.

Set Implicit Arguments.
Set Warnings "-register-all".

(** ** Decoded JSON values *)

(** What [json.loads] builds: [None], [bool], [int], [float], [str], [list]
    and [dict].  A float is kept as the text Python prints for it, since the
    module never computes with one.  A [dict] keeps its insertion order and,
    as decoded by [json.loads], has pairwise distinct keys. *)
Inductive json : Type :=
| JNull
| JBool (b : bool)
| JInt (n : Z)
| JFloat (repr : string)
| JString (s : string)
| JArray (items : list json)
| JObject (fields : list (string * json)).

(** ** Exceptions *)

Inductive exn : Type :=
| HTTPError (status_code : Z)        (* requests.exceptions.HTTPError *)
| RequestException (what : string)   (* connection errors, timeouts *)
| JSONDecodeError
| KeyError (key : json)
| IndexError
| TypeError
| StopIteration
| RuntimeError
| InvalidDateError
| CacheError (cause : string)
| BackendError (user : json) (cause : exn).

(** How a computation ends.  [Diverge] is the model's loop budget running
    out: it stands for a [while True] loop that has not stopped yet. *)
Inductive res (A : Type) : Type :=
| Ok (a : A)
| Raise (e : exn)
| Diverge.
Arguments Raise {A} e.
Arguments Diverge {A}.

(** ** Python primitives on decoded values *)

Fixpoint dict_get (k : string) (m : list (string * json)) : option json :=
  match m with
  | [] => None
  | (k', v) :: m' => if String.eqb k k' then Some v else dict_get k m'
  end.

(** [d[k] = v]: the value is replaced where the key stands, a new key goes
    to the end. *)
Fixpoint dict_set (k : string) (v : json) (m : list (string * json))
  : list (string * json) :=
  match m with
  | [] => [(k, v)]
  | (k', v') :: m' =>
      if String.eqb k k' then (k', v) :: m' else (k', v') :: dict_set k v m'
  end.

Fixpoint chars (s : string) : list json :=
  match s with
  | EmptyString => []
  | String c s' => JString (String c EmptyString) :: chars s'
  end.

(** [o[k]] with [k] a [str]. *)
Definition getitem (o : json) (k : string) : res json :=
  match o with
  | JObject m =>
      match dict_get k m with
      | Some v => Ok v
      | None => Raise (KeyError (JString k))
      end
  | _ => Raise TypeError
  end.

(** [o[0]]. *)
Definition getitem0 (o : json) : res json :=
  match o with
  | JArray (x :: _) => Ok x
  | JArray [] => Raise IndexError
  | JString (String c _) => Ok (JString (String c EmptyString))
  | JString EmptyString => Raise IndexError
  | JObject _ => Raise (KeyError (JInt 0))
  | _ => Raise TypeError
  end.

(** [o[k] = v] with [k] a [str]. *)
Definition setitem (o : json) (k : string) (v : json) : res json :=
  match o with
  | JObject m => Ok (JObject (dict_set k v m))
  | _ => Raise TypeError
  end.

(** [len(o)]. *)
Definition py_len (o : json) : res Z :=
  match o with
  | JArray l => Ok (Z.of_nat (length l))
  | JObject m => Ok (Z.of_nat (length m))
  | JString s => Ok (Z.of_nat (String.length s))
  | _ => Raise TypeError
  end.

(** [for x in o]: the items visited. *)
Definition py_iter (o : json) : res (list json) :=
  match o with
  | JArray l => Ok l
  | JObject m => Ok (map (fun kv => JString (fst kv)) m)
  | JString s => Ok (chars s)
  | _ => Raise TypeError
  end.

(** Truth value of an object, as [if x:] and [not x] test it. *)
Definition truthy (o : json) : bool :=
  match o with
  | JNull => false
  | JBool b => b
  | JInt n => negb (n =? 0)
  | JFloat r => negb (String.eqb r "0.0" || String.eqb r "-0.0")
  | JString s => negb (String.eqb s "")
  | JArray l => match l with [] => false | _ => true end
  | JObject m => match m with [] => false | _ => true end
  end.

(** ** datetime *)

(** A [datetime.datetime]: the calendar reading and, for an aware object,
    the offset of its [tzinfo] from UTC in seconds. *)
Record datetime : Type := {
  year : Z; month : Z; day : Z;
  hour : Z; minute : Z; second : Z; microsecond : Z;
  utcoffset : option Z
}.

(** Days from 1970-01-01 to the given day of the proleptic Gregorian
    calendar. *)
Definition days_from_civil (y m d : Z) : Z :=
  let y' := if m <=? 2 then y - 1 else y in
  let era := y' / 400 in
  let yoe := y' - era * 400 in
  let mp := (m + 9) mod 12 in
  let doy := (153 * mp + 2) / 5 + d - 1 in
  let doe := yoe * 365 + yoe / 4 - yoe / 100 + doy in
  era * 146097 + doe - 719468.

(** Seconds from the epoch to the calendar reading, read as UTC. *)
Definition wall_seconds (dt : datetime) : Z :=
  days_from_civil (year dt) (month dt) (day dt) * 86400
  + hour dt * 3600 + minute dt * 60 + second dt.

(** ** The libraries and helpers the module imports *)

Class PyLib : Type := {
  (** [json.loads]; [None] is a [JSONDecodeError]. *)
  json_loads : string -> option json;
  (** [str] of a [list] or a [dict]. *)
  py_repr : json -> string;
  (** [perceval.utils.urljoin]. *)
  urljoin : list json -> string;
  (** [perceval.utils.datetime_to_utc]. *)
  datetime_to_utc : datetime -> datetime;
  (** [strftime("%Y-%m-%dT%H:%M:%SZ")]. *)
  strftime_iso : datetime -> string;
  (** [perceval.utils.str_to_datetime]. *)
  str_to_datetime : json -> res datetime;
  (** [perceval.utils.DEFAULT_DATETIME]. *)
  DEFAULT_DATETIME : datetime;
  (** Offset of the local zone, which [timestamp()] applies to a naive
      datetime. *)
  local_utcoffset : datetime -> Z
}.

(** A [requests.Response]. *)
Record Response : Type := { status_code : Z; text : string }.

(** What [requests.get] comes back with: a response, or an exception such
    as a connection error. *)
Inductive reply : Type :=
| Replied (r : Response)
| Failed (e : exn).

(** The network as seen through [requests.get]: a state, and a transition
    that answers one GET, given its URL and parameters. *)
Class Network : Type := {
  net : Type;
  requests_get : string -> list (string * json) -> net -> reply * net
}.

(** [str(o)]. *)
Definition py_str `{PyLib} (o : json) : string :=
  match o with
  | JNull => "None"
  | JBool true => "True"
  | JBool false => "False"
  | JInt n => NilZero.string_of_int (Z.to_int n)
  | JFloat r => r
  | JString s => s
  | _ => py_repr o
  end.

(** [dt.timestamp()], in whole seconds and microseconds (Python returns
    the nearest float to seconds + microseconds / 10^6). *)
Definition timestamp `{PyLib} (dt : datetime) : Z * Z :=
  match utcoffset dt with
  | Some off => (wall_seconds dt - off, microsecond dt)
  | None => (wall_seconds dt - local_utcoffset dt, microsecond dt)
  end.

(** ** Generators *)

(** A generator body over a state [S]: run from a state, it gives the items
    it yielded, the state it ends in and how it ended. *)
Definition gen (S A : Type) : Type := S -> list json * S * res A.

Definition ret {S A} (a : A) : gen S A := fun s => ([], s, Ok a).

Definition raise {S A} (e : exn) : gen S A := fun s => ([], s, Raise e).

Definition diverge {S A} : gen S A := fun s => ([], s, Diverge).

Definition bind {S A B} (m : gen S A) (k : A -> gen S B) : gen S B :=
  fun s =>
    match m s with
    | (ys, s', Ok a) => let '(ys', s'', r) := k a s' in (ys ++ ys', s'', r)
    | (ys, s', Raise e) => (ys, s', Raise e)
    | (ys, s', Diverge) => (ys, s', Diverge)
    end.

Definition yield {S} (item : json) : gen S unit := fun s => ([item], s, Ok tt).

Definition gets {S A} (f : S -> A) : gen S A := fun s => ([], s, Ok (f s)).

Definition modify {S} (f : S -> S) : gen S unit := fun s => ([], f s, Ok tt).

Definition lift {S A} (r : res A) : gen S A := fun s => ([], s, r).

Declare Scope gen_scope.
Delimit Scope gen_scope with gen.
Notation "x <- c1 ;; c2" := (bind c1 (fun x => c2))
  (at level 61, c1 at next level, right associativity) : gen_scope.
Notation "c1 ;; c2" := (bind c1 (fun _ => c2))
  (at level 61, right associativity) : gen_scope.
Local Open Scope gen_scope.

(** PEP 479: a [StopIteration] that escapes the body of a generator reaches
    the caller as a [RuntimeError]. *)
Definition generator {S A} (body : gen S A) : gen S A :=
  fun s =>
    match body s with
    | (ys, s', Raise StopIteration) => (ys, s', Raise RuntimeError)
    | r => r
    end.

(** [for x in xs: body(x)]. *)
Fixpoint for_each {S} (xs : list json) (body : json -> gen S unit) : gen S unit :=
  match xs with
  | [] => ret tt
  | x :: xs' => body x ;; for_each xs' body
  end.

(** [try: m except StopIteration: handler]. *)
Definition except_StopIteration {S A} (m : gen S A) (handler : gen S A) : gen S A :=
  fun s =>
    match m s with
    | (ys, s', Raise StopIteration) =>
        let '(ys', s'', r) := handler s' in (ys ++ ys', s'', r)
    | r => r
    end.

(** [try: m except HTTPError as e: handler(e)]. *)
Definition except_HTTPError {S A} (m : gen S A) (handler : exn -> gen S A) : gen S A :=
  fun s =>
    match m s with
    | (ys, s', Raise (HTTPError c)) =>
        let '(ys', s'', r) := handler (HTTPError c) s' in (ys ++ ys', s'', r)
    | r => r
    end.

(** [for x in g: n += 1; yield x], with [n] returned at the end.  The body
    of the loop touches nothing [g] works on, so the run of the loop is the
    run of [g] with its items passed on and counted. *)
Definition counting {S} (g : gen S unit) : gen S Z :=
  fun s =>
    match g s with
    | (ys, s', Ok _) => (ys, s', Ok (Z.of_nat (length ys)))
    | (ys, s', Raise e) => (ys, s', Raise e)
    | (ys, s', Diverge) => (ys, s', Diverge)
    end.

(** [json.loads(s)] as a step of a generator. *)
Definition loads `{PyLib} {S} (s : string) : gen S json :=
  match json_loads s with
  | Some v => ret v
  | None => raise JSONDecodeError
  end.

Definition MAX_BUGS : Z := 500.

(** ** class BugzillaRESTClient *)

Module BugzillaRESTClient.

Record t : Type := mk { base_url : string; api_token : json }.

Definition RBUG := "bug".
Definition RATTACHMENT := "attachment".
Definition RCOMMENT := "comment".
Definition RHISTORY := "history".
Definition RLOGIN := "login".

Definition PBUGZILLA_LOGIN := "login".
Definition PBUGZILLA_PASSWORD := "password".
Definition PBUGZILLA_TOKEN := "token".
Definition PLAST_CHANGE_TIME := "last_change_time".
Definition PLIMIT := "limit".
Definition POFFSET := "offset".
Definition PORDER := "order".
Definition PINCLUDE_FIELDS := "include_fields".
Definition PEXCLUDE_FIELDS := "exclude_fields".

Definition VCHANGE_DATE_ORDER := "changeddate".
Definition VINCLUDE_ALL := "_all".
Definition VEXCLUDE_ATTCH_DATA := "data".

Section Methods.
Context {L : PyLib} {N : Network}.

(** The client and the network it talks to. *)
Definition state : Type := net * t.

Definition get (url : string) (params : list (string * json))
  : gen state Response :=
  fun s =>
    match requests_get url params (fst s) with
    | (Replied r, n') => ([], (n', snd s), Ok r)
    | (Failed e, n') => ([], (n', snd s), Raise e)
    end.

(** [r.raise_for_status()]. *)
Definition raise_for_status (r : Response) : gen state unit :=
  if (400 <=? status_code r) && (status_code r <? 600)
  then raise (HTTPError (status_code r))
  else ret tt.

Definition call (resource : string) (params : list (string * json))
  : gen state string :=
  self <- gets snd ;;
  let url := (base_url self ++ "/rest/" ++ resource)%string in
  let params :=
    if truthy (api_token self)
    then dict_set PBUGZILLA_TOKEN (api_token self) params
    else params in
  r <- get url params ;;
  raise_for_status r ;;
  ret (text r).

Definition login (user password : string) : gen state unit :=
  let params := [(PBUGZILLA_LOGIN, JString user);
                 (PBUGZILLA_PASSWORD, JString password)] in
  r <- except_HTTPError (call RLOGIN params)
         (fun e => raise (BackendError (JString user) e)) ;;
  data <- loads r ;;
  token <- lift (getitem data "token") ;;
  modify (fun s => (fst s, mk (base_url (snd s)) token)).

Definition bugs (from_date : datetime) (offset : Z) (max_bugs : Z)
  : gen state string :=
  let date := datetime_to_utc from_date in
  let date := strftime_iso date in
  let params := [(PLAST_CHANGE_TIME, JString date);
                 (PLIMIT, JInt max_bugs);
                 (PORDER, JString VCHANGE_DATE_ORDER);
                 (PINCLUDE_FIELDS, JString VINCLUDE_ALL)] in
  let params :=
    if truthy (JInt offset) then dict_set POFFSET (JInt offset) params
    else params in
  call RBUG params.

Definition comments (bug_id : json) : gen state string :=
  let resource := urljoin [JString RBUG; bug_id; JString RCOMMENT] in
  call resource [].

Definition history (bug_id : json) : gen state string :=
  let resource := urljoin [JString RBUG; bug_id; JString RHISTORY] in
  call resource [].

Definition attachments (bug_id : json) : gen state string :=
  let resource := urljoin [JString RBUG; bug_id; JString RATTACHMENT] in
  call resource [(PEXCLUDE_FIELDS, JString VEXCLUDE_ATTCH_DATA)].

(** The constructor: the object built, or the exception of the login. *)
Definition __init__ (base_url : string) (user password : option string)
           (api_token : json) (n : net) : net * res t :=
  let self := mk base_url (if truthy api_token then api_token else JNull) in
  match user, password with
  | Some u, Some p =>
      match login u p (n, self) with
      | (_, (n', self'), Ok _) => (n', Ok self')
      | (_, (n', _), Raise e) => (n', Raise e)
      | (_, (n', _), Diverge) => (n', Diverge)
      end
  | _, _ => (n, Ok self)
  end.

End Methods.

End BugzillaRESTClient.

(** ** class BugzillaREST(Backend) *)

Module BugzillaREST.

(** The attributes of a backend object.  [cache] is the committed content
    of the cache, [None] when the backend has no cache; [cache_queue]
    holds the entries buffered and not yet committed. *)
Record t : Type := mk {
  origin : string;
  url : string;
  max_bugs : Z;
  client : BugzillaRESTClient.t;
  cache : option (list string);
  cache_queue : list string
}.

Definition version := "0.1.0".

Definition with_client (c : BugzillaRESTClient.t) (b : t) : t :=
  mk (origin b) (url b) (max_bugs b) c (cache b) (cache_queue b).

Definition with_cache (c : option (list string)) (b : t) : t :=
  mk (origin b) (url b) (max_bugs b) (client b) c (cache_queue b).

Definition with_cache_queue (q : list string) (b : t) : t :=
  mk (origin b) (url b) (max_bugs b) (client b) (cache b) q.

Section Methods.
Context {L : PyLib} {N : Network}.

(** The backend object and the network. *)
Record world : Type := World { wire : net; self : t }.

(** A method of [self.client] run from a method of the backend. *)
Definition on_client {A} (m : gen BugzillaRESTClient.state A) : gen world A :=
  fun w =>
    let '(ys, s', r) := m (wire w, client (self w)) in
    (ys, World (fst s') (with_client (snd s') (self w)), r).

(** Modelled from the spec: [Backend._purge_cache_queue] of
    perceval/backend.py, which is not part of the sources at hand;
    it discards the entries buffered and not committed. *)
Definition _purge_cache_queue : gen world unit :=
  modify (fun w => World (wire w) (with_cache_queue [] (self w))).

(** Modelled from the spec: [Backend._push_cache_queue] of
    perceval/backend.py; it buffers one entry behind those already
    buffered. *)
Definition _push_cache_queue (item : string) : gen world unit :=
  modify (fun w =>
            World (wire w)
                  (with_cache_queue (cache_queue (self w) ++ [item]) (self w))).

(** Modelled from the spec: [Backend._flush_cache_queue] of
    perceval/backend.py together with [Cache.store]; it commits the
    buffered entries, in their order, behind the committed ones and
    leaves the buffer empty.  Without a cache there is nothing to commit
    to. *)
Definition _flush_cache_queue : gen world unit :=
  modify (fun w =>
            match cache (self w) with
            | Some committed =>
                World (wire w)
                      (with_cache_queue []
                         (with_cache (Some (committed ++ cache_queue (self w)))
                                     (self w)))
            | None => w
            end).

(** Modelled from the spec: [Backend.__init__] of perceval/backend.py
    followed by the rest of the constructor; a new backend has nothing
    buffered. *)
Definition __init__ (url : string) (user password : option string)
           (api_token : json) (max_bugs : Z) (cache : option (list string))
           (origin : option string) (n : net) : net * res t :=
  let origin :=
    match origin with
    | Some o => if truthy (JString o) then o else url
    | None => url
    end in
  match BugzillaRESTClient.__init__ url user password api_token n with
  | (n', Ok client) => (n', Ok (mk origin url (Z.max 1 max_bugs) client cache []))
  | (n', Raise e) => (n', Raise e)
  | (n', Diverge) => (n', Diverge)
  end.

Definition __fetch_and_parse_comments (bug_id : json) : gen world json :=
  raw_comments <- on_client (BugzillaRESTClient.comments bug_id) ;;
  _push_cache_queue raw_comments ;;
  data <- loads raw_comments ;;
  bugs <- lift (getitem data "bugs") ;;
  entry <- lift (getitem bugs (py_str bug_id)) ;;
  comments <- lift (getitem entry "comments") ;;
  ret comments.

Definition __fetch_and_parse_history (bug_id : json) : gen world json :=
  raw_history <- on_client (BugzillaRESTClient.history bug_id) ;;
  _push_cache_queue raw_history ;;
  data <- loads raw_history ;;
  bugs <- lift (getitem data "bugs") ;;
  entry <- lift (getitem0 bugs) ;;
  history <- lift (getitem entry "history") ;;
  ret history.

Definition __fetch_and_parse_attachments (bug_id : json) : gen world json :=
  raw_attachments <- on_client (BugzillaRESTClient.attachments bug_id) ;;
  _push_cache_queue raw_attachments ;;
  data <- loads raw_attachments ;;
  bugs <- lift (getitem data "bugs") ;;
  attachments <- lift (getitem bugs (py_str bug_id)) ;;
  ret attachments.

(** The body of [for bug in data['bugs']] in [__fetch_bugs]. *)
Definition fetch_bug (bug : json) : gen world unit :=
  bug_id <- lift (getitem bug "id") ;;
  comments <- __fetch_and_parse_comments bug_id ;;
  bug <- lift (setitem bug "comments" comments) ;;
  history <- __fetch_and_parse_history bug_id ;;
  bug <- lift (setitem bug "history" history) ;;
  attachments <- __fetch_and_parse_attachments bug_id ;;
  bug <- lift (setitem bug "attachments" attachments) ;;
  yield bug.

(** [__fetch_bugs]; [fuel] bounds the rounds of its [while True]. *)
Fixpoint __fetch_bugs (fuel : nat) (from_date : datetime) (offset : Z)
  : gen world unit :=
  match fuel with
  | O => diverge
  | S fuel' =>
      limit <- gets (fun w => max_bugs (self w)) ;;
      raw_bugs <- on_client (BugzillaRESTClient.bugs from_date offset limit) ;;
      _push_cache_queue raw_bugs ;;
      data <- loads raw_bugs ;;
      bugs <- lift (getitem data "bugs") ;;
      n <- lift (py_len bugs) ;;
      if n =? 0 then ret tt
      else
        items <- lift (py_iter bugs) ;;
        for_each items fetch_bug ;;
        _flush_cache_queue ;;
        step <- gets (fun w => max_bugs (self w)) ;;
        __fetch_bugs fuel' from_date (offset + step)
  end.

(** [fetch] as written: the generator that the decorator [metadata] of
    perceval/backend.py runs ([Decorated.fetch] is the method under the
    decorator).  It returns the number of bugs it logs at the end. *)
Definition fetch (fuel : nat) (from_date : option datetime) : gen world Z :=
  generator
    (let from_date :=
       match from_date with
       | Some d => d
       | None => DEFAULT_DATETIME
       end in
     _purge_cache_queue ;;
     counting (generator (__fetch_bugs fuel from_date 0))).

(** [next(cache_items)]. *)
Definition next : gen (list string) string :=
  fun items =>
    match items with
    | [] => ([], [], Raise StopIteration)
    | x :: rest => ([], rest, Ok x)
    end.

(** The body of [for bug in bugs['bugs']] in [fetch_from_cache]. *)
Definition replay_bug (bug : json) : gen (list string) unit :=
  bug_id <- lift (getitem bug "id") ;;
  cd <- (raw <- next ;; loads raw) ;;
  hd <- (raw <- next ;; loads raw) ;;
  ad <- (raw <- next ;; loads raw) ;;
  cbugs <- lift (getitem cd "bugs") ;;
  centry <- lift (getitem cbugs (py_str bug_id)) ;;
  comments <- lift (getitem centry "comments") ;;
  bug <- lift (setitem bug "comments" comments) ;;
  hbugs <- lift (getitem hd "bugs") ;;
  hentry <- lift (getitem0 hbugs) ;;
  history <- lift (getitem hentry "history") ;;
  bug <- lift (setitem bug "history" history) ;;
  abugs <- lift (getitem ad "bugs") ;;
  attachments <- lift (getitem abugs (py_str bug_id)) ;;
  bug <- lift (setitem bug "attachments" attachments) ;;
  yield bug.

(** The [while True] of [fetch_from_cache] over the iterator
    [cache_items]; [fuel] bounds its rounds. *)
Fixpoint replay (fuel : nat) : gen (list string) unit :=
  match fuel with
  | O => diverge
  | S fuel' =>
      entry <- except_StopIteration
                 (raw_bugs <- next ;; ret (Some raw_bugs)) (ret None) ;;
      match entry with
      | None => ret tt
      | Some raw_bugs =>
          bugs <- loads raw_bugs ;;
          shells <- lift (getitem bugs "bugs") ;;
          items <- lift (py_iter shells) ;;
          for_each items replay_bug ;;
          replay fuel'
      end
  end.

(** Modelled from the spec: [Cache.retrieve] of perceval/cache.py, which is
    not part of the sources at hand; it gives the committed entries back in
    their order.  A generator that reads them is run from a method of the
    backend, which it leaves as it is. *)
Definition over_cache {A} (items : list string) (m : gen (list string) A)
  : gen world A :=
  fun w => let '(ys, _, r) := m items in (ys, w, r).

(** [fetch_from_cache] as written: the generator that the decorator
    runs ([Decorated.fetch_from_cache] is the method under the decorator).
    Every round of its loop takes an entry from the iterator or ends the
    loop, so one round more than there are entries is all it can run. *)
Definition fetch_from_cache : gen world Z :=
  generator
    (c <- gets (fun w => cache (self w)) ;;
     match c with
     | None => raise (CacheError "cache instance was not provided")
     | Some cache_items =>
         counting (over_cache cache_items (replay (S (length cache_items))))
     end).

(** [metadata_id]. *)
Definition metadata_id (item : json) : res string :=
  match getitem item "id" with
  | Ok id => Ok (py_str id)
  | Raise e => Raise e
  | Diverge => Diverge
  end.

(** [metadata_updated_on]. *)
Definition metadata_updated_on (item : json) : res (Z * Z) :=
  match getitem item "last_change_time" with
  | Ok ts =>
      match str_to_datetime ts with
      | Ok ts => Ok (timestamp ts)
      | Raise e => Raise e
      | Diverge => Diverge
      end
  | Raise e => Raise e
  | Diverge => Diverge
  end.

End Methods.

End BugzillaREST.

(** ** The protocol between the backend, the server and the cache

    The definitions below describe what a run exchanges with the server and
    what it leaves in the cache; the statements about [fetch] and
    [fetch_from_cache] are written with them. *)

Import BugzillaREST.

Declare Scope res_scope.
Delimit Scope res_scope with res.

Definition res_bind {A B} (r : res A) (k : A -> res B) : res B :=
  match r with
  | Ok a => k a
  | Raise e => Raise e
  | Diverge => Diverge
  end.

Notation "x <- c1 ;; c2" := (res_bind c1 (fun x => c2))
  (at level 61, c1 at next level, right associativity) : res_scope.

(** A GET: its URL and its parameters. *)
Definition request : Type := string * list (string * json).

(** A GET and the response that answered it. *)
Definition exchange : Type := request * Response.

(** The status codes on which [raise_for_status] raises. *)
Definition is_error (r : Response) : bool :=
  (400 <=? status_code r) && (status_code r <? 600).

Definition success (r : Response) : Prop := is_error r = false.

Section Protocol.
Context {L : PyLib} {N : Network}.

(** The GET that [call] sends for a resource. *)
Definition request_of (c : BugzillaRESTClient.t) (resource : string)
           (params : list (string * json)) : request :=
  ((BugzillaRESTClient.base_url c ++ "/rest/" ++ resource)%string,
   if truthy (BugzillaRESTClient.api_token c)
   then dict_set "token" (BugzillaRESTClient.api_token c) params
   else params).

Definition bugs_request (c : BugzillaRESTClient.t) (from_date : datetime)
           (offset limit : Z) : request :=
  request_of c "bug"
    (let params := [("last_change_time",
                     JString (strftime_iso (datetime_to_utc from_date)));
                    ("limit", JInt limit);
                    ("order", JString "changeddate");
                    ("include_fields", JString "_all")] in
     if offset =? 0 then params else params ++ [("offset", JInt offset)]).

Definition comments_request (c : BugzillaRESTClient.t) (id : json) : request :=
  request_of c (urljoin [JString "bug"; id; JString "comment"]) [].

Definition history_request (c : BugzillaRESTClient.t) (id : json) : request :=
  request_of c (urljoin [JString "bug"; id; JString "history"]) [].

Definition attachments_request (c : BugzillaRESTClient.t) (id : json) : request :=
  request_of c (urljoin [JString "bug"; id; JString "attachment"])
             [("exclude_fields", JString "data")].

(** [served n xs n']: from state [n] the network answers the GETs of [xs],
    one after the other, with the responses of [xs], and is then in state
    [n']. *)
Inductive served : net -> list exchange -> net -> Prop :=
| served_nil : forall n, served n [] n
| served_cons : forall n rq r n1 xs n2,
    requests_get (fst rq) (snd rq) n = (Replied r, n1) ->
    served n1 xs n2 ->
    served n ((rq, r) :: xs) n2.

Definition decode (raw : string) : res json :=
  match json_loads raw with
  | Some v => Ok v
  | None => Raise JSONDecodeError
  end.

(** The comments of a bug, out of the raw response. *)
Definition parse_comments (id : json) (raw : string) : res json :=
  (data <- decode raw ;;
   bugs <- getitem data "bugs" ;;
   entry <- getitem bugs (py_str id) ;;
   getitem entry "comments")%res.

Definition parse_history (raw : string) : res json :=
  (data <- decode raw ;;
   bugs <- getitem data "bugs" ;;
   entry <- getitem0 bugs ;;
   getitem entry "history")%res.

Definition parse_attachments (id : json) (raw : string) : res json :=
  (data <- decode raw ;;
   bugs <- getitem data "bugs" ;;
   getitem bugs (py_str id))%res.

(** The bug assembled from its shell and the three raw responses. *)
Definition assemble (shell : json) (c h a : string) : res json :=
  (id <- getitem shell "id" ;;
   comments <- parse_comments id c ;;
   bug <- setitem shell "comments" comments ;;
   history <- parse_history h ;;
   bug <- setitem bug "history" history ;;
   attachments <- parse_attachments id a ;;
   setitem bug "attachments" attachments)%res.

(** One bug of a page: its shell and identifier, the responses to the
    three GETs made for it, and the bug handed to the caller. *)
Record bug_io : Type := BugIO {
  b_shell : json;
  b_id : json;
  b_comments : Response;
  b_history : Response;
  b_attachments : Response;
  b_bug : json
}.

(** One page with bugs: the response to the list GET and its bugs. *)
Record page_io : Type := PageIO {
  p_reply : Response;
  p_bugs : list bug_io
}.

Definition bug_ok (x : bug_io) : Prop :=
  getitem (b_shell x) "id" = Ok (b_id x) /\
  success (b_comments x) /\ success (b_history x) /\ success (b_attachments x) /\
  assemble (b_shell x) (text (b_comments x)) (text (b_history x))
           (text (b_attachments x)) = Ok (b_bug x).

Definition page_ok (p : page_io) : Prop :=
  success (p_reply p) /\
  p_bugs p <> [] /\
  (exists data shells,
      json_loads (text (p_reply p)) = Some data /\
      getitem data "bugs" = Ok shells /\
      py_iter shells = Ok (map b_shell (p_bugs p))) /\
  Forall bug_ok (p_bugs p).

(** A response to the list GET that holds no bug. *)
Definition empty_page (r : Response) : Prop :=
  success r /\
  exists data shells,
    json_loads (text r) = Some data /\
    getitem data "bugs" = Ok shells /\
    py_len shells = Ok 0.

Definition bug_entries (x : bug_io) : list string :=
  [text (b_comments x); text (b_history x); text (b_attachments x)].

Definition bug_exchanges (c : BugzillaRESTClient.t) (x : bug_io) : list exchange :=
  [(comments_request c (b_id x), b_comments x);
   (history_request c (b_id x), b_history x);
   (attachments_request c (b_id x), b_attachments x)].

Definition page_entries (p : page_io) : list string :=
  text (p_reply p) :: flat_map bug_entries (p_bugs p).

Definition page_exchanges (c : BugzillaRESTClient.t) (from_date : datetime)
           (limit offset : Z) (p : page_io) : list exchange :=
  (bugs_request c from_date offset limit, p_reply p)
    :: flat_map (bug_exchanges c) (p_bugs p).

Definition page_yields (p : page_io) : list json := map b_bug (p_bugs p).

(** The exchanges of consecutive pages, the first one asked at [offset]. *)
Fixpoint run_exchanges (c : BugzillaRESTClient.t) (from_date : datetime)
         (limit offset : Z) (pages : list page_io) : list exchange :=
  match pages with
  | [] => []
  | p :: pages' =>
      page_exchanges c from_date limit offset p
        ++ run_exchanges c from_date limit (offset + limit) pages'
  end.

(** The offset of the list GET that follows the given pages. *)
Definition next_offset (offset limit : Z) (pages : list page_io) : Z :=
  offset + limit * Z.of_nat (length pages).

(** The number of bugs on the given pages. *)
Definition bug_count (pages : list page_io) : nat :=
  list_sum (map (fun p => length (p_bugs p)) pages).

(** The date [fetch] works with. *)
Definition since (from_date : option datetime) : datetime :=
  match from_date with
  | Some d => d
  | None => DEFAULT_DATETIME
  end.

(** The raw texts of the responses of a list of exchanges. *)
Definition texts (xs : list exchange) : list string :=
  map (fun x => text (snd x)) xs.


(** The backend after it buffered the entries [q]. *)
Definition buffered (q : list string) (b : t) : t :=
  with_cache_queue (cache_queue b ++ q) b.

(** The backend after a flush of its queue. *)
Definition flushed (b : t) : t :=
  match cache b with
  | Some committed =>
      with_cache_queue [] (with_cache (Some (committed ++ cache_queue b)) b)
  | None => b
  end.

(** The backend after it went through the given pages. *)
Definition after_pages (pages : list page_io) (b : t) : t :=
  fold_left (fun b p => flushed (buffered (page_entries p) b)) pages b.

(** One GET of the backend followed by what it does with the answer: on
    an error status it raises, otherwise it buffers the raw text and
    carries on with what [parse] makes of it. *)
Definition receive (rq : BugzillaRESTClient.t -> request)
           (parse : string -> res json) : gen world json :=
  fun w =>
    let q := rq (client (self w)) in
    match requests_get (fst q) (snd q) (wire w) with
    | (Replied r, n') =>
        if is_error r
        then ([], World n' (self w), Raise (HTTPError (status_code r)))
        else ([], World n' (buffered [text r] (self w)), parse (text r))
    | (Failed e, n') => ([], World n' (self w), Raise e)
    end.

(** The first steps of a round of [__fetch_bugs]: the list GET, the
    buffering of its answer and the decoding of the bug shells, up to [data['bugs']]. *)
Definition fetch_page (from_date : datetime) (offset : Z) : gen world json :=
  limit <- gets (fun w => max_bugs (self w)) ;;
  raw_bugs <- on_client (BugzillaRESTClient.bugs from_date offset limit) ;;
  _push_cache_queue raw_bugs ;;
  data <- loads raw_bugs ;;
  lift (getitem data "bugs").

(** A round of [__fetch_bugs] up to its flush: the page and its bugs.  It
    tells whether the flush and a next round follow. *)
Definition round_body (from_date : datetime) (offset : Z) : gen world bool :=
  bugs <- fetch_page from_date offset ;;
  n <- lift (py_len bugs) ;;
  if n =? 0 then ret false
  else
    items <- lift (py_iter bugs) ;;
    for_each items fetch_bug ;;
    ret true.

(** The list of bug shells of a page, out of the raw response. *)
Definition parse_page (raw : string) : res json :=
  (data <- decode raw ;; getitem data "bugs")%res.

End Protocol.

(** ** A scripted server and a decoder for the examples *)

(** A server that answers the GETs it gets with the replies of a script,
    one after the other, whatever is asked; when the script is over the
    connection fails. *)
Definition scripted : Network := {|
  net := list reply;
  requests_get := fun _ _ pending =>
    match pending with
    | [] => (Failed (RequestException "connection refused"), [])
    | r :: rest => (r, rest)
    end
|}.

Definition dquote : string := String (ascii_of_nat 34) EmptyString.

Definition quoted (s : string) : string := (dquote ++ s ++ dquote)%string.

Definition decimal (n : Z) : string := NilZero.string_of_int (Z.to_int n).

(** The JSON text of a value whose strings need no escape. *)
Fixpoint dumps (v : json) : string :=
  match v with
  | JNull => "null"
  | JBool true => "true"
  | JBool false => "false"
  | JInt n => decimal n
  | JFloat r => r
  | JString s => quoted s
  | JArray l =>
      "[" ++ (fix items (l : list json) : string :=
                match l with
                | [] => ""
                | [x] => dumps x
                | x :: l' => dumps x ++ ", " ++ items l'
                end) l ++ "]"
  | JObject m =>
      "{" ++ (fix fields (m : list (string * json)) : string :=
                match m with
                | [] => ""
                | [(k, x)] => quoted k ++ ": " ++ dumps x
                | (k, x) :: m' => quoted k ++ ": " ++ dumps x ++ ", " ++ fields m'
                end) m ++ "}"
  end%string.

(** The civil date of a day count, the inverse of [days_from_civil]. *)
Definition civil_from_days (z : Z) : Z * Z * Z :=
  let z := z + 719468 in
  let era := z / 146097 in
  let doe := z - era * 146097 in
  let yoe := (doe - doe / 1460 + doe / 36524 - doe / 146096) / 365 in
  let doy := doe - (365 * yoe + yoe / 4 - yoe / 100) in
  let mp := (5 * doy + 2) / 153 in
  let d := doy - (153 * mp + 2) / 5 + 1 in
  let m := if mp <? 10 then mp + 3 else mp - 9 in
  ((yoe + era * 400 + (if m <=? 2 then 1 else 0)), m, d).

Definition to_utc (local : datetime -> Z) (dt : datetime) : datetime :=
  let off := match utcoffset dt with Some o => o | None => local dt end in
  let s := wall_seconds dt - off in
  let '(y, m, d) := civil_from_days (s / 86400) in
  let r := s mod 86400 in
  {| year := y; month := m; day := d;
     hour := r / 3600; minute := (r mod 3600) / 60; second := r mod 60;
     microsecond := microsecond dt; utcoffset := Some 0 |}.

Definition pad (width : nat) (n : Z) : string :=
  let s := decimal n in
  (string_of_list_ascii (repeat "0"%char (width - String.length s)) ++ s)%string.

Definition iso_basic (dt : datetime) : string :=
  (pad 4 (year dt) ++ "-" ++ pad 2 (month dt) ++ "-" ++ pad 2 (day dt) ++ "T"
   ++ pad 2 (hour dt) ++ ":" ++ pad 2 (minute dt) ++ ":" ++ pad 2 (second dt)
   ++ "Z")%string.

Definition epoch : datetime :=
  {| year := 1970; month := 1; day := 1; hour := 0; minute := 0; second := 0;
     microsecond := 0; utcoffset := Some 0 |}.

(** A reply after which the backend carries on: a response whose status is
    no error. *)
Definition good (x : reply) : Prop :=
  match x with
  | Replied r => success r
  | Failed _ => False
  end.

(** The exception a reply that is not good makes [call] raise. *)
Definition exn_of (x : reply) : exn :=
  match x with
  | Replied r => HTTPError (status_code r)
  | Failed e => e
  end.

(** The responses of a bug and of a page, in the order they are received. *)
Definition bug_responses (x : bug_io) : list Response :=
  [b_comments x; b_history x; b_attachments x].

Definition page_responses (p : page_io) : list Response :=
  p_reply p :: flat_map bug_responses (p_bugs p).

(** [within_page m]: on a scripted server, a run of [m] takes replies off
    the script and buffers the text of each response it takes; it commits
    nothing.  Either all the replies it took are good, or the last one is
    not and the run ends with the exception of that reply. *)
Definition within_page {L : PyLib} {A} (m : gen (world (N := scripted)) A) : Prop :=
  forall (n : list reply) b ys w' r,
    m (World (N := scripted) n b) = (ys, w', r) ->
    exists rs,
      Forall success rs /\
      self w' = buffered (map text rs) b /\
      (n = map Replied rs ++ wire w'
       \/ exists bad,
           n = map Replied rs ++ bad :: wire w' /\ ~ good bad /\
           r = Raise (exn_of bad)).

(** The values whose JSON texts the examples exchange. *)
Definition page_10_11 : json :=
  JObject [("bugs", JArray [JObject [("id", JInt 10); ("summary", JString "crash")];
                            JObject [("id", JInt 11); ("summary", JString "typo")]])].

Definition page_none : json := JObject [("bugs", JArray [])].

Definition comments_of (id : string) (who : string) : json :=
  JObject [("bugs", JObject [(id, JObject [("comments",
             JArray [JObject [("creator", JString who)]])])])].

Definition history_of (id : Z) (who : string) : json :=
  JObject [("bugs", JArray [JObject [("id", JInt id);
             ("history", JArray [JObject [("who", JString who)]])]])].

Definition attachments_of (id : string) (file : string) : json :=
  JObject [("bugs", JObject [(id, JArray [JObject [("file_name", JString file)]])])].

Definition known_values : list json :=
  [page_10_11; page_none;
   comments_of "10" "ann"; history_of 10 "ann"; attachments_of "10" "a.log";
   comments_of "11" "bob"; history_of 11 "bob"; attachments_of "11" "b.log"].

(** Two timestamps as Bugzilla writes them, and what they parse to. *)
Definition known_dates : list (string * datetime) :=
  [("2016-06-07T13:21:50Z",
    {| year := 2016; month := 6; day := 7; hour := 13; minute := 21;
       second := 50; microsecond := 0; utcoffset := Some 0 |});
   ("2016-06-07T15:21:50+02:00",
    {| year := 2016; month := 6; day := 7; hour := 15; minute := 21;
       second := 50; microsecond := 0; utcoffset := Some 7200 |})].

(** The library as the examples need it: [json.loads] on the texts of
    [known_values] (any other text is refused), [str_to_datetime] on the
    strings of [known_dates], a machine whose local zone is UTC. *)
Definition examples : PyLib := {|
  json_loads := fun raw => find (fun v => String.eqb (dumps v) raw) known_values;
  py_repr := dumps;
  urljoin := fun parts =>
    String.concat "/" (map (fun p => match p with
                                     | JString s => s
                                     | JInt n => decimal n
                                     | _ => dumps p
                                     end) parts);
  datetime_to_utc := to_utc (fun _ => 0);
  strftime_iso := iso_basic;
  str_to_datetime := fun ts =>
    match ts with
    | JString s =>
        match find (fun d => String.eqb (fst d) s) known_dates with
        | Some d => Ok (snd d)
        | None => Raise InvalidDateError
        end
    | _ => Raise InvalidDateError
    end;
  DEFAULT_DATETIME := epoch;
  local_utcoffset := fun _ => 0
|}.

(** A response with status 200. *)
Definition ok200 (body : json) : Response :=
  {| status_code := 200; text := dumps body |}.

(** The upstream of the examples: one page with the bugs 10 and 11, three
    responses for each, and an empty page. *)
Definition upstream : list reply :=
  map Replied
      [ok200 page_10_11;
       ok200 (comments_of "10" "ann"); ok200 (history_of 10 "ann");
       ok200 (attachments_of "10" "a.log");
       ok200 (comments_of "11" "bob"); ok200 (history_of 11 "bob");
       ok200 (attachments_of "11" "b.log");
       ok200 page_none].

(** A backend of the examples, with an empty cache and nothing buffered. *)
Definition backend0 : BugzillaREST.t :=
  BugzillaREST.mk "http://example.com" "http://example.com" 500
                  (BugzillaRESTClient.mk "http://example.com" JNull)
                  (Some []) [].

(** The run of the examples starts here. *)
Definition world0 : world (N := scripted) := World (N := scripted) upstream backend0.

Definition shell_of (id : Z) (summary : string) : json :=
  JObject [("id", JInt id); ("summary", JString summary)].

Definition bug_of (id : Z) (summary who file : string) : json :=
  JObject [("id", JInt id); ("summary", JString summary);
           ("comments", JArray [JObject [("creator", JString who)]]);
           ("history", JArray [JObject [("who", JString who)]]);
           ("attachments", JArray [JObject [("file_name", JString file)]])].

Definition bug10 : bug_io :=
  BugIO (shell_of 10 "crash") (JInt 10)
        (ok200 (comments_of "10" "ann")) (ok200 (history_of 10 "ann"))
        (ok200 (attachments_of "10" "a.log")) (bug_of 10 "crash" "ann" "a.log").

Definition bug11 : bug_io :=
  BugIO (shell_of 11 "typo") (JInt 11)
        (ok200 (comments_of "11" "bob")) (ok200 (history_of 11 "bob"))
        (ok200 (attachments_of "11" "b.log")) (bug_of 11 "typo" "bob" "b.log").

Definition page1 : page_io := PageIO (ok200 page_10_11) [bug10; bug11].

(** The run of [fetch] from there: what it hands over and the state it
    leaves. *)
Definition yields0 : list json :=
  fst (fst (fetch (L := examples) (N := scripted) 5 None world0)).

Definition world1 : world (N := scripted) :=
  snd (fst (fetch (L := examples) (N := scripted) 5 None world0)).

(** A backend in which an earlier run left two entries buffered. *)
Definition stale_backend : BugzillaREST.t :=
  with_cache_queue ["left"; "over"] backend0.

(** A bug item as [fetch] hands it over, with its time of last change. *)
Definition item10 : json :=
  JObject [("id", JInt 10);
           ("last_change_time", JString "2016-06-07T15:21:50+02:00")].

(** The exceptions that reading and decoding the cache can raise. *)
Definition replay_error (e : exn) : bool :=
  match e with
  | StopIteration | JSONDecodeError | KeyError _ | IndexError | TypeError => true
  | _ => false
  end.

(** [raises_in P m]: every exception [m] ends with satisfies [P]. *)
Definition raises_in {S A} (P : exn -> bool) (m : gen S A) : Prop :=
  forall s ys s' e, m s = (ys, s', Raise e) -> P e = true.

(** An upstream that fails: the page with the bugs 10 and 11, the three
    responses for bug 10, then a status 503 where the comments of bug 11
    are asked, and what the server would have sent next. *)
Definition unavailable : Response :=
  {| status_code := 503; text := "Service Unavailable" |}.

Definition failing_upstream : list reply :=
  map Replied
      [ok200 page_10_11;
       ok200 (comments_of "10" "ann"); ok200 (history_of 10 "ann");
       ok200 (attachments_of "10" "a.log");
       unavailable;
       ok200 (history_of 11 "bob"); ok200 (attachments_of "11" "b.log");
       ok200 page_none].

Definition world_failed : world (N := scripted) :=
  snd (fst (fetch (L := examples) (N := scripted) 5 None
                  (World (N := scripted) failing_upstream backend0))).

(** ** More of the protocol: the client on its own *)

(** What [call] comes back with, given the answer of the network: the
    text of the response, or the exception of an error status or of a
    failed request.  The client itself stays as it is. *)
Definition answered {N : Network} (c : BugzillaRESTClient.t) (x : reply * net)
  : list json * (net * BugzillaRESTClient.t) * res string :=
  match x with
  | (Replied r, n') =>
      ([], (n', c),
       if is_error r then Raise (HTTPError (status_code r)) else Ok (text r))
  | (Failed e, n') => ([], (n', c), Raise e)
  end.

(** The GET that [login] sends. *)
Definition login_request (c : BugzillaRESTClient.t) (user password : string)
  : request :=
  request_of c "login" [("login", JString user); ("password", JString password)].

(** The token a new client starts with. *)
Definition initial_token (api_token : json) : json :=
  if truthy api_token then api_token else JNull.

(** More values for the examples: the body of a successful login and a
    page whose second bug has no identifier; and a library that decodes
    their texts besides those of [known_values]. *)
Definition token_body : json := JObject [("token", JString "s3cr3t")].

Definition page_no_id : json :=
  JObject [("bugs", JArray [JObject [("id", JInt 10); ("summary", JString "crash")];
                            JObject [("summary", JString "lost")]])].

Definition login_lib : PyLib := {|
  json_loads := fun raw =>
    find (fun v => String.eqb (dumps v) raw)
         (token_body :: page_no_id :: known_values);
  py_repr := py_repr (PyLib := examples);
  urljoin := urljoin (PyLib := examples);
  datetime_to_utc := datetime_to_utc (PyLib := examples);
  strftime_iso := strftime_iso (PyLib := examples);
  str_to_datetime := str_to_datetime (PyLib := examples);
  DEFAULT_DATETIME := epoch;
  local_utcoffset := fun _ => 0
|}.

Definition client0 : BugzillaRESTClient.t :=
  BugzillaRESTClient.mk "http://example.com" JNull.

Definition not_found : Response :=
  {| status_code := 404; text := "Not Found" |}.

(** A round of the loop of [fetch_from_cache] behind its read: the entry
    is decoded as a page and its bugs are read and handed over. *)
Definition replay_page {L : PyLib} (raw_bugs : string) : gen (list string) unit :=
  (bugs <- loads raw_bugs ;;
   shells <- lift (getitem bugs "bugs") ;;
   items <- lift (py_iter shells) ;;
   for_each items replay_bug)%gen.

(** [shrinks m]: a run of [m] over the entries of the cache ends, and
    leaves no more entries than it found. *)
Definition shrinks {A} (m : gen (list string) A) : Prop :=
  forall items ys rest r,
    m items = (ys, rest, r) ->
    r <> Diverge /\ (length rest <= length items)%nat.

(** The exceptions [fetch_from_cache] can end with. *)
Definition replay_outcome (e : exn) : Prop :=
  e = CacheError "cache instance was not provided" \/ e = RuntimeError
  \/ e = JSONDecodeError \/ (exists k, e = KeyError k) \/ e = IndexError
  \/ e = TypeError.

(** A client of the examples that holds a token. *)
Definition backend_with_token : BugzillaREST.t :=
  with_client (BugzillaRESTClient.mk "http://example.com" (JString "s3cr3t"))
              backend0.

(** ** The decorator of the public generators

    [fetch] and [fetch_from_cache] are declared under the decorator
    [metadata] of perceval/backend.py, which is not part of the sources
    at hand.  What a caller iterates over is the decorated generator: it
    runs the generator as written and, for each piece of data that one
    yields, builds an item and yields the item in its place.  An
    exception raised while the item is built ends the decorated generator
    there; the generator as written is then never resumed. *)

(** The part of the decorator that is missing, taken as a parameter:
    [metadata origin data] is the item built for [data] on a backend of
    that origin, or how building it ends otherwise.  An item is taken to
    depend on the origin of the backend and on the data alone; the moment
    at which it is built is left out.  The decorator of the examples,
    [stamping] below, builds its items from what [metadata_id] and
    [metadata_updated_on] of the backend make of the data. *)
Class Decorator : Type := {
  metadata : string -> json -> res json
}.

(** [wrapped origin ys items]: the decorator builds the items [items] for
    the pieces of data [ys], one for each, in their order. *)
Definition wrapped {D : Decorator} (origin : string) (ys items : list json) : Prop :=
  Forall2 (fun y item => metadata origin y = Ok item) ys items.

Module Decorated.

Section Methods.
Context {L : PyLib} {N : Network} {D : Decorator}.

(** What becomes of [yield data] under the decorator: the item is built
    and handed over, or the run ends with what building it ended with. *)
Definition emit {S} (origin : string) (data : json) : gen S unit :=
  item <- lift (metadata origin data) ;;
  yield item.

(** The body of [for bug in data['bugs']] in [__fetch_bugs], run under the
    decorated [fetch]. *)
Definition fetch_bug (bug : json) : gen world unit :=
  bug_id <- lift (getitem bug "id") ;;
  comments <- __fetch_and_parse_comments bug_id ;;
  bug <- lift (setitem bug "comments" comments) ;;
  history <- __fetch_and_parse_history bug_id ;;
  bug <- lift (setitem bug "history" history) ;;
  attachments <- __fetch_and_parse_attachments bug_id ;;
  bug <- lift (setitem bug "attachments" attachments) ;;
  origin <- gets (fun w => origin (self w)) ;;
  emit origin bug.

(** [__fetch_bugs] run under the decorated [fetch]. *)
Fixpoint __fetch_bugs (fuel : nat) (from_date : datetime) (offset : Z)
  : gen world unit :=
  match fuel with
  | O => diverge
  | S fuel' =>
      limit <- gets (fun w => max_bugs (self w)) ;;
      raw_bugs <- on_client (BugzillaRESTClient.bugs from_date offset limit) ;;
      _push_cache_queue raw_bugs ;;
      data <- loads raw_bugs ;;
      bugs <- lift (getitem data "bugs") ;;
      n <- lift (py_len bugs) ;;
      if n =? 0 then ret tt
      else
        items <- lift (py_iter bugs) ;;
        for_each items fetch_bug ;;
        _flush_cache_queue ;;
        step <- gets (fun w => max_bugs (self w)) ;;
        __fetch_bugs fuel' from_date (offset + step)
  end.

(** [fetch] as callers get it, under [@metadata]. *)
Definition fetch (fuel : nat) (from_date : option datetime) : gen world Z :=
  generator
    (let from_date :=
       match from_date with
       | Some d => d
       | None => DEFAULT_DATETIME
       end in
     _purge_cache_queue ;;
     counting (generator (__fetch_bugs fuel from_date 0))).

(** The body of [for bug in bugs['bugs']] in [fetch_from_cache], run under
    the decorator on a backend of the given origin. *)
Definition replay_bug (origin : string) (bug : json) : gen (list string) unit :=
  bug_id <- lift (getitem bug "id") ;;
  cd <- (raw <- next ;; loads raw) ;;
  hd <- (raw <- next ;; loads raw) ;;
  ad <- (raw <- next ;; loads raw) ;;
  cbugs <- lift (getitem cd "bugs") ;;
  centry <- lift (getitem cbugs (py_str bug_id)) ;;
  comments <- lift (getitem centry "comments") ;;
  bug <- lift (setitem bug "comments" comments) ;;
  hbugs <- lift (getitem hd "bugs") ;;
  hentry <- lift (getitem0 hbugs) ;;
  history <- lift (getitem hentry "history") ;;
  bug <- lift (setitem bug "history" history) ;;
  abugs <- lift (getitem ad "bugs") ;;
  attachments <- lift (getitem abugs (py_str bug_id)) ;;
  bug <- lift (setitem bug "attachments" attachments) ;;
  emit origin bug.

(** The [while True] of [fetch_from_cache], run under the decorator. *)
Fixpoint replay (origin : string) (fuel : nat) : gen (list string) unit :=
  match fuel with
  | O => diverge
  | S fuel' =>
      entry <- except_StopIteration
                 (raw_bugs <- next ;; ret (Some raw_bugs)) (ret None) ;;
      match entry with
      | None => ret tt
      | Some raw_bugs =>
          bugs <- loads raw_bugs ;;
          shells <- lift (getitem bugs "bugs") ;;
          items <- lift (py_iter shells) ;;
          for_each items (replay_bug origin) ;;
          replay origin fuel'
      end
  end.

(** [fetch_from_cache] as callers get it, under [@metadata].  The backend
    stays as it is while the cache is read, so the origin the decorator
    finds at each item is the one the backend has at the start. *)
Definition fetch_from_cache : gen world Z :=
  generator
    (c <- gets (fun w => cache (self w)) ;;
     match c with
     | None => raise (CacheError "cache instance was not provided")
     | Some cache_items =>
         origin <- gets (fun w => origin (self w)) ;;
         counting (over_cache cache_items
                              (replay origin (S (length cache_items))))
     end).

End Methods.

End Decorated.

(** How a run under the decorator ends at a piece of data for which no
    item is built: with what building the item ended with.  A
    [StopIteration] raised there leaves the generator as a
    [RuntimeError]. *)
Definition stopped {A} (built : res json) (r : res A) : Prop :=
  (built = Diverge /\ r = Diverge)
  \/ exists e, built = Raise e
               /\ (r = Raise e \/ (e = StopIteration /\ r = Raise RuntimeError)).

(** [decorates origin g g']: [g'] is [g] run under the decorator on a
    state whose origin [origin] reads and no run of [g] changes.  Either
    an item is built for everything [g] yields, and [g'] yields the items
    and ends as [g] does; or [g'] yields the items of what [g] yields
    before the first piece of data for which none is built, and ends
    there. *)
Definition decorates {D : Decorator} {S A} (origin : S -> string) (g g' : gen S A)
  : Prop :=
  forall s ys s' r,
    g s = (ys, s', r) ->
    origin s' = origin s /\
    ((exists items, wrapped (origin s) ys items /\ g' s = (items, s', r))
     \/ (exists ys1 y ys2 items s'' r',
            ys = ys1 ++ y :: ys2 /\ wrapped (origin s) ys1 items /\
            g' s = (items, s'', r') /\
            stopped (metadata (origin s) y) r')).

(** The origin of the backend, as the decorator reads it at each item. *)
Definition origin_of {N : Network} (w : world) : string := origin (self w).

(** [quiet origin g]: a run of [g] yields nothing and leaves the origin as
    it is. *)
Definition quiet {S A} (origin : S -> string) (g : gen S A) : Prop :=
  forall s ys s' r, g s = (ys, s', r) -> ys = [] /\ origin s' = origin s.

(** A body of a list response that the loop cannot use: it does not decode
    to an object with [bugs], or what it holds there has no length. *)
Definition page_error {L : PyLib} (raw : string) (e : exn) : Prop :=
  parse_page raw = Raise e
  \/ exists shells, parse_page raw = Ok shells /\ py_len shells = Raise e.

(** ** Bugs with their time of last change, and a decorator, for the examples *)

Definition dated_shell (id : Z) (changed summary : string) : json :=
  JObject [("id", JInt id); ("last_change_time", JString changed);
           ("summary", JString summary)].

Definition dated_bug (id : Z) (changed summary who file : string) : json :=
  JObject [("id", JInt id); ("last_change_time", JString changed);
           ("summary", JString summary);
           ("comments", JArray [JObject [("creator", JString who)]]);
           ("history", JArray [JObject [("who", JString who)]]);
           ("attachments", JArray [JObject [("file_name", JString file)]])].

(** A page with the bugs 10 and 11, each with its time of last change, and
    a page whose second bug has no identifier. *)
Definition page_dated : json :=
  JObject [("bugs", JArray [dated_shell 10 "2016-06-07T13:21:50Z" "crash";
                            dated_shell 11 "2016-06-07T15:21:50+02:00" "typo"])].

Definition page_dated_no_id : json :=
  JObject [("bugs", JArray [dated_shell 10 "2016-06-07T13:21:50Z" "crash";
                            JObject [("summary", JString "lost")]])].

(** A body that is JSON but whose [bugs] is a number. *)
Definition page_number : json := JObject [("bugs", JInt 5)].

(** The library of the examples, which decodes the texts of these values
    too. *)
Definition dated_lib : PyLib := {|
  json_loads := fun raw =>
    find (fun v => String.eqb (dumps v) raw)
         (page_dated :: page_dated_no_id :: page_number :: known_values);
  py_repr := py_repr (PyLib := examples);
  urljoin := urljoin (PyLib := examples);
  datetime_to_utc := datetime_to_utc (PyLib := examples);
  strftime_iso := strftime_iso (PyLib := examples);
  str_to_datetime := str_to_datetime (PyLib := examples);
  DEFAULT_DATETIME := epoch;
  local_utcoffset := fun _ => 0
|}.

Definition dated10 : bug_io :=
  BugIO (dated_shell 10 "2016-06-07T13:21:50Z" "crash") (JInt 10)
        (ok200 (comments_of "10" "ann")) (ok200 (history_of 10 "ann"))
        (ok200 (attachments_of "10" "a.log"))
        (dated_bug 10 "2016-06-07T13:21:50Z" "crash" "ann" "a.log").

Definition dated11 : bug_io :=
  BugIO (dated_shell 11 "2016-06-07T15:21:50+02:00" "typo") (JInt 11)
        (ok200 (comments_of "11" "bob")) (ok200 (history_of 11 "bob"))
        (ok200 (attachments_of "11" "b.log"))
        (dated_bug 11 "2016-06-07T15:21:50+02:00" "typo" "bob" "b.log").

Definition dated_page : page_io := PageIO (ok200 page_dated) [dated10; dated11].

(** An item as the decorator of the examples builds it: the data with
    where and what it comes from, an identifier made of the origin and of
    the identifier of the data, and the time the data was last changed
    at, in seconds and microseconds. *)
Definition item (origin id : string) (updated_on : Z * Z) (data : json) : json :=
  JObject [("backend_name", JString "BugzillaREST");
           ("backend_version", JString version);
           ("origin", JString origin);
           ("uuid", JString (origin ++ ":" ++ id));
           ("updated_on", JArray [JInt (fst updated_on); JInt (snd updated_on)]);
           ("data", data)].

(** The decorator of the examples.  It asks [metadata_id] and
    [metadata_updated_on] of the backend for the identifier and the time
    of last change of the data; when one of them raises, no item is
    built. *)
Definition stamping (L : PyLib) : Decorator := {|
  metadata := fun origin data =>
    match metadata_id data with
    | Ok id =>
        match metadata_updated_on data with
        | Ok updated_on => Ok (item origin id updated_on data)
        | Raise e => Raise e
        | Diverge => Diverge
        end
    | Raise e => Raise e
    | Diverge => Diverge
    end
|}.

(** The items of the bugs 10 and 11; both were last changed at the same
    instant, written in two zones. *)
Definition item_10 : json :=
  item "http://example.com" "10" (1465305710, 0) (b_bug dated10).

Definition item_11 : json :=
  item "http://example.com" "11" (1465305710, 0) (b_bug dated11).

(** The upstream of the examples with dated bugs; the same with a body
    that cannot be used in place of the last page; one whose page lists a
    bug without identifier. *)
Definition dated_upstream : list reply :=
  map Replied (page_responses dated_page ++ [ok200 page_none]).

Definition number_upstream : list reply :=
  map Replied (page_responses dated_page ++ [ok200 page_number]).

Definition dated_no_id_upstream : list reply :=
  map Replied
      [ok200 page_dated_no_id;
       ok200 (comments_of "10" "ann"); ok200 (history_of 10 "ann");
       ok200 (attachments_of "10" "a.log");
       ok200 page_none].


(** A cache in which the comments entry of bug 11 is that of bug 10. *)
Definition foreign_cache : list string :=
  map text [ok200 page_dated;
            ok200 (comments_of "10" "ann"); ok200 (history_of 10 "ann");
            ok200 (attachments_of "10" "a.log");
            ok200 (comments_of "10" "ann"); ok200 (history_of 11 "bob");
            ok200 (attachments_of "11" "b.log")].

(** * Properties *)

(** ** Running generators *)

Section GenFacts.
Context {S : Type}.

Lemma bind_Ok_inv {A B} (m : gen S A) (k : A -> gen S B) s ys s' b :
  bind m k s = (ys, s', Ok b) ->
  exists ys1 s1 a ys2,
    m s = (ys1, s1, Ok a) /\ k a s1 = (ys2, s', Ok b) /\ ys = ys1 ++ ys2.
Proof.
  unfold bind. destruct (m s) as [[ys1 s1] [a | e |]]; try discriminate.
  destruct (k a s1) as [[ys2 s2] r] eqn:Hk. intros H. inversion H; subst.
  exists ys1, s1, a, ys2. auto.
Qed.

Lemma lift_Ok_inv {A} (r : res A) (s : S) ys s' a :
  lift r s = (ys, s', Ok a) -> r = Ok a /\ ys = [] /\ s' = s.
Proof. unfold lift. intros H. inversion H. auto. Qed.

Lemma bind_assoc {A B C} (m : gen S A) (k : A -> gen S B) (k' : B -> gen S C) s :
  bind (bind m k) k' s = bind m (fun a => bind (k a) k') s.
Proof.
  unfold bind. destruct (m s) as [[ys1 s1] [a | e |]]; auto.
  destruct (k a s1) as [[ys2 s2] [b | e |]]; auto.
  destruct (k' b s2) as [[ys3 s3] r]. rewrite app_assoc. reflexivity.
Qed.

Lemma bind_ext {A B} (m : gen S A) (k k' : A -> gen S B) s :
  (forall a s1, k a s1 = k' a s1) -> bind m k s = bind m k' s.
Proof.
  intros E. unfold bind. destruct (m s) as [[ys1 s1] [a | e |]]; auto.
  rewrite E. reflexivity.
Qed.

Lemma for_each_app (xs1 xs2 : list json) (body : json -> gen S unit) s :
  for_each (xs1 ++ xs2) body s
  = bind (for_each xs1 body) (fun _ => for_each xs2 body) s.
Proof.
  revert s. induction xs1 as [| x xs1 IH]; intros s; simpl.
  - unfold bind, ret. destruct (for_each xs2 body s) as [[ys s'] r]. reflexivity.
  - rewrite bind_assoc. apply bind_ext. intros _ s1. apply IH.
Qed.

End GenFacts.

(** Take a successful run of [x <- m ;; k] apart: [a] names the value of
    [m], [H1] its run and [H2] the run of [k]. *)
Tactic Notation "split_run" hyp(H) "as" ident(a) ident(H1) ident(H2) :=
  let ys1 := fresh "ys" in
  let s1 := fresh "w" in
  let ys2 := fresh "ys" in
  apply bind_Ok_inv in H;
  destruct H as (ys1 & s1 & a & ys2 & H1 & H2 & ->);
  cbv beta in H2.

(** ** The client *)

Section ClientFacts.
Context {L : PyLib} {N : Network}.

Lemma with_client_same (b : t) : with_client (client b) b = b.
Proof. destruct b; reflexivity. Qed.

(** What [call] does, read off the answer of the network. *)
Lemma on_client_call resource params n b :
  on_client (BugzillaRESTClient.call resource params) (World n b)
  = match requests_get (fst (request_of (client b) resource params))
                       (snd (request_of (client b) resource params)) n with
    | (Replied r, n') =>
        if is_error r
        then ([], World n' b, Raise (HTTPError (status_code r)))
        else ([], World n' b, Ok (text r))
    | (Failed e, n') => ([], World n' b, Raise e)
    end.
Proof.
  unfold on_client, BugzillaRESTClient.call, BugzillaRESTClient.get,
    BugzillaRESTClient.raise_for_status, request_of, is_error, bind, gets, ret,
    raise; simpl.
  destruct (requests_get _ _ n) as [[r | e] n']; simpl;
    [ destruct ((400 <=? status_code r) && (status_code r <? 600)); simpl | ];
    rewrite with_client_same; reflexivity.
Qed.

Lemma bugs_request_eq c from_date offset limit :
  request_of c BugzillaRESTClient.RBUG
    (if truthy (JInt offset)
     then dict_set BugzillaRESTClient.POFFSET (JInt offset)
            [(BugzillaRESTClient.PLAST_CHANGE_TIME,
              JString (strftime_iso (datetime_to_utc from_date)));
             (BugzillaRESTClient.PLIMIT, JInt limit);
             (BugzillaRESTClient.PORDER, JString BugzillaRESTClient.VCHANGE_DATE_ORDER);
             (BugzillaRESTClient.PINCLUDE_FIELDS, JString BugzillaRESTClient.VINCLUDE_ALL)]
     else
       [(BugzillaRESTClient.PLAST_CHANGE_TIME,
         JString (strftime_iso (datetime_to_utc from_date)));
        (BugzillaRESTClient.PLIMIT, JInt limit);
        (BugzillaRESTClient.PORDER, JString BugzillaRESTClient.VCHANGE_DATE_ORDER);
        (BugzillaRESTClient.PINCLUDE_FIELDS, JString BugzillaRESTClient.VINCLUDE_ALL)])
  = bugs_request c from_date offset limit.
Proof.
  unfold bugs_request. simpl. destruct (offset =? 0); reflexivity.
Qed.

End ClientFacts.

(** ** The steps of [__fetch_bugs] *)

(** Decide every test a goal still branches on. *)
Ltac branches :=
  repeat match goal with
         | |- context [match ?x with _ => _ end] =>
             lazymatch x with
             | context [match _ with _ => _ end] => fail
             | _ => destruct x eqn:?; simpl
             end
         end.

Section StepFacts.
Context {L : PyLib} {N : Network}.

Lemma fetch_comments_eq id n b :
  __fetch_and_parse_comments id (World n b)
  = receive (fun c => comments_request c id) (parse_comments id) (World n b).
Proof.
  unfold __fetch_and_parse_comments, BugzillaRESTClient.comments, bind.
  rewrite on_client_call. unfold receive, comments_request. simpl.
  destruct (requests_get _ _ n) as [[r | e] n']; [ | reflexivity ].
  destruct (is_error r); [ reflexivity | ].
  unfold _push_cache_queue, modify, loads, parse_comments, decode, res_bind,
    lift, ret, raise, buffered; simpl.
  branches; reflexivity.
Qed.

Lemma fetch_history_eq id n b :
  __fetch_and_parse_history id (World n b)
  = receive (fun c => history_request c id) parse_history (World n b).
Proof.
  unfold __fetch_and_parse_history, BugzillaRESTClient.history, bind.
  rewrite on_client_call. unfold receive, history_request. simpl.
  destruct (requests_get _ _ n) as [[r | e] n']; [ | reflexivity ].
  destruct (is_error r); [ reflexivity | ].
  unfold _push_cache_queue, modify, loads, parse_history, decode, res_bind,
    lift, ret, raise, buffered; simpl.
  branches; reflexivity.
Qed.

Lemma fetch_attachments_eq id n b :
  __fetch_and_parse_attachments id (World n b)
  = receive (fun c => attachments_request c id) (parse_attachments id) (World n b).
Proof.
  unfold __fetch_and_parse_attachments, BugzillaRESTClient.attachments, bind.
  rewrite on_client_call. unfold receive, attachments_request. simpl.
  destruct (requests_get _ _ n) as [[r | e] n']; [ | reflexivity ].
  destruct (is_error r); [ reflexivity | ].
  unfold _push_cache_queue, modify, loads, parse_attachments, decode, res_bind,
    lift, ret, raise, buffered; simpl.
  branches; reflexivity.
Qed.

Lemma fetch_page_eq from_date offset n b :
  fetch_page from_date offset (World n b)
  = receive (fun c => bugs_request c from_date offset (max_bugs b)) parse_page
            (World n b).
Proof.
  unfold fetch_page, BugzillaRESTClient.bugs, bind, gets. simpl wire. simpl self.
  cbv zeta. rewrite on_client_call. unfold receive. simpl wire. simpl self.
  rewrite bugs_request_eq.
  destruct (requests_get _ _ n) as [[r | e] n']; [ | reflexivity ].
  destruct (is_error r); [ reflexivity | ].
  unfold _push_cache_queue, modify, loads, parse_page, decode, res_bind,
    lift, ret, raise, buffered; simpl.
  branches; reflexivity.
Qed.

Lemma receive_Ok_inv rq parse n b ys w' v :
  receive rq parse (World n b) = (ys, w', Ok v) ->
  exists r n',
    requests_get (fst (rq (client b))) (snd (rq (client b))) n = (Replied r, n') /\
    success r /\ parse (text r) = Ok v /\
    ys = [] /\ w' = World n' (buffered [text r] b).
Proof.
  unfold receive, success. simpl.
  destruct (requests_get _ _ n) as [[r | e] n']; [ | discriminate ].
  destruct (is_error r) eqn:E; [ discriminate | ].
  intros H. inversion H; subst. exists r, n'. auto.
Qed.

Lemma receive_run rq parse n b r n' :
  requests_get (fst (rq (client b))) (snd (rq (client b))) n = (Replied r, n') ->
  success r ->
  receive rq parse (World n b)
  = ([], World n' (buffered [text r] b), parse (text r)).
Proof.
  unfold receive, success. simpl. intros -> ->. reflexivity.
Qed.

Lemma buffered_app q1 q2 (b : t) :
  buffered q2 (buffered q1 b) = buffered (q1 ++ q2) b.
Proof. unfold buffered. simpl. rewrite app_assoc. reflexivity. Qed.

Lemma buffered_nil (b : t) : buffered [] b = b.
Proof. unfold buffered. rewrite app_nil_r. destruct b; reflexivity. Qed.

End StepFacts.

(** ** One bug *)

Section BugFacts.
Context {L : PyLib} {N : Network}.

Lemma yield_inv {S} (item : json) (s : S) ys s' u :
  yield item s = (ys, s', Ok u) -> ys = [item] /\ s' = s.
Proof. unfold yield. intros H. inversion H. auto. Qed.

(** A bug that [fetch_bug] hands over took three successful GETs, whose
    raw texts were buffered in the order comments, history, attachments. *)
Lemma fetch_bug_Ok_inv shell n b ys w' u :
  fetch_bug shell (World n b) = (ys, w', Ok u) ->
  exists x n',
    b_shell x = shell /\ bug_ok x /\
    served n (bug_exchanges (client b) x) n' /\
    ys = [b_bug x] /\ w' = World n' (buffered (bug_entries x) b).
Proof.
  unfold fetch_bug. intros H.
  split_run H as id Hid H. apply lift_Ok_inv in Hid. destruct Hid as (Hid & -> & ->).
  split_run H as cs Hcs H. rewrite fetch_comments_eq in Hcs.
  apply receive_Ok_inv in Hcs.
  destruct Hcs as (rc & n1 & Hc & Sc & Pc & -> & ->).
  split_run H as b1 Hb1 H. apply lift_Ok_inv in Hb1. destruct Hb1 as (Hb1 & -> & ->).
  split_run H as hs Hhs H. rewrite fetch_history_eq in Hhs.
  apply receive_Ok_inv in Hhs.
  destruct Hhs as (rh & n2 & Hh & Sh & Ph & -> & ->).
  split_run H as b2 Hb2 H. apply lift_Ok_inv in Hb2. destruct Hb2 as (Hb2 & -> & ->).
  split_run H as ats Hats H. rewrite fetch_attachments_eq in Hats.
  apply receive_Ok_inv in Hats.
  destruct Hats as (ra & n3 & Ha & Sa & Pa & -> & ->).
  split_run H as b3 Hb3 H. apply lift_Ok_inv in Hb3. destruct Hb3 as (Hb3 & -> & ->).
  apply yield_inv in H. destruct H as (-> & ->).
  exists (BugIO shell id rc rh ra b3), n3.
  cbn [b_shell b_id b_comments b_history b_attachments b_bug].
  split; [ reflexivity | ]. split; [ | split; [ | split; [ reflexivity | ] ] ].
  - unfold bug_ok. cbn [b_shell b_id b_comments b_history b_attachments b_bug].
    repeat split; auto.
    unfold assemble. rewrite Hid. simpl. rewrite Pc. simpl. rewrite Hb1.
    simpl. rewrite Ph. simpl. rewrite Hb2. simpl. rewrite Pa. simpl. exact Hb3.
  - unfold bug_exchanges.
    cbn [b_shell b_id b_comments b_history b_attachments b_bug].
    eapply served_cons; [ exact Hc | ].
    eapply served_cons; [ exact Hh | ].
    eapply served_cons; [ exact Ha | ].
    apply served_nil.
  - rewrite !buffered_app. reflexivity.
Qed.

(** Conversely, three successful GETs whose texts assemble make
    [fetch_bug] hand the assembled bug over. *)
Lemma fetch_bug_run x n b n' :
  bug_ok x ->
  served n (bug_exchanges (client b) x) n' ->
  fetch_bug (b_shell x) (World n b)
  = ([b_bug x], World n' (buffered (bug_entries x) b), Ok tt).
Proof.
  intros (Hid & Sc & Sh & Sa & Hasm) Hs.
  unfold bug_exchanges in Hs.
  inversion Hs as [| ? ? ? n1 ? ? Hc Hs1]; subst; clear Hs.
  inversion Hs1 as [| ? ? ? n2 ? ? Hh Hs2]; subst; clear Hs1.
  inversion Hs2 as [| ? ? ? n3 ? ? Ha Hs3]; subst; clear Hs2.
  inversion Hs3; subst; clear Hs3.
  unfold assemble in Hasm. rewrite Hid in Hasm. simpl in Hasm.
  destruct (parse_comments _ _) as [cs | |] eqn:Pc; try discriminate.
  simpl in Hasm.
  destruct (setitem (b_shell x) _ _) as [b1 | |] eqn:Hb1; try discriminate.
  simpl in Hasm.
  destruct (parse_history _) as [hs | |] eqn:Ph; try discriminate.
  simpl in Hasm.
  destruct (setitem b1 _ _) as [b2 | |] eqn:Hb2; try discriminate.
  simpl in Hasm.
  destruct (parse_attachments _ _) as [ats | |] eqn:Pa; try discriminate.
  simpl in Hasm.
  unfold fetch_bug, bind, lift. rewrite Hid.
  rewrite fetch_comments_eq.
  rewrite (receive_run (fun c => comments_request c (b_id x)) _ n b Hc Sc).
  rewrite Pc, Hb1, fetch_history_eq.
  rewrite (receive_run (fun c => history_request c (b_id x)) _ n1
                       (buffered [text (b_comments x)] b) Hh Sh).
  rewrite Ph, Hb2, fetch_attachments_eq.
  rewrite (receive_run (fun c => attachments_request c (b_id x)) _ n2
             (buffered [text (b_history x)] (buffered [text (b_comments x)] b))
             Ha Sa).
  rewrite Pa, Hasm.
  unfold yield. rewrite !buffered_app. reflexivity.
Qed.

(** The replay of a bug reads the three entries and assembles the same
    bug from them. *)
Lemma replay_bug_run shell c h a bug rest :
  assemble shell c h a = Ok bug ->
  replay_bug shell (c :: h :: a :: rest) = ([bug], rest, Ok tt).
Proof.
  unfold assemble, parse_comments, parse_history, parse_attachments, decode.
  intros H.
  destruct (getitem shell "id") as [id | |] eqn:Hid; try discriminate.
  simpl in H.
  destruct (json_loads c) as [cd |] eqn:Hc; try discriminate. simpl in H.
  destruct (getitem cd "bugs") as [cb | |] eqn:Hcb; try discriminate.
  simpl in H.
  destruct (getitem cb (py_str id)) as [ce | |] eqn:Hce; try discriminate.
  simpl in H.
  destruct (getitem ce "comments") as [cs | |] eqn:Hcs; try discriminate.
  simpl in H.
  destruct (setitem shell "comments" cs) as [b1 | |] eqn:Hb1; try discriminate.
  simpl in H.
  destruct (json_loads h) as [hd |] eqn:Hh; try discriminate. simpl in H.
  destruct (getitem hd "bugs") as [hb | |] eqn:Hhb; try discriminate.
  simpl in H.
  destruct (getitem0 hb) as [he | |] eqn:Hhe; try discriminate. simpl in H.
  destruct (getitem he "history") as [hs | |] eqn:Hhs; try discriminate.
  simpl in H.
  destruct (setitem b1 "history" hs) as [b2 | |] eqn:Hb2; try discriminate.
  simpl in H.
  destruct (json_loads a) as [ad |] eqn:Had; try discriminate. simpl in H.
  destruct (getitem ad "bugs") as [ab | |] eqn:Hab; try discriminate.
  simpl in H.
  destruct (getitem ab (py_str id)) as [ats | |] eqn:Hats; try discriminate.
  simpl in H.
  unfold replay_bug, bind, lift, next, loads. rewrite Hid, Hc. simpl.
  rewrite Hh. simpl. rewrite Had. simpl.
  rewrite Hcb, Hce, Hcs, Hb1, Hhb, Hhe, Hhs, Hb2, Hab, Hats, H.
  reflexivity.
Qed.

End BugFacts.

(** ** The bugs of one page *)

Section PageFacts.
Context {L : PyLib} {N : Network}.

Lemma served_app n xs n1 ys n2 :
  served n xs n1 -> served n1 ys n2 -> served n (xs ++ ys) n2.
Proof.
  induction 1 as [| n rq r n1' xs n1 Hget _ IH]; intros Hys; simpl; auto.
  eapply served_cons; eauto.
Qed.

Lemma served_app_inv xs : forall n ys n2,
  served n (xs ++ ys) n2 -> exists n1, served n xs n1 /\ served n1 ys n2.
Proof.
  induction xs as [| x xs IH]; intros n ys n2 H; simpl in H.
  - exists n. split; [ apply served_nil | exact H ].
  - inversion H as [| ? ? ? n1' ? ? Hget Hrest]; subst.
    destruct (IH _ _ _ Hrest) as (n1 & H1 & H2).
    exists n1. split; [ eapply served_cons; eauto | exact H2 ].
Qed.

Lemma for_each_fetch_Ok_inv items : forall n b ys w' u,
  for_each items fetch_bug (World n b) = (ys, w', Ok u) ->
  exists xs n',
    map b_shell xs = items /\ Forall bug_ok xs /\
    served n (flat_map (bug_exchanges (client b)) xs) n' /\
    ys = map b_bug xs /\
    w' = World n' (buffered (flat_map bug_entries xs) b).
Proof.
  induction items as [| shell items IH]; intros n b ys w' u H; simpl in H.
  - inversion H; subst. exists [], n. simpl.
    rewrite buffered_nil. repeat split; auto. apply served_nil.
  - split_run H as v Hx H.
    apply fetch_bug_Ok_inv in Hx.
    destruct Hx as (x & n1 & <- & Hx & Sx & -> & ->).
    apply IH in H.
    destruct H as (xs & n' & <- & Hxs & Sxs & -> & ->).
    exists (x :: xs), n'. cbn [map flat_map]. rewrite buffered_app.
    repeat split; auto.
    eapply served_app; [ exact Sx | exact Sxs ].
Qed.

Lemma for_each_fetch_run xs : forall n b n',
  Forall bug_ok xs ->
  served n (flat_map (bug_exchanges (client b)) xs) n' ->
  for_each (map b_shell xs) fetch_bug (World n b)
  = (map b_bug xs, World n' (buffered (flat_map bug_entries xs) b), Ok tt).
Proof.
  induction xs as [| x xs IH]; intros n b n' Hok Hs; simpl.
  - inversion Hs; subst. rewrite buffered_nil. reflexivity.
  - inversion Hok as [| ? ? Hx Hxs]; subst.
    cbn [flat_map] in Hs. apply served_app_inv in Hs. destruct Hs as (n1 & S1 & S2).
    unfold bind. rewrite (fetch_bug_run b Hx S1).
    rewrite (IH n1 (buffered (bug_entries x) b) n' Hxs S2).
    rewrite buffered_app. reflexivity.
Qed.

Lemma for_each_replay_run xs : forall rest,
  Forall bug_ok xs ->
  for_each (map b_shell xs) replay_bug (flat_map bug_entries xs ++ rest)
  = (map b_bug xs, rest, Ok tt).
Proof.
  induction xs as [| x xs IH]; intros rest Hok; simpl.
  - reflexivity.
  - inversion Hok as [| ? ? Hx Hxs]; subst.
    destruct Hx as (_ & _ & _ & _ & Hasm).
    unfold bind. rewrite (replay_bug_run _ _ _ _ _ Hasm), (IH rest Hxs).
    reflexivity.
Qed.

Lemma py_len_iter o len items :
  py_len o = Ok len -> py_iter o = Ok items -> len = Z.of_nat (length items).
Proof.
  destruct o; simpl; try discriminate; intros H1 H2;
    inversion H1; inversion H2; subst; clear H1 H2.
  - induction s as [| c s IH]; simpl; [ reflexivity | ].
    simpl in IH. lia.
  - reflexivity.
  - rewrite length_map. reflexivity.
Qed.

Lemma flush_eq n b :
  _flush_cache_queue (World n b) = ([], World n (flushed b), Ok tt).
Proof.
  unfold _flush_cache_queue, modify, flushed. simpl.
  destruct (cache b); reflexivity.
Qed.

Lemma client_flushed (b : t) : client (flushed b) = client b.
Proof. unfold flushed. destruct (cache b); reflexivity. Qed.

Lemma max_bugs_flushed (b : t) : max_bugs (flushed b) = max_bugs b.
Proof. unfold flushed. destruct (cache b); reflexivity. Qed.

Lemma after_pages_cons p pages (b : t) :
  after_pages (p :: pages) b
  = after_pages pages (flushed (buffered (page_entries p) b)).
Proof. reflexivity. Qed.

(** With a cache and nothing buffered at the start, the pages gone
    through are committed one behind the other and nothing stays
    buffered. *)
Lemma after_pages_cache pages : forall b committed,
  cache b = Some committed -> cache_queue b = [] ->
  cache (after_pages pages b) = Some (committed ++ flat_map page_entries pages)
  /\ cache_queue (after_pages pages b) = [].
Proof.
  induction pages as [| p pages IH]; intros b committed Hc Hq.
  - unfold after_pages. simpl. rewrite app_nil_r. auto.
  - rewrite after_pages_cons.
    destruct (IH (flushed (buffered (page_entries p) b))
                 (committed ++ page_entries p)) as (H1 & H2).
    + unfold flushed, buffered. simpl. rewrite Hc, Hq. reflexivity.
    + unfold flushed, buffered. simpl. rewrite Hc. reflexivity.
    + rewrite H1, H2. cbn [flat_map]. rewrite <- app_assoc. auto.
Qed.

End PageFacts.

(** ** The rounds of [__fetch_bugs] *)

Section LoopFacts.
Context {L : PyLib} {N : Network}.

(** A round of the loop: the page, then its bugs, the flush and the next
    round. *)
Lemma fetch_bugs_round fuel from_date offset w :
  __fetch_bugs (S fuel) from_date offset w
  = bind (fetch_page from_date offset)
         (fun bugs =>
            n <- lift (py_len bugs) ;;
            if n =? 0 then ret tt
            else
              items <- lift (py_iter bugs) ;;
              for_each items fetch_bug ;;
              _flush_cache_queue ;;
              step <- gets (fun w => max_bugs (self w)) ;;
              __fetch_bugs fuel from_date (offset + step)) w.
Proof.
  symmetry. unfold fetch_page. cbn [__fetch_bugs].
  rewrite bind_assoc. apply bind_ext. intros limit w1.
  rewrite bind_assoc. apply bind_ext. intros raw w2.
  rewrite bind_assoc. apply bind_ext. intros _ w3.
  rewrite bind_assoc. reflexivity.
Qed.

Lemma parse_page_inv raw shells :
  parse_page raw = Ok shells ->
  exists data, json_loads raw = Some data /\ getitem data "bugs" = Ok shells.
Proof.
  unfold parse_page, decode. destruct (json_loads raw) as [data |]; simpl;
    [ | discriminate ].
  intros H. exists data. auto.
Qed.

Lemma parse_page_run raw data shells :
  json_loads raw = Some data -> getitem data "bugs" = Ok shells ->
  parse_page raw = Ok shells.
Proof.
  unfold parse_page, decode. intros H1 H2. rewrite H1. simpl. exact H2.
Qed.

(** A run of [__fetch_bugs] that ends went through a number of pages with
    bugs and then met an empty page, whose text stays buffered. *)
Lemma fetch_bugs_Ok_inv fuel from_date : forall offset n b ys w' u,
  __fetch_bugs fuel from_date offset (World n b) = (ys, w', Ok u) ->
  exists pages last n',
    Forall page_ok pages /\ empty_page last /\
    served n (run_exchanges (client b) from_date (max_bugs b) offset pages
              ++ [(bugs_request (client b) from_date
                     (next_offset offset (max_bugs b) pages) (max_bugs b),
                   last)]) n' /\
    ys = flat_map page_yields pages /\
    w' = World n' (buffered [text last] (after_pages pages b)) /\
    (length pages < fuel)%nat.
Proof.
  induction fuel as [| fuel IH]; intros offset n b ys w' u H.
  - discriminate.
  - rewrite fetch_bugs_round in H. split_run H as shells Hpage H.
    rewrite fetch_page_eq in Hpage. apply receive_Ok_inv in Hpage.
    destruct Hpage as (r & n1 & Hget & Sr & Hparse & -> & ->).
    apply parse_page_inv in Hparse. destruct Hparse as (data & Hdata & Hshells).
    split_run H as len Hlen H. apply lift_Ok_inv in Hlen.
    destruct Hlen as (Hlen & -> & ->).
    destruct (len =? 0) eqn:Hzero.
    + inversion H; subst. apply Z.eqb_eq in Hzero. subst len.
      exists [], r, n1. unfold next_offset. simpl.
      rewrite Z.mul_0_r, Z.add_0_r.
      repeat split; auto.
      * exists data, shells. auto.
      * eapply served_cons; [ exact Hget | apply served_nil ].
      * lia.
    + apply Z.eqb_neq in Hzero.
      split_run H as items Hiter H. apply lift_Ok_inv in Hiter.
      destruct Hiter as (Hiter & -> & ->).
      split_run H as u1 Hbugs H. apply for_each_fetch_Ok_inv in Hbugs.
      destruct Hbugs as (xs & n2 & <- & Hxs & Sxs & -> & ->).
      split_run H as u2 Hflush H. rewrite flush_eq in Hflush.
      inversion Hflush; subst; clear Hflush.
      split_run H as step Hstep H. unfold gets in Hstep.
      inversion Hstep; subst; clear Hstep.
      apply IH in H.
      destruct H as (pages & last & n' & Hpages & Hlast & Spages & -> & -> & Hfuel).
      cbn [self] in Spages.
      rewrite buffered_app, max_bugs_flushed, client_flushed in Spages.
      change (max_bugs (buffered _ b)) with (max_bugs b) in Spages.
      change (client (buffered _ b)) with (client b) in Spages.
      exists (PageIO r xs :: pages), last, n'.
      split; [ | split; [ exact Hlast | split; [ | split; [ | split ] ] ] ].
      * constructor; [ | exact Hpages ].
        unfold page_ok. cbn [p_reply p_bugs]. repeat split; auto.
        -- intros ->. simpl in Hiter.
           pose proof (py_len_iter _ Hlen Hiter) as E. simpl in E. lia.
        -- exists data, shells. auto.
      * cbn [run_exchanges]. unfold page_exchanges at 1. cbn [p_reply p_bugs].
        simpl app. eapply served_cons; [ exact Hget | ].
        rewrite <- app_assoc. eapply served_app; [ exact Sxs | ].
        replace (next_offset offset (max_bugs b) (PageIO r xs :: pages))
          with (next_offset (offset + max_bugs b) (max_bugs b) pages);
          [ exact Spages | ].
        unfold next_offset. cbn [length]. lia.
      * reflexivity.
      * rewrite after_pages_cons, buffered_app. reflexivity.
      * simpl. lia.
Qed.

End LoopFacts.

(** ** Complete runs and their replay *)

Section RunFacts.
Context {L : PyLib} {N : Network}.

Lemma py_iter_len o items :
  py_iter o = Ok items -> py_len o = Ok (Z.of_nat (length items)).
Proof.
  destruct o; simpl; try discriminate; intros H; inversion H; subst; clear H.
  - f_equal. f_equal. induction s as [| c s IH]; simpl; auto.
  - reflexivity.
  - rewrite length_map. reflexivity.
Qed.

(** When the server answers with pages that hold bugs and then with an
    empty page, [__fetch_bugs] hands over every bug and ends. *)
Lemma fetch_bugs_run from_date pages : forall offset n b n' last fuel,
  Forall page_ok pages -> empty_page last ->
  served n (run_exchanges (client b) from_date (max_bugs b) offset pages
            ++ [(bugs_request (client b) from_date
                   (next_offset offset (max_bugs b) pages) (max_bugs b),
                 last)]) n' ->
  (length pages < fuel)%nat ->
  __fetch_bugs fuel from_date offset (World n b)
  = (flat_map page_yields pages,
     World n' (buffered [text last] (after_pages pages b)), Ok tt).
Proof.
  induction pages as [| p pages IH]; intros offset n b n' last fuel Hok Hlast Hs Hfuel;
    (destruct fuel as [| fuel]; [ simpl in Hfuel; lia | ]);
    rewrite fetch_bugs_round; unfold bind; rewrite fetch_page_eq.
  - simpl in Hs. unfold next_offset in Hs. simpl in Hs.
    rewrite Z.mul_0_r, Z.add_0_r in Hs.
    inversion Hs as [| ? ? ? n1 ? ? Hget Hs1]; subst; clear Hs.
    inversion Hs1; subst; clear Hs1.
    destruct Hlast as (Sr & data & shells & Hdata & Hshells & Hlen).
    rewrite (receive_run (fun c => bugs_request c from_date offset (max_bugs b))
                         parse_page n b Hget Sr).
    rewrite (parse_page_run _ Hdata Hshells). unfold lift. rewrite Hlen.
    reflexivity.
  - inversion Hok as [| ? ? Hp Hpages]; subst.
    destruct Hp as (Sr & Hne & (data & shells & Hdata & Hshells & Hiter) & Hxs).
    cbn [run_exchanges] in Hs. unfold page_exchanges in Hs at 1.
    simpl app in Hs.
    inversion Hs as [| ? ? ? n1 ? ? Hget Hs1]; subst; clear Hs.
    rewrite <- app_assoc in Hs1. apply served_app_inv in Hs1.
    destruct Hs1 as (n2 & Sxs & Srest).
    rewrite (receive_run (fun c => bugs_request c from_date offset (max_bugs b))
                         parse_page n b Hget Sr).
    rewrite (parse_page_run _ Hdata Hshells). unfold lift.
    rewrite (py_iter_len _ Hiter), Hiter.
    destruct (Z.of_nat (length (map b_shell (p_bugs p))) =? 0) eqn:Hzero.
    { apply Z.eqb_eq in Hzero. rewrite length_map in Hzero.
      destruct (p_bugs p); [ congruence | simpl in Hzero; lia ]. }
    rewrite (@for_each_fetch_run _ _ (p_bugs p) n1
               (buffered [text (p_reply p)] b) n2 Hxs Sxs).
    rewrite flush_eq. unfold gets. cbn [self wire].
    rewrite buffered_app, max_bugs_flushed.
    change (max_bugs (buffered _ b)) with (max_bugs b).
    change ([text (p_reply p)] ++ flat_map bug_entries (p_bugs p))
      with (page_entries p).
    rewrite (IH (offset + max_bugs b) n2
                (flushed (buffered (page_entries p) b)) n' last fuel
                Hpages Hlast).
    + cbn [flat_map]. unfold page_yields at 2. rewrite after_pages_cons.
      reflexivity.
    + rewrite client_flushed, max_bugs_flushed.
      change (max_bugs (buffered _ b)) with (max_bugs b).
      change (client (buffered _ b)) with (client b).
      replace (next_offset (offset + max_bugs b) (max_bugs b) pages)
        with (next_offset offset (max_bugs b) (p :: pages)); [ exact Srest | ].
      unfold next_offset. cbn [length]. lia.
    + simpl in Hfuel. lia.
Qed.

(** The replay of complete pages hands the same bugs over and goes on with
    what follows them in the cache. *)
Lemma replay_pages pages : forall fuel rest,
  Forall page_ok pages ->
  replay (length pages + fuel) (flat_map page_entries pages ++ rest)
  = (let '(ys, items, r) := replay fuel rest in
     (flat_map page_yields pages ++ ys, items, r)).
Proof.
  induction pages as [| p pages IH]; intros fuel rest Hok.
  - simpl. destruct (replay fuel rest) as [[ys items] r]. reflexivity.
  - inversion Hok as [| ? ? Hp Hpages]; subst.
    destruct Hp as (_ & _ & (data & shells & Hdata & Hshells & Hiter) & Hxs).
    cbn [length Nat.add replay flat_map]. unfold page_entries at 1.
    unfold except_StopIteration, bind, next, ret, loads, lift. simpl app.
    cbv iota beta. rewrite Hdata. unfold ret. cbv iota beta.
    rewrite Hshells, Hiter.
    rewrite <- app_assoc, (for_each_replay_run _ Hxs), (IH fuel rest Hpages).
    destruct (replay fuel rest) as [[ys items] r].
    unfold page_yields at 2. simpl app. rewrite app_assoc. reflexivity.
Qed.

Lemma replay_end fuel : replay (S fuel) [] = ([], [], Ok tt).
Proof. reflexivity. Qed.

Lemma length_page_entries pages :
  (length pages <= length (flat_map page_entries pages))%nat.
Proof.
  induction pages as [| p pages IH]; simpl; [ lia | ].
  rewrite length_app. lia.
Qed.

(** The cache that holds complete pages replays to their bugs. *)
Lemma replay_complete pages fuel :
  Forall page_ok pages -> (length pages < fuel)%nat ->
  replay fuel (flat_map page_entries pages) = (flat_map page_yields pages, [], Ok tt).
Proof.
  intros Hok Hfuel.
  replace fuel with (length pages + S (fuel - S (length pages)))%nat by lia.
  rewrite <- (app_nil_r (flat_map page_entries pages)).
  rewrite (replay_pages _ _ Hok), replay_end, !app_nil_r. reflexivity.
Qed.

End RunFacts.

(** ** [fetch] and [fetch_from_cache] *)

Section FetchFacts.
Context {L : PyLib} {N : Network}.

(** [fetch] is [__fetch_bugs] run from offset 0 on an empty queue. *)
Lemma fetch_eq fuel from_date n b :
  fetch fuel from_date (World n b)
  = match __fetch_bugs fuel (since from_date) 0 (World n (with_cache_queue [] b)) with
    | (ys, w', Ok _) => (ys, w', Ok (Z.of_nat (length ys)))
    | (ys, w', Raise StopIteration) => (ys, w', Raise RuntimeError)
    | (ys, w', Raise e) => (ys, w', Raise e)
    | (ys, w', Diverge) => (ys, w', Diverge)
    end.
Proof.
  unfold fetch, generator, counting, bind, _purge_cache_queue, modify, since.
  cbn [wire self].
  destruct (__fetch_bugs _ _ _ _) as [[ys w'] [u | e |]]; try reflexivity.
  destruct e; reflexivity.
Qed.

Lemma fetch_Ok_inv fuel from_date n b ys w' k :
  fetch fuel from_date (World n b) = (ys, w', Ok k) ->
  __fetch_bugs fuel (since from_date) 0 (World n (with_cache_queue [] b))
  = (ys, w', Ok tt) /\ k = Z.of_nat (length ys).
Proof.
  rewrite fetch_eq.
  destruct (__fetch_bugs _ _ _ _) as [[ys1 w1] [[] | e |]]; try discriminate.
  - intros H. inversion H; subst. auto.
  - destruct e; discriminate.
Qed.

Lemma texts_app xs ys : texts (xs ++ ys) = texts xs ++ texts ys.
Proof. apply map_app. Qed.

Lemma texts_bugs c xs :
  texts (flat_map (bug_exchanges c) xs) = flat_map bug_entries xs.
Proof.
  induction xs as [| x xs IH]; [ reflexivity | ].
  cbn [flat_map]. rewrite texts_app, IH. reflexivity.
Qed.

(** The committed entries of complete pages are the raw texts of their
    exchanges, in the order of the exchanges. *)
Lemma texts_run c from_date limit pages : forall offset,
  texts (run_exchanges c from_date limit offset pages)
  = flat_map page_entries pages.
Proof.
  induction pages as [| p pages IH]; intros offset; [ reflexivity | ].
  cbn [run_exchanges flat_map]. rewrite texts_app, IH.
  unfold page_exchanges, page_entries. cbn [texts map]. fold (texts (flat_map (bug_exchanges c) (p_bugs p))).
  rewrite texts_bugs. reflexivity.
Qed.

Lemma length_bug_entries xs :
  length (flat_map bug_entries xs) = (3 * length xs)%nat.
Proof.
  induction xs as [| x xs IH]; [ reflexivity | ].
  cbn [flat_map]. rewrite length_app, IH. unfold bug_entries.
  cbn [length]. lia.
Qed.

Lemma length_pages_entries pages :
  length (flat_map page_entries pages) = (length pages + 3 * bug_count pages)%nat.
Proof.
  induction pages as [| p pages IH]; [ reflexivity | ].
  cbn [flat_map]. rewrite length_app, IH. unfold page_entries, bug_count.
  cbn [length map]. rewrite length_bug_entries. simpl list_sum. lia.
Qed.

Lemma length_pages_yields pages :
  length (flat_map page_yields pages) = bug_count pages.
Proof.
  induction pages as [| p pages IH]; [ reflexivity | ].
  cbn [flat_map]. rewrite length_app, IH. unfold page_yields, bug_count.
  cbn [map]. rewrite length_map. reflexivity.
Qed.

Lemma cache_buffered q (b : t) : cache (buffered q b) = cache b.
Proof. reflexivity. Qed.

Lemma queue_buffered q (b : t) : cache_queue (buffered q b) = cache_queue b ++ q.
Proof. reflexivity. Qed.

(** What a complete [fetch] leaves behind, for a backend with a cache. *)
Lemma fetch_complete fuel from_date n b committed ys w' k :
  cache b = Some committed ->
  fetch fuel from_date (World n b) = (ys, w', Ok k) ->
  exists pages last,
    Forall page_ok pages /\ empty_page last /\
    served n (run_exchanges (client b) (since from_date) (max_bugs b) 0 pages
              ++ [(bugs_request (client b) (since from_date)
                     (next_offset 0 (max_bugs b) pages) (max_bugs b), last)])
           (wire w') /\
    ys = flat_map page_yields pages /\
    cache (self w') = Some (committed ++ flat_map page_entries pages) /\
    cache_queue (self w') = [text last] /\
    (length pages < fuel)%nat /\
    k = Z.of_nat (bug_count pages).
Proof.
  intros Hc H. apply fetch_Ok_inv in H. destruct H as (H & ->).
  apply fetch_bugs_Ok_inv in H.
  destruct H as (pages & last & n' & Hpages & Hlast & Hs & -> & -> & Hfuel).
  exists pages, last.
  destruct (@after_pages_cache pages (with_cache_queue [] b) committed Hc eq_refl)
    as (H1 & H2).
  cbn [wire self]. rewrite cache_buffered, queue_buffered.
  rewrite H1, H2, length_pages_yields.
  split; [ exact Hpages | ]. split; [ exact Hlast | ]. split; [ exact Hs | ].
  repeat split; auto.
Qed.

End FetchFacts.

(** ** The example run *)

Section ExampleFacts.

Lemma bug10_ok : bug_ok (L := examples) bug10.
Proof. unfold bug_ok. repeat split; vm_compute; reflexivity. Qed.

Lemma bug11_ok : bug_ok (L := examples) bug11.
Proof. unfold bug_ok. repeat split; vm_compute; reflexivity. Qed.

Lemma page1_ok : page_ok (L := examples) page1.
Proof.
  unfold page_ok. split; [ reflexivity | ]. split; [ discriminate | ]. split.
  - exists page_10_11, (JArray [shell_of 10 "crash"; shell_of 11 "typo"]).
    repeat split; vm_compute; reflexivity.
  - constructor; [ exact bug10_ok | ].
    constructor; [ exact bug11_ok | constructor ].
Qed.

Lemma page_none_empty : empty_page (L := examples) (ok200 page_none).
Proof.
  split; [ reflexivity | ]. exists page_none, (JArray []).
  repeat split; vm_compute; reflexivity.
Qed.

(** A scripted server serves its script. *)
Lemma scripted_serves (xs : list exchange) (rest : list reply) :
  served (N := scripted) (map (fun x => Replied (snd x)) xs ++ rest) xs rest.
Proof.
  induction xs as [| [rq r] xs IH]; simpl.
  - apply served_nil.
  - eapply served_cons; [ reflexivity | exact IH ].
Qed.

Lemma upstream_served :
  served (N := scripted) upstream
    (run_exchanges (L := examples) (client backend0) epoch 500 0 [page1]
     ++ [(bugs_request (L := examples) (client backend0) epoch 500 500,
          ok200 page_none)])
    [].
Proof.
  exact (scripted_serves
           (run_exchanges (L := examples) (client backend0) epoch 500 0 [page1]
            ++ [(bugs_request (L := examples) (client backend0) epoch 500 500,
                 ok200 page_none)]) []).
Qed.

End ExampleFacts.

(** ** Replay, cache order, pagination and purge *)

Section Claims.
Context {L : PyLib} {N : Network}.

(** C1, replay fidelity.  A [fetch] that ran to its end on a backend whose
    cache was empty leaves a cache from which [fetch_from_cache] hands
    over exactly the bugs [fetch] handed over: the same records, in the
    same order, with the same comments, history and attachments, and the
    same count. *)
Theorem replay_fidelity fuel from_date (w w' : world) ys k :
  cache (self w) = Some [] ->
  fetch fuel from_date w = (ys, w', Ok k) ->
  fetch_from_cache w' = (ys, w', Ok k).
Proof.
  destruct w as [n b]. cbn [self]. intros Hc H.
  destruct (fetch_complete _ _ _ _ Hc H)
    as (pages & last & Hpages & _ & _ & -> & Hcache & _ & _ & ->).
  unfold fetch_from_cache, generator, bind, gets. rewrite Hcache.
  cbn [app]. unfold counting, over_cache.
  rewrite (replay_complete Hpages).
  - rewrite length_pages_yields. reflexivity.
  - pose proof (length_page_entries pages). lia.
Qed.

(** C2, cache order.  After a [fetch] that ran to its end over pages with
    bugs, the cache holds, behind what it held before, the raw texts of
    the responses in the order they were received: for each page the
    response to the list GET, then for each bug of the page, in the order
    of the page, the responses to its comments, history and attachments
    GETs.  That makes one entry for each page and three for each bug. *)
Theorem cache_order fuel from_date n b committed ys w' k :
  cache b = Some committed ->
  fetch fuel from_date (World n b) = (ys, w', Ok k) ->
  exists pages last,
    Forall page_ok pages /\ empty_page last /\
    served n (run_exchanges (client b) (since from_date) (max_bugs b) 0 pages
              ++ [(bugs_request (client b) (since from_date)
                     (next_offset 0 (max_bugs b) pages) (max_bugs b), last)])
           (wire w') /\
    cache (self w')
    = Some (committed
            ++ texts (run_exchanges (client b) (since from_date) (max_bugs b)
                                    0 pages)) /\
    texts (run_exchanges (client b) (since from_date) (max_bugs b) 0 pages)
    = flat_map page_entries pages /\
    length (flat_map page_entries pages)
    = (length pages + 3 * bug_count pages)%nat.
Proof.
  intros Hc H.
  destruct (fetch_complete _ _ _ _ Hc H)
    as (pages & last & Hpages & Hlast & Hs & _ & Hcache & _ & _ & _).
  exists pages, last. rewrite texts_run.
  repeat (split; [ assumption | ]). split; [ reflexivity | ].
  apply length_pages_entries.
Qed.

(** C3, as the code has it.  When the list GET of a round is answered by
    a page without bugs, the raw text of the page is buffered and the
    loop ends there: no bug is handed over, the text stays in the queue
    and the committed content of the cache is what it was. *)
Theorem empty_page_stays_buffered fuel from_date offset n b r n' :
  requests_get (fst (bugs_request (client b) from_date offset (max_bugs b)))
               (snd (bugs_request (client b) from_date offset (max_bugs b))) n
  = (Replied r, n') ->
  empty_page r ->
  __fetch_bugs (S fuel) from_date offset (World n b)
  = ([], World n' (buffered [text r] b), Ok tt)
  /\ cache (buffered [text r] b) = cache b
  /\ cache_queue (buffered [text r] b) = cache_queue b ++ [text r].
Proof.
  intros Hget Hr. split; [ | split; reflexivity ].
  apply (@fetch_bugs_run _ _ from_date [] offset n b n' r (S fuel)).
  - constructor.
  - exact Hr.
  - unfold next_offset. cbn [run_exchanges app length Z.of_nat].
    rewrite Z.mul_0_r, Z.add_0_r.
    eapply served_cons; [ exact Hget | apply served_nil ].
  - simpl. lia.
Qed.

(** The run of [fetch] as written when the server answers with pages that
    hold bugs and then with a page that holds none. *)
Lemma fetch_terminates from_date pages last n b n' fuel :
  Forall page_ok pages ->
  empty_page last ->
  served n (run_exchanges (client b) (since from_date) (max_bugs b) 0 pages
            ++ [(bugs_request (client b) (since from_date)
                   (next_offset 0 (max_bugs b) pages) (max_bugs b), last)])
         n' ->
  (length pages < fuel)%nat ->
  fetch fuel from_date (World n b)
  = (flat_map page_yields pages,
     World n' (buffered [text last] (after_pages pages (with_cache_queue [] b))),
     Ok (Z.of_nat (bug_count pages)))
  /\ length (flat_map page_yields pages) = bug_count pages.
Proof.
  intros Hpages Hlast Hs Hfuel. split; [ | apply length_pages_yields ].
  rewrite fetch_eq.
  rewrite (@fetch_bugs_run _ _ (since from_date) pages 0 n
             (with_cache_queue [] b) n' last fuel Hpages Hlast Hs Hfuel).
  rewrite length_pages_yields. reflexivity.
Qed.

(** C5, purge before fetch.  Whatever a backend has buffered when [fetch]
    starts, the run is the run of the same backend with nothing buffered:
    the same bugs, the same end, the same cache and queue afterwards.  So
    when the run ends with a cache, the cache holds what it held before
    and the pages of this run, and the queue holds the last, empty page. *)
Theorem purge_before_fetch fuel from_date n b :
  fetch fuel from_date (World n b)
  = fetch fuel from_date (World n (with_cache_queue [] b))
  /\ (forall committed ys w' k,
         cache b = Some committed ->
         fetch fuel from_date (World n b) = (ys, w', Ok k) ->
         exists pages last,
           Forall page_ok pages /\ empty_page last /\
           cache (self w') = Some (committed ++ flat_map page_entries pages) /\
           cache_queue (self w') = [text last]).
Proof.
  split.
  - rewrite !fetch_eq. reflexivity.
  - intros committed ys w' k Hc H.
    destruct (fetch_complete _ _ _ _ Hc H)
      as (pages & last & Hpages & Hlast & _ & _ & Hcache & Hq & _ & _).
    exists pages, last. auto.
Qed.

End Claims.

(** ** The claims on the example run *)

Section ExampleRuns.

Lemma run0_eq :
  fetch (L := examples) (N := scripted) 5 None world0 = (yields0, world1, Ok 2).
Proof. vm_compute. reflexivity. Qed.

Lemma replay_fidelity_witness :
  fetch_from_cache (L := examples) world1 = (yields0, world1, Ok 2).
Proof.
  apply (@replay_fidelity examples scripted 5 None world0 world1 yields0 2).
  - reflexivity.
  - vm_compute. reflexivity.
Defined.

Lemma cache_order_witness :
  exists pages last,
    Forall (page_ok (L := examples)) pages /\ empty_page (L := examples) last /\
    served (N := scripted) upstream
           (run_exchanges (L := examples) (client backend0) epoch 500 0 pages
            ++ [(bugs_request (L := examples) (client backend0) epoch
                   (next_offset 0 500 pages) 500, last)])
           (wire world1) /\
    cache (self world1)
    = Some ([] ++ texts (run_exchanges (L := examples) (client backend0)
                                       epoch 500 0 pages)) /\
    texts (run_exchanges (L := examples) (client backend0) epoch 500 0 pages)
    = flat_map page_entries pages /\
    length (flat_map page_entries pages)
    = (length pages + 3 * bug_count pages)%nat.
Proof.
  apply (@cache_order examples scripted 5 None upstream backend0 [] yields0
                      world1 2).
  - reflexivity.
  - vm_compute. reflexivity.
Defined.

(** The example run received an empty page, ended, and left the text of
    that page in the queue: the committed content of the cache does not
    hold it. *)
Lemma empty_page_commit_counterexample :
  fetch (L := examples) (N := scripted) 5 None world0 = (yields0, world1, Ok 2)
  /\ empty_page (L := examples) (ok200 page_none)
  /\ cache_queue (self world1) = [text (ok200 page_none)]
  /\ cache (self world1) = Some (page_entries page1)
  /\ ~ In (text (ok200 page_none)) (page_entries page1).
Proof.
  split; [ exact run0_eq | ]. split; [ exact page_none_empty | ].
  split; [ vm_compute; reflexivity | ]. split; [ vm_compute; reflexivity | ].
  vm_compute. intros H.
  repeat (destruct H as [H | H]; [ discriminate H | ]). exact H.
Qed.

Lemma empty_page_stays_buffered_witness :
  __fetch_bugs (L := examples) (N := scripted) 1 epoch 0
               (World (N := scripted) [Replied (ok200 page_none)] backend0)
  = ([], World (N := scripted) [] (buffered [text (ok200 page_none)] backend0),
     Ok tt)
  /\ cache (buffered [text (ok200 page_none)] backend0) = cache backend0
  /\ cache_queue (buffered [text (ok200 page_none)] backend0)
     = cache_queue backend0 ++ [text (ok200 page_none)].
Proof.
  apply (@empty_page_stays_buffered examples scripted 0 epoch 0
           [Replied (ok200 page_none)] backend0 (ok200 page_none) []).
  - reflexivity.
  - exact page_none_empty.
Defined.

Lemma purge_before_fetch_witness :
  exists pages last,
    Forall (page_ok (L := examples)) pages /\ empty_page (L := examples) last /\
    cache (self world1) = Some ([] ++ flat_map page_entries pages) /\
    cache_queue (self world1) = [text last].
Proof.
  apply (proj2 (@purge_before_fetch examples scripted 5 None upstream stale_backend)
               [] yields0 world1 2).
  - reflexivity.
  - vm_compute. reflexivity.
Defined.

End ExampleRuns.

(** ** What the replay can raise *)

Section RaiseFacts.
Context {L : PyLib}.

Lemma raises_bind {S A B} P (m : gen S A) (k : A -> gen S B) :
  raises_in P m -> (forall a, raises_in P (k a)) -> raises_in P (bind m k).
Proof.
  intros Hm Hk s ys s' e H. unfold bind in H.
  destruct (m s) as [[ys1 s1] [a | e1 |]] eqn:E.
  - destruct (k a s1) as [[ys2 s2] r] eqn:E2. inversion H; subst.
    eapply Hk; eauto.
  - inversion H; subst. eapply Hm; eauto.
  - discriminate.
Qed.

Lemma raises_lift {S A} (P : exn -> bool) (r : res A) :
  (forall e, r = Raise e -> P e = true) -> raises_in (S := S) P (lift r).
Proof.
  intros Hr s ys s' e H. unfold lift in H. inversion H; subst. auto.
Qed.

Lemma raises_ret {S A} P (a : A) : raises_in (S := S) P (ret a).
Proof. intros s ys s' e H. discriminate. Qed.

Lemma raises_yield {S} P item : raises_in (S := S) P (yield item).
Proof. intros s ys s' e H. discriminate. Qed.

Lemma getitem_error o k e : getitem o k = Raise e -> replay_error e = true.
Proof.
  destruct o; simpl; try (intros H; inversion H; reflexivity).
  destruct (dict_get k fields); intros H; inversion H; reflexivity.
Qed.

Lemma getitem0_error o e : getitem0 o = Raise e -> replay_error e = true.
Proof.
  destruct o as [| | | | [| c s] | [| x l] |]; simpl; intros H; inversion H;
    reflexivity.
Qed.

Lemma setitem_error o k v e : setitem o k v = Raise e -> replay_error e = true.
Proof. destruct o; simpl; intros H; inversion H; reflexivity. Qed.

Lemma py_iter_error o e : py_iter o = Raise e -> replay_error e = true.
Proof. destruct o; simpl; intros H; inversion H; reflexivity. Qed.

Lemma raises_loads {S} raw : raises_in (S := S) replay_error (loads raw).
Proof.
  intros s ys s' e H. unfold loads in H.
  destruct (json_loads raw); inversion H; reflexivity.
Qed.

Lemma raises_next : raises_in replay_error next.
Proof.
  intros s ys s' e H. unfold next in H.
  destruct s; inversion H; reflexivity.
Qed.

Lemma raises_for_each {S} P xs (body : json -> gen S unit) :
  (forall x, raises_in P (body x)) -> raises_in P (for_each xs body).
Proof.
  intros Hb. induction xs as [| x xs IH]; simpl.
  - apply raises_ret.
  - apply raises_bind; auto.
Qed.

Lemma raises_replay_bug bug : raises_in replay_error (replay_bug bug).
Proof.
  unfold replay_bug.
  repeat first
         [ apply raises_yield
         | apply raises_next
         | apply raises_loads
         | apply raises_lift;
           first [ apply getitem_error | apply getitem0_error
                 | apply setitem_error ]
         | apply raises_bind; [ | intros ? ] ].
Qed.

Lemma raises_replay fuel : raises_in replay_error (replay fuel).
Proof.
  induction fuel as [| fuel IH]; simpl.
  - intros s ys s' e H. discriminate.
  - apply raises_bind.
    + intros s ys s' e H. unfold except_StopIteration, bind, next, ret in H.
      destruct s; inversion H.
    + intros [raw |]; [ | apply raises_ret ].
      repeat first
             [ exact IH
             | apply raises_loads
             | apply raises_for_each; apply raises_replay_bug
             | apply raises_lift;
               first [ apply getitem_error | apply py_iter_error ]
             | apply raises_bind; [ | intros ? ] ].
Qed.

End RaiseFacts.

(** ** Cache errors, the page size, the extraction helpers *)

Section MoreClaims.
Context {L : PyLib} {N : Network}.

(** C7, no cache.  On a backend without a cache, [fetch_from_cache] ends
    with the cache error before it hands over any bug; on a backend with
    a cache it never ends with a cache error. *)
Theorem cache_unavailable (w : world) :
  (cache (self w) = None ->
   fetch_from_cache w
   = ([], w, Raise (CacheError "cache instance was not provided")))
  /\ (forall items, cache (self w) = Some items ->
      forall cause, snd (fetch_from_cache w) <> Raise (CacheError cause)).
Proof.
  split.
  - intros Hc. unfold fetch_from_cache, generator, bind, gets. rewrite Hc.
    reflexivity.
  - intros items Hc cause.
    unfold fetch_from_cache, generator, bind, gets. rewrite Hc.
    unfold counting, over_cache.
    destruct (replay (S (length items)) items) as [[ys rest] [u | e |]] eqn:E;
      cbn; try discriminate.
    pose proof (@raises_replay L (S (length items)) _ _ _ _ E) as He.
    destruct e; simpl in He; try discriminate He; cbn; discriminate.
Qed.


(** C9, extraction helpers.  For an item with an [id] and a
    [last_change_time] that parses to a date with a time zone,
    [metadata_id] is the identifier as [str] prints it and
    [metadata_updated_on] is the time from the epoch to the date, the
    offset of its zone taken off. *)
Theorem metadata_extraction item id ts dt off :
  getitem item "id" = Ok id ->
  getitem item "last_change_time" = Ok ts ->
  str_to_datetime ts = Ok dt ->
  utcoffset dt = Some off ->
  metadata_id item = Ok (py_str id)
  /\ metadata_updated_on item = Ok (wall_seconds dt - off, microsecond dt).
Proof.
  intros Hid Hts Hdt Hoff. unfold metadata_id, metadata_updated_on, timestamp.
  rewrite Hid, Hts, Hdt, Hoff. split; reflexivity.
Qed.

End MoreClaims.

Section MoreExamples.

Lemma cache_unavailable_witness :
  fetch_from_cache (L := examples)
    (World (N := scripted) [] (with_cache None backend0))
  = ([], World (N := scripted) [] (with_cache None backend0),
     Raise (CacheError "cache instance was not provided"))
  /\ snd (fetch_from_cache (L := examples) world1)
     <> Raise (CacheError "cache instance was not provided").
Proof.
  split.
  - apply (proj1 (@cache_unavailable examples scripted
                    (World (N := scripted) [] (with_cache None backend0)))).
    reflexivity.
  - apply (proj2 (@cache_unavailable examples scripted world1)
                 (page_entries page1)).
    vm_compute. reflexivity.
Defined.


Lemma metadata_extraction_witness :
  metadata_id (L := examples) item10 = Ok "10"
  /\ metadata_updated_on (L := examples) item10 = Ok (1465305710, 0).
Proof.
  apply (@metadata_extraction examples item10 (JInt 10)
           (JString "2016-06-07T15:21:50+02:00")
           {| year := 2016; month := 6; day := 7; hour := 15; minute := 21;
              second := 50; microsecond := 0; utcoffset := Some 7200 |} 7200);
    reflexivity.
Defined.

End MoreExamples.

(** ** A cache cut short *)

Section TruncatedFacts.
Context {L : PyLib} {N : Network}.





End TruncatedFacts.

(** ** Transport errors on a scripted server *)

Section TransportFacts.
Context {L : PyLib}.
#[local] Existing Instance scripted.

Lemma within_ret {A} (a : A) : within_page (ret a).
Proof.
  intros n b ys w' r H. inversion H; subst. exists [].
  cbn. rewrite buffered_nil. auto.
Qed.

Lemma within_lift {A} (x : res A) : within_page (lift x).
Proof.
  intros n b ys w' r H. inversion H; subst. exists [].
  cbn. rewrite buffered_nil. auto.
Qed.

Lemma within_yield item : within_page (yield item).
Proof.
  intros n b ys w' r H. inversion H; subst. exists [].
  cbn. rewrite buffered_nil. auto.
Qed.

Lemma within_bind {A B} (m : gen world A) (k : A -> gen world B) :
  within_page m -> (forall a, within_page (k a)) -> within_page (bind m k).
Proof.
  intros Hm Hk n b ys w' r H. unfold bind in H.
  destruct (m (World (N := scripted) n b)) as [[ys1 [n1 b1]] r1] eqn:E1.
  destruct (Hm _ _ _ _ _ E1) as (rs1 & S1 & Hb1 & Hn1). cbn [self wire] in *.
  destruct r1 as [a | e |].
  - destruct (k a (World (N := scripted) n1 b1)) as [[ys2 w2] r2] eqn:E2.
    inversion H; subst; clear H.
    destruct (Hk _ _ _ _ _ _ E2) as (rs2 & S2 & Hb2 & Hn2).
    destruct Hn1 as [-> | (bad & _ & _ & Hbad)]; [ | discriminate Hbad ].
    exists (rs1 ++ rs2). split; [ apply Forall_app; auto | ].
    split; [ rewrite Hb2, buffered_app, map_app; reflexivity | ].
    rewrite map_app, <- app_assoc.
    destruct Hn2 as [-> | (bad & -> & Hbad & ->)].
    + left. reflexivity.
    + right. exists bad. rewrite <- app_assoc. auto.
  - inversion H; subst; clear H. exists rs1.
    split; [ exact S1 | split; [ reflexivity | ] ].
    destruct Hn1 as [Hn | (bad & Hn & Hbad & Hr)]; [ left; exact Hn | ].
    right. exists bad. inversion Hr; subst. auto.
  - inversion H; subst; clear H. exists rs1.
    split; [ exact S1 | split; [ reflexivity | ] ].
    destruct Hn1 as [Hn | (bad & _ & _ & Hr)]; [ left; exact Hn | ].
    discriminate Hr.
Qed.

(** One GET and what follows it, on the script. *)
Lemma within_receive rq parse : within_page (receive rq parse).
Proof.
  intros n b ys w' r H. unfold receive in H. cbn in H.
  destruct n as [| [x | e] n1].
  - inversion H; subst. exists []. cbn. rewrite buffered_nil. auto.
  - destruct (is_error x) eqn:E; inversion H; subst; clear H; cbn.
    + exists []. cbn. rewrite buffered_nil. repeat split; auto.
      right. exists (Replied x). repeat split; auto.
      cbn. unfold success. rewrite E. discriminate.
    + exists [x]. cbn. repeat split; auto.
  - inversion H; subst. exists []. cbn. rewrite buffered_nil.
    repeat split; auto. right. exists (Failed e). repeat split; auto.
Qed.

Lemma within_fetch_bug shell : within_page (fetch_bug shell).
Proof.
  unfold fetch_bug.
  apply within_bind; [ apply within_lift | intros id ].
  apply within_bind.
  { intros n b ys w' r. rewrite fetch_comments_eq. apply within_receive. }
  intros cs. apply within_bind; [ apply within_lift | intros b1 ].
  apply within_bind.
  { intros n b ys w' r. rewrite fetch_history_eq. apply within_receive. }
  intros hs. apply within_bind; [ apply within_lift | intros b2 ].
  apply within_bind.
  { intros n b ys w' r. rewrite fetch_attachments_eq. apply within_receive. }
  intros ats. apply within_bind; [ apply within_lift | intros b3 ].
  apply within_yield.
Qed.

Lemma within_for_each items : within_page (for_each items fetch_bug).
Proof.
  induction items as [| shell items IH]; simpl.
  - apply within_ret.
  - apply within_bind; [ apply within_fetch_bug | intros _; exact IH ].
Qed.

(** What a scripted server served is the head of its script. *)
Lemma served_scripted (n : list reply) xs n' :
  served n xs n' -> n = map Replied (map snd xs) ++ n'.
Proof.
  induction 1 as [| n rq r n1 xs n2 Hget _ IH]; [ reflexivity | ].
  cbn in Hget. destruct n as [| x n0]; inversion Hget; subst.
  reflexivity.
Qed.

Lemma responses_bugs c xs :
  map snd (flat_map (bug_exchanges c) xs) = flat_map bug_responses xs.
Proof.
  induction xs as [| x xs IH]; [ reflexivity | ].
  cbn [flat_map]. rewrite map_app. f_equal. exact IH.
Qed.

Lemma bugs_success xs : Forall bug_ok xs -> Forall success (flat_map bug_responses xs).
Proof.
  induction 1 as [| x xs (_ & Sc & Sh & Sa & _) _ IH]; cbn [flat_map].
  - constructor.
  - apply Forall_app. split; [ | exact IH ].
    repeat constructor; assumption.
Qed.

Lemma pages_success pages :
  Forall page_ok pages -> Forall success (flat_map page_responses pages).
Proof.
  induction 1 as [| p pages (Sr & _ & _ & Hxs) _ IH]; cbn [flat_map].
  - constructor.
  - apply Forall_app. split; [ | exact IH ].
    constructor; [ exact Sr | apply bugs_success; exact Hxs ].
Qed.

End TransportFacts.

(** ** Transport errors and the cache *)

Section RoundFacts.
Context {L : PyLib} {N : Network}.

(** A round of [__fetch_bugs]: its body, then the flush and the next
    round when the page held bugs. *)
Lemma fetch_bugs_round_body fuel from_date offset w :
  __fetch_bugs (S fuel) from_date offset w
  = bind (round_body from_date offset)
         (fun more =>
            if more
            then (_flush_cache_queue ;;
                  step <- gets (fun w => max_bugs (self w)) ;;
                  __fetch_bugs fuel from_date (offset + step))
            else ret tt) w.
Proof.
  rewrite fetch_bugs_round. symmetry. unfold round_body.
  rewrite bind_assoc. apply bind_ext. intros shells w1.
  rewrite bind_assoc. apply bind_ext. intros len w2.
  destruct (len =? 0).
  - reflexivity.
  - rewrite bind_assoc. apply bind_ext. intros items w3.
    rewrite bind_assoc. apply bind_ext. intros _ w4.
    unfold bind at 1. unfold ret.
    destruct ((_flush_cache_queue;; _) w4) as [[ys s] r]. reflexivity.
Qed.

(** The body of a round that tells to go on went through a page with
    bugs. *)
Lemma round_body_true_inv from_date offset n b ys w' :
  round_body from_date offset (World n b) = (ys, w', Ok true) ->
  exists p n',
    page_ok p /\
    served n (page_exchanges (client b) from_date (max_bugs b) offset p) n' /\
    ys = page_yields p /\ w' = World n' (buffered (page_entries p) b).
Proof.
  unfold round_body. intros H.
  split_run H as shells Hpage H.
  rewrite fetch_page_eq in Hpage. apply receive_Ok_inv in Hpage.
  destruct Hpage as (r & n1 & Hget & Sr & Hparse & -> & ->).
  apply parse_page_inv in Hparse. destruct Hparse as (data & Hdata & Hshells).
  split_run H as len Hlen H. apply lift_Ok_inv in Hlen.
  destruct Hlen as (Hlen & -> & ->).
  destruct (len =? 0) eqn:Hzero; [ discriminate H | ].
  apply Z.eqb_neq in Hzero.
  split_run H as items Hiter H. apply lift_Ok_inv in Hiter.
  destruct Hiter as (Hiter & -> & ->).
  split_run H as u1 Hbugs H. apply for_each_fetch_Ok_inv in Hbugs.
  destruct Hbugs as (xs & n2 & <- & Hxs & Sxs & -> & ->).
  inversion H; subst; clear H.
  exists (PageIO r xs), n2.
  split; [ | split; [ | split ] ].
  - unfold page_ok. cbn [p_reply p_bugs]. repeat split; auto.
    + intros ->. simpl in Hiter.
      pose proof (py_len_iter _ Hlen Hiter) as E. simpl in E. lia.
    + exists data, shells. auto.
  - unfold page_exchanges. cbn [p_reply p_bugs].
    eapply served_cons; [ exact Hget | exact Sxs ].
  - unfold page_yields. cbn [p_bugs]. simpl. rewrite app_nil_r. reflexivity.
  - rewrite buffered_app. reflexivity.
Qed.

End RoundFacts.

Section TransportFacts2.
Context {L : PyLib}.
#[local] Existing Instance scripted.

Lemma within_fetch_page from_date offset : within_page (fetch_page from_date offset).
Proof.
  intros n b ys w' r. rewrite fetch_page_eq. apply within_receive.
Qed.

Lemma within_round_body from_date offset :
  within_page (round_body from_date offset).
Proof.
  unfold round_body.
  apply within_bind; [ apply within_fetch_page | intros shells ].
  apply within_bind; [ apply within_lift | intros len ].
  destruct (len =? 0); [ apply within_ret | ].
  apply within_bind; [ apply within_lift | intros items ].
  apply within_bind; [ apply within_for_each | intros _ ].
  apply within_ret.
Qed.

Lemma responses_page c from_date limit offset p :
  map snd (page_exchanges c from_date limit offset p) = page_responses p.
Proof.
  unfold page_exchanges, page_responses. cbn [map snd]. f_equal.
  apply responses_bugs.
Qed.

(** Every run of [__fetch_bugs] on a scripted server: it went through
    complete pages, which it committed, and through part of a page, whose
    texts it left buffered; the replies it took are those, and one more
    that was not good when the run ends with the exception of a reply. *)
Lemma fetch_bugs_tracked fuel from_date :
  forall offset (n : list reply) b ys w' r,
    __fetch_bugs fuel from_date offset (World (N := scripted) n b) = (ys, w', r) ->
    exists pages partial,
      Forall page_ok pages /\ Forall success partial /\
      self w' = buffered (map text partial) (after_pages pages b) /\
      (n = map Replied (flat_map page_responses pages ++ partial) ++ wire w'
       \/ exists bad,
           n = map Replied (flat_map page_responses pages ++ partial)
                 ++ bad :: wire w' /\
           ~ good bad /\ r = Raise (exn_of bad)).
Proof.
  induction fuel as [| fuel IH]; intros offset n b ys w' r H.
  - inversion H; subst. exists [], []. cbn.
    rewrite buffered_nil. repeat split; auto.
  - rewrite fetch_bugs_round_body in H. unfold bind in H.
    destruct (round_body from_date offset (World (N := scripted) n b))
      as [[ys1 [n1 b1]] r1] eqn:E1.
    destruct r1 as [[|] | e |].
    + apply round_body_true_inv in E1.
      destruct E1 as (p & n2 & Hp & Sp & -> & Hw).
      inversion Hw; subst n2 b1; clear Hw.
      apply served_scripted in Sp. rewrite responses_page in Sp.
      rewrite flush_eq in H. unfold gets in H. cbn [wire self] in H.
      destruct (__fetch_bugs fuel from_date _ _) as [[ys2 w2] r2] eqn:E2.
      inversion H; subst ys w' r; clear H.
      apply IH in E2.
      destruct E2 as (pages & partial & Hpages & Hpartial & Hself & Hn).
      exists (p :: pages), partial.
      split; [ constructor; assumption | ]. split; [ exact Hpartial | ].
      split; [ rewrite after_pages_cons; exact Hself | ].
      cbn [flat_map].
      destruct Hn as [Hn | (bad & Hn & Hbad & ->)].
      * left. rewrite Sp, Hn, !map_app, <- !app_assoc. reflexivity.
      * right. exists bad. split; [ | auto ].
        rewrite Sp, Hn, !map_app, <- !app_assoc. reflexivity.
    + destruct (within_round_body from_date offset _ _ E1) as (rs & Hrs & Hself & Hn).
      cbn [wire self] in *. inversion H; subst ys w' r; clear H.
      exists [], rs. cbn [flat_map app after_pages fold_left wire self].
      split; [ constructor | ]. split; [ exact Hrs | ].
      split; [ exact Hself | ].
      destruct Hn as [Hn | (bad & _ & _ & Hr)]; [ left; exact Hn | discriminate Hr ].
    + destruct (within_round_body from_date offset _ _ E1) as (rs & Hrs & Hself & Hn).
      cbn [wire self] in *. inversion H; subst ys w' r; clear H.
      exists [], rs. cbn [flat_map app after_pages fold_left wire self].
      split; [ constructor | ]. split; [ exact Hrs | ].
      split; [ exact Hself | ].
      destruct Hn as [Hn | (bad & Hn & Hbad & Hr)]; [ left; exact Hn | ].
      right. exists bad. inversion Hr; subst. auto.
    + destruct (within_round_body from_date offset _ _ E1) as (rs & Hrs & Hself & Hn).
      cbn [wire self] in *. inversion H; subst ys w' r; clear H.
      exists [], rs. cbn [flat_map app after_pages fold_left wire self].
      split; [ constructor | ]. split; [ exact Hrs | ].
      split; [ exact Hself | ].
      destruct Hn as [Hn | (bad & _ & _ & Hr)]; [ left; exact Hn | discriminate Hr ].
Qed.

End TransportFacts2.

Section TransportClaim.
Context {L : PyLib}.
#[local] Existing Instance scripted.

Lemma fetch_run_inv {N : Network} fuel from_date n b ys (w' : world) r :
  fetch fuel from_date (World n b) = (ys, w', r) ->
  exists r0,
    __fetch_bugs fuel (since from_date) 0 (World n (with_cache_queue [] b))
    = (ys, w', r0)
    /\ (forall c, r0 = Raise (HTTPError c) -> r = Raise (HTTPError c)).
Proof.
  rewrite fetch_eq.
  destruct (__fetch_bugs _ _ _ _) as [[ys0 w0] [u | e |]].
  - intros H. inversion H; subst. eexists. split; [ reflexivity | ].
    intros c Hc. discriminate Hc.
  - intros H. exists (Raise e).
    destruct e; inversion H; subst; split; try reflexivity;
      intros c Hc; inversion Hc; reflexivity.
  - intros H. inversion H; subst. eexists. split; [ reflexivity | ].
    intros c Hc. discriminate Hc.
Qed.

Lemma success_not_error x : success x -> is_error x = true -> False.
Proof. unfold success. intros -> H. discriminate H. Qed.

(** C6, transport errors.  On a scripted server, take any run of [fetch]
    on a backend with a cache and any response with an error status among
    the replies the run took.  Then the run ended by raising the HTTP
    error of that response, which is the last reply it took: nothing was
    asked again.  Before it, the run took the responses of complete pages
    and of part of a page; the cache holds, behind what it held, the
    entries of the complete pages and nothing of the page that failed,
    whose texts are left in the queue. *)
Theorem transport_error_atomic fuel from_date (script : list reply) b committed
        ys (w' : world) r consumed x :
  cache b = Some committed ->
  fetch fuel from_date (World (N := scripted) script b) = (ys, w', r) ->
  script = consumed ++ wire w' ->
  In (Replied x) consumed ->
  is_error x = true ->
  r = Raise (HTTPError (status_code x))
  /\ exists pages partial,
      consumed = map Replied (flat_map page_responses pages ++ partial)
                   ++ [Replied x] /\
      Forall page_ok pages /\ Forall success partial /\
      cache (self w') = Some (committed ++ flat_map page_entries pages) /\
      cache_queue (self w') = map text partial.
Proof.
  intros Hc H Hscript Hin Herr.
  apply fetch_run_inv in H. destruct H as (r0 & H & Hr).
  apply fetch_bugs_tracked in H.
  destruct H as (pages & partial & Hpages & Hpartial & Hself & Hn).
  assert (Hall : Forall success (flat_map page_responses pages ++ partial)).
  { apply Forall_app. split; [ apply pages_success; exact Hpages | exact Hpartial ]. }
  assert (Hgood : In (Replied x)
                     (map Replied (flat_map page_responses pages ++ partial))
                  -> False).
  { intros Hx. apply in_map_iff in Hx. destruct Hx as (y & Hy & Hiny).
    inversion Hy; subst y.
    rewrite Forall_forall in Hall.
    exact (success_not_error (Hall _ Hiny) Herr). }
  destruct Hn as [Hn | (bad & Hn & Hbad & Hr0)].
  - exfalso. rewrite Hscript in Hn. apply app_inv_tail in Hn.
    rewrite Hn in Hin. exact (Hgood Hin).
  - rewrite Hscript in Hn.
    change (bad :: wire w') with ([bad] ++ wire w') in Hn.
    rewrite app_assoc in Hn. apply app_inv_tail in Hn.
    rewrite Hn in Hin. apply in_app_or in Hin.
    destruct Hin as [Hin | [Hin | []]]; [ exfalso; exact (Hgood Hin) | ].
    subst bad. cbn [exn_of] in Hr0.
    split; [ exact (Hr _ Hr0) | ].
    exists pages, partial.
    destruct (@after_pages_cache pages (with_cache_queue [] b) committed Hc eq_refl)
      as (H1 & H2).
    rewrite Hself, cache_buffered, queue_buffered, H1, H2.
    repeat split; auto.
Qed.

End TransportClaim.

Section TransportExample.

Lemma transport_error_atomic_witness :
  @Raise Z (HTTPError 503) = Raise (HTTPError (status_code unavailable))
  /\ exists pages partial,
      map Replied [ok200 page_10_11;
                   ok200 (comments_of "10" "ann"); ok200 (history_of 10 "ann");
                   ok200 (attachments_of "10" "a.log"); unavailable]
      = map Replied (flat_map page_responses pages ++ partial)
          ++ [Replied unavailable] /\
      Forall (page_ok (L := examples)) pages /\ Forall success partial /\
      cache (self world_failed) = Some ([] ++ flat_map page_entries pages) /\
      cache_queue (self world_failed) = map text partial.
Proof.
  apply (@transport_error_atomic examples 5 None failing_upstream backend0 []
           (fst (fst (fetch (L := examples) (N := scripted) 5 None
                            (World (N := scripted) failing_upstream backend0))))
           world_failed (Raise (HTTPError 503))).
  - reflexivity.
  - vm_compute. reflexivity.
  - vm_compute. reflexivity.
  - cbn. auto 10.
  - reflexivity.
Defined.

End TransportExample.

(** * Further properties of the client and of the backend *)

(** ** Dictionaries *)

Section DictFacts.

Lemma dict_get_set_same k v m : dict_get k (dict_set k v m) = Some v.
Proof.
  induction m as [| [k' v'] m IH]; simpl.
  - rewrite String.eqb_refl. reflexivity.
  - destruct (String.eqb k k') eqn:E; simpl; rewrite E; auto.
Qed.

Lemma dict_get_set_other k k' v m :
  k' <> k -> dict_get k' (dict_set k v m) = dict_get k' m.
Proof.
  intros Hne. induction m as [| [k0 v0] m IH]; simpl.
  - destruct (String.eqb k' k) eqn:E; [ | reflexivity ].
    apply String.eqb_eq in E. contradiction.
  - destruct (String.eqb k k0) eqn:E; simpl.
    + apply String.eqb_eq in E. subst k0.
      destruct (String.eqb k' k) eqn:E'; [ | reflexivity ].
      apply String.eqb_eq in E'. contradiction.
    + destruct (String.eqb k' k0); auto.
Qed.

End DictFacts.

(** ** [BugzillaRESTClient.call] and its callers *)

Section ClientClaims.
Context {L : PyLib} {N : Network}.

Lemma call_eq resource params n c :
  BugzillaRESTClient.call resource params (n, c)
  = answered c (requests_get (fst (request_of c resource params))
                             (snd (request_of c resource params)) n).
Proof.
  unfold BugzillaRESTClient.call, BugzillaRESTClient.get,
    BugzillaRESTClient.raise_for_status, request_of, answered, is_error, bind,
    gets, ret, raise; simpl.
  destruct (requests_get _ _ n) as [[r | e] n']; simpl; [ | reflexivity ].
  destruct ((400 <=? status_code r) && (status_code r <? 600)); reflexivity.
Qed.

Lemma is_error_bounds r : is_error r = true <-> 400 <= status_code r < 600.
Proof.
  unfold is_error. rewrite andb_true_iff, Z.leb_le, Z.ltb_lt. tauto.
Qed.

(** X1.  [call] raises the HTTP error of a response exactly on the status
    codes from 400 to 599; on any other status it returns the text of the
    response.  Either way the client keeps its token and the network is
    left right behind that one GET. *)
Theorem call_status_bounds resource params n c r n' :
  requests_get (fst (request_of c resource params))
               (snd (request_of c resource params)) n = (Replied r, n') ->
  (400 <= status_code r < 600 ->
   BugzillaRESTClient.call resource params (n, c)
   = ([], (n', c), Raise (HTTPError (status_code r))))
  /\ (status_code r < 400 \/ 600 <= status_code r ->
      BugzillaRESTClient.call resource params (n, c) = ([], (n', c), Ok (text r))).
Proof.
  intros Hget. rewrite call_eq, Hget. unfold answered. split; intros Hs.
  - apply is_error_bounds in Hs. rewrite Hs. reflexivity.
  - destruct (is_error r) eqn:E; [ | reflexivity ].
    apply is_error_bounds in E. lia.
Qed.

(** X2.  What [call] sends.  With a token, the parameters of the GET hold
    the token under [token], in place of a [token] the caller may have
    passed, and every other parameter as the caller passed it; without a
    token (none, or an empty one) the parameters go out as they are.  The
    URL is the base URL, [/rest/] and the resource. *)
Theorem call_token resource params n c :
  BugzillaRESTClient.call resource params (n, c)
  = answered c (requests_get (fst (request_of c resource params))
                             (snd (request_of c resource params)) n)
  /\ fst (request_of c resource params)
     = (BugzillaRESTClient.base_url c ++ "/rest/" ++ resource)%string
  /\ (truthy (BugzillaRESTClient.api_token c) = true ->
      dict_get "token" (snd (request_of c resource params))
      = Some (BugzillaRESTClient.api_token c)
      /\ forall k, k <> "token" ->
                   dict_get k (snd (request_of c resource params))
                   = dict_get k params)
  /\ (truthy (BugzillaRESTClient.api_token c) = false ->
      snd (request_of c resource params) = params).
Proof.
  split; [ apply call_eq | ]. split; [ reflexivity | ].
  unfold request_of. cbn [snd]. split; intros Ht; rewrite Ht.
  - split; [ apply dict_get_set_same | ].
    intros k Hk. apply dict_get_set_other. exact Hk.
  - reflexivity.
Qed.

Lemma login_eq user password n c :
  BugzillaRESTClient.login user password (n, c)
  = match requests_get (fst (login_request c user password))
                       (snd (login_request c user password)) n with
    | (Replied r, n') =>
        if is_error r
        then ([], (n', c),
              Raise (BackendError (JString user) (HTTPError (status_code r))))
        else
          match json_loads (text r) with
          | None => ([], (n', c), Raise JSONDecodeError)
          | Some data =>
              match getitem data "token" with
              | Ok token =>
                  ([], (n', BugzillaRESTClient.mk (BugzillaRESTClient.base_url c) token),
                   Ok tt)
              | Raise e => ([], (n', c), Raise e)
              | Diverge => ([], (n', c), Diverge)
              end
          end
    | (Failed (HTTPError code), n') =>
        ([], (n', c), Raise (BackendError (JString user) (HTTPError code)))
    | (Failed e, n') => ([], (n', c), Raise e)
    end.
Proof.
  unfold BugzillaRESTClient.login, bind, except_HTTPError. rewrite call_eq.
  fold (login_request c user password). unfold answered.
  destruct (requests_get _ _ n) as [[r | e] n'].
  - destruct (is_error r); [ reflexivity | ].
    unfold loads, lift, modify, ret, raise. cbv iota beta.
    destruct (json_loads (text r)) as [data |]; [ | reflexivity ].
    cbv iota beta. destruct (getitem data "token"); reflexivity.
  - destruct e; reflexivity.
Qed.

(** X3.  A login that fails leaves the token of the client as it was.  An
    error status is reported as a [BackendError] that carries the user and
    the HTTP error; a request that fails otherwise (no connection, say) is
    passed on as it is, not wrapped; a body that is no JSON, or a JSON
    object without [token], makes the login end with the decoding error or
    the [KeyError]. *)
Theorem login_failures user password n c x n' :
  requests_get (fst (login_request c user password))
               (snd (login_request c user password)) n = (x, n') ->
  match x with
  | Replied r =>
      (is_error r = true ->
       BugzillaRESTClient.login user password (n, c)
       = ([], (n', c),
          Raise (BackendError (JString user) (HTTPError (status_code r)))))
      /\ (is_error r = false -> json_loads (text r) = None ->
          BugzillaRESTClient.login user password (n, c)
          = ([], (n', c), Raise JSONDecodeError))
      /\ (forall m, is_error r = false ->
                    json_loads (text r) = Some (JObject m) ->
                    dict_get "token" m = None ->
                    BugzillaRESTClient.login user password (n, c)
                    = ([], (n', c), Raise (KeyError (JString "token"))))
  | Failed e =>
      (forall code, e <> HTTPError code) ->
      BugzillaRESTClient.login user password (n, c) = ([], (n', c), Raise e)
  end.
Proof.
  intros Hget. rewrite login_eq, Hget. destruct x as [r | e].
  - split; [ | split ].
    + intros ->. reflexivity.
    + intros -> ->. reflexivity.
    + intros m -> -> Hm. simpl. rewrite Hm. reflexivity.
  - intros He. destruct e; try reflexivity. exfalso. eapply He. reflexivity.
Qed.

(** X4.  A login that succeeds stores the token of the response in the
    client, and from then on every call of the client carries that token,
    as long as it is not empty. *)
Theorem login_stores_token user password n c r n' data token :
  requests_get (fst (login_request c user password))
               (snd (login_request c user password)) n = (Replied r, n') ->
  success r ->
  json_loads (text r) = Some data ->
  getitem data "token" = Ok token ->
  BugzillaRESTClient.login user password (n, c)
  = ([], (n', BugzillaRESTClient.mk (BugzillaRESTClient.base_url c) token), Ok tt)
  /\ (truthy token = true ->
      forall resource params,
        dict_get "token"
          (snd (request_of (BugzillaRESTClient.mk (BugzillaRESTClient.base_url c) token)
                           resource params))
        = Some token).
Proof.
  intros Hget Hs Hdata Htok. rewrite login_eq, Hget.
  unfold success in Hs. rewrite Hs, Hdata, Htok. split; [ reflexivity | ].
  intros Ht resource params. unfold request_of. cbn. rewrite Ht.
  apply dict_get_set_same.
Qed.

(** X5.  The constructor of the client.  Without a user or without a
    password it makes no request and keeps the token it is given, [None]
    for an empty one.  With both it logs in even when a token is given:
    the login request carries the given token, and the token of the
    response replaces it. *)
Theorem client_init_login base user password api_token n :
  (user = None \/ password = None ->
   BugzillaRESTClient.__init__ base user password api_token n
   = (n, Ok (BugzillaRESTClient.mk base (initial_token api_token))))
  /\ (forall u p r n' data token,
         user = Some u -> password = Some p ->
         requests_get
           (fst (login_request (BugzillaRESTClient.mk base (initial_token api_token)) u p))
           (snd (login_request (BugzillaRESTClient.mk base (initial_token api_token)) u p))
           n = (Replied r, n') ->
         success r ->
         json_loads (text r) = Some data ->
         getitem data "token" = Ok token ->
         BugzillaRESTClient.__init__ base user password api_token n
         = (n', Ok (BugzillaRESTClient.mk base token))).
Proof.
  split.
  - unfold BugzillaRESTClient.__init__, initial_token.
    intros [-> | ->]; [ reflexivity | destruct user; reflexivity ].
  - intros u p r n' data token -> -> Hget Hs Hdata Htok.
    unfold BugzillaRESTClient.__init__. fold (initial_token api_token).
    rewrite login_eq, Hget. unfold success in Hs. rewrite Hs, Hdata, Htok.
    reflexivity.
Qed.

Lemma bugs_eq from_date offset limit n c :
  BugzillaRESTClient.bugs from_date offset limit (n, c)
  = answered c (requests_get (fst (bugs_request c from_date offset limit))
                             (snd (bugs_request c from_date offset limit)) n).
Proof.
  unfold BugzillaRESTClient.bugs. cbv zeta. rewrite call_eq, bugs_request_eq.
  reflexivity.
Qed.

(** X6.  The parameters of the list GET.  [bugs] asks for [limit] bugs
    changed since the date, in the order of their change dates, with all
    their fields; it names the offset only when the offset is not 0. *)
Theorem bugs_parameters from_date offset limit n c :
  BugzillaRESTClient.bugs from_date offset limit (n, c)
  = answered c (requests_get (fst (bugs_request c from_date offset limit))
                             (snd (bugs_request c from_date offset limit)) n)
  /\ dict_get "offset" (snd (bugs_request c from_date offset limit))
     = (if offset =? 0 then None else Some (JInt offset))
  /\ dict_get "limit" (snd (bugs_request c from_date offset limit))
     = Some (JInt limit)
  /\ dict_get "last_change_time" (snd (bugs_request c from_date offset limit))
     = Some (JString (strftime_iso (datetime_to_utc from_date)))
  /\ dict_get "order" (snd (bugs_request c from_date offset limit))
     = Some (JString "changeddate")
  /\ dict_get "include_fields" (snd (bugs_request c from_date offset limit))
     = Some (JString "_all").
Proof.
  split; [ apply bugs_eq | ].
  unfold bugs_request, request_of. cbn [snd].
  destruct (truthy (BugzillaRESTClient.api_token c)) eqn:Ht;
    rewrite ?dict_get_set_other by discriminate;
    destruct (offset =? 0); repeat split; reflexivity.
Qed.

End ClientClaims.

Section ClientExamples.

Lemma call_status_bounds_witness :
  (400 <= status_code not_found < 600 ->
   BugzillaRESTClient.call (N := scripted) "bug" [] ([Replied not_found], client0)
   = ([], ([], client0), Raise (HTTPError (status_code not_found))))
  /\ (status_code not_found < 400 \/ 600 <= status_code not_found ->
      BugzillaRESTClient.call (N := scripted) "bug" [] ([Replied not_found], client0)
      = ([], ([], client0), Ok (text not_found))).
Proof.
  apply (@call_status_bounds scripted "bug" [] [Replied not_found] client0
                             not_found []).
  reflexivity.
Defined.

Lemma login_failures_witness :
  (is_error not_found = true ->
   BugzillaRESTClient.login (L := login_lib) (N := scripted) "ann" "pw"
                            ([Replied not_found], client0)
   = ([], ([], client0),
      Raise (BackendError (JString "ann") (HTTPError (status_code not_found)))))
  /\ (is_error not_found = false -> json_loads (PyLib := login_lib) (text not_found) = None ->
      BugzillaRESTClient.login (L := login_lib) (N := scripted) "ann" "pw"
                               ([Replied not_found], client0)
      = ([], ([], client0), Raise JSONDecodeError))
  /\ (forall m, is_error not_found = false ->
                json_loads (PyLib := login_lib) (text not_found) = Some (JObject m) ->
                dict_get "token" m = None ->
                BugzillaRESTClient.login (L := login_lib) (N := scripted) "ann" "pw"
                                         ([Replied not_found], client0)
                = ([], ([], client0), Raise (KeyError (JString "token")))).
Proof.
  apply (@login_failures login_lib scripted "ann" "pw" [Replied not_found] client0
                         (Replied not_found) []).
  reflexivity.
Defined.

Lemma login_stores_token_witness :
  BugzillaRESTClient.login (L := login_lib) (N := scripted) "ann" "pw"
                           ([Replied (ok200 token_body)], client0)
  = ([], ([], BugzillaRESTClient.mk "http://example.com" (JString "s3cr3t")), Ok tt)
  /\ (truthy (JString "s3cr3t") = true ->
      forall resource params,
        dict_get "token"
          (snd (request_of (BugzillaRESTClient.mk "http://example.com"
                                                  (JString "s3cr3t"))
                           resource params))
        = Some (JString "s3cr3t")).
Proof.
  apply (@login_stores_token login_lib scripted "ann" "pw"
           [Replied (ok200 token_body)] client0 (ok200 token_body) [] token_body
           (JString "s3cr3t")); reflexivity.
Defined.

Lemma client_init_login_witness :
  BugzillaRESTClient.__init__ (L := login_lib) (N := scripted) "http://example.com"
                              (Some "ann") (Some "pw") (JString "given")
                              [Replied (ok200 token_body)]
  = ([], Ok (BugzillaRESTClient.mk "http://example.com" (JString "s3cr3t"))).
Proof.
  apply (proj2 (@client_init_login login_lib scripted "http://example.com"
                  (Some "ann") (Some "pw") (JString "given")
                  [Replied (ok200 token_body)])
               "ann" "pw" (ok200 token_body) [] token_body (JString "s3cr3t"));
    reflexivity.
Defined.

End ClientExamples.

(** ** The constructor of the backend *)

Section InitClaims.
Context {L : PyLib} {N : Network}.

(** X7.  The backend that the constructor builds has a page size of at
    least 1: the size asked for when that is 1 or more, and 1 otherwise.
    It talks to the URL, takes its origin from the URL when none or an
    empty one is given, and keeps the cache it is given. *)
Theorem init_attributes url user password api_token limit cache origin n n' b :
  __init__ url user password api_token limit cache origin n = (n', Ok b) ->
  max_bugs b = Z.max 1 limit /\ 1 <= max_bugs b
  /\ (1 <= limit -> max_bugs b = limit)
  /\ BugzillaREST.url b = url
  /\ BugzillaREST.cache b = cache
  /\ BugzillaRESTClient.base_url (client b) = url
  /\ (origin = None \/ origin = Some "" -> BugzillaREST.origin b = url)
  /\ (forall o, origin = Some o -> o <> "" -> BugzillaREST.origin b = o).
Proof.
  unfold __init__. intros H.
  destruct (BugzillaRESTClient.__init__ url user password api_token n)
    as [n1 [c | e |]] eqn:E; inversion H; subst; clear H. cbn.
  repeat split; try lia.
  - unfold BugzillaRESTClient.__init__ in E.
    destruct user as [u |]; [ destruct password as [p |] | ].
    + rewrite login_eq in E.
      destruct (requests_get _ _ n) as [[r | e] n2].
      * destruct (is_error r); [ discriminate E | ].
        destruct (json_loads (text r)) as [data |]; [ | discriminate E ].
        destruct (getitem data "token"); inversion E; reflexivity.
      * destruct e; discriminate E.
    + inversion E; reflexivity.
    + inversion E; reflexivity.
  - intros [-> | ->]; reflexivity.
  - intros o -> Ho. cbn. destruct (String.eqb o "") eqn:Eo; [ | reflexivity ].
    apply String.eqb_eq in Eo. contradiction.
Qed.

End InitClaims.

Section InitExample.

Lemma init_attributes_witness :
  max_bugs backend0 = Z.max 1 500 /\ 1 <= max_bugs backend0
  /\ (1 <= 500 -> max_bugs backend0 = 500)
  /\ BugzillaREST.url backend0 = "http://example.com"
  /\ BugzillaREST.cache backend0 = Some []
  /\ BugzillaRESTClient.base_url (client backend0) = "http://example.com"
  /\ (@None string = None \/ @None string = Some "" ->
      BugzillaREST.origin backend0 = "http://example.com")
  /\ (forall o, None = Some o -> o <> "" -> BugzillaREST.origin backend0 = o).
Proof.
  apply (@init_attributes examples scripted "http://example.com" None None JNull
                          500 (Some []) None [] [] backend0).
  reflexivity.
Defined.

End InitExample.

(** ** Rounds of [__fetch_bugs], one behind the other *)

Section AfterPagesFacts.

Lemma client_after_pages pages : forall b, client (after_pages pages b) = client b.
Proof.
  induction pages as [| p pages IH]; intros b; [ reflexivity | ].
  rewrite after_pages_cons, IH, client_flushed. reflexivity.
Qed.

Lemma max_bugs_after_pages pages : forall b,
  max_bugs (after_pages pages b) = max_bugs b.
Proof.
  induction pages as [| p pages IH]; intros b; [ reflexivity | ].
  rewrite after_pages_cons, IH, max_bugs_flushed. reflexivity.
Qed.

End AfterPagesFacts.

Section RoundClaims.
Context {L : PyLib} {N : Network}.

(** The body of a round on a page with bugs. *)
Lemma round_body_run from_date offset p n b n1 :
  page_ok p ->
  served n (page_exchanges (client b) from_date (max_bugs b) offset p) n1 ->
  round_body from_date offset (World n b)
  = (page_yields p, World n1 (buffered (page_entries p) b), Ok true).
Proof.
  intros (Sr & Hne & (data & shells & Hdata & Hshells & Hiter) & Hxs) Hs.
  unfold page_exchanges in Hs.
  inversion Hs as [| ? ? ? n0 ? ? Hget Sxs]; subst; clear Hs.
  unfold round_body, bind. rewrite fetch_page_eq.
  rewrite (receive_run (fun c => bugs_request c from_date offset (max_bugs b))
                       parse_page n b Hget Sr).
  rewrite (parse_page_run _ Hdata Hshells). unfold lift.
  rewrite (py_iter_len _ Hiter), Hiter.
  destruct (Z.of_nat (length (map b_shell (p_bugs p))) =? 0) eqn:Hzero.
  { apply Z.eqb_eq in Hzero. rewrite length_map in Hzero.
    destruct (p_bugs p); [ congruence | simpl in Hzero; lia ]. }
  rewrite (@for_each_fetch_run _ _ (p_bugs p) n0
             (buffered [text (p_reply p)] b) n1 Hxs Sxs).
  rewrite buffered_app. unfold ret, page_yields. simpl app.
  rewrite app_nil_r. reflexivity.
Qed.

Lemma next_offset_cons offset limit p pages :
  next_offset (offset + limit) limit pages = next_offset offset limit (p :: pages).
Proof. unfold next_offset. cbn [length]. lia. Qed.

(** The first rounds of the loop, on pages that hold bugs. *)
Lemma fetch_bugs_after_pages from_date pages : forall offset n b n1 fuel,
  Forall page_ok pages ->
  served n (run_exchanges (client b) from_date (max_bugs b) offset pages) n1 ->
  __fetch_bugs (length pages + fuel) from_date offset (World n b)
  = (let '(ys, w', r) :=
       __fetch_bugs fuel from_date (next_offset offset (max_bugs b) pages)
                    (World n1 (after_pages pages b)) in
     (flat_map page_yields pages ++ ys, w', r)).
Proof.
  induction pages as [| p pages IH]; intros offset n b n1 fuel Hok Hs.
  - inversion Hs; subst. unfold next_offset. cbn [length Nat.add Z.of_nat].
    rewrite Z.mul_0_r, Z.add_0_r. unfold after_pages. cbn [fold_left flat_map app].
    destruct (__fetch_bugs fuel from_date offset _) as [[ys w'] r]. reflexivity.
  - inversion Hok as [| ? ? Hp Hpages]; subst.
    cbn [run_exchanges] in Hs. apply served_app_inv in Hs.
    destruct Hs as (n0 & Sp & Srest).
    cbn [length Nat.add]. rewrite fetch_bugs_round_body. unfold bind.
    rewrite (round_body_run b Hp Sp), flush_eq. unfold gets. cbn [wire self].
    rewrite max_bugs_flushed.
    change (max_bugs (buffered _ b)) with (max_bugs b).
    rewrite (IH (offset + max_bugs b) n0 (flushed (buffered (page_entries p) b))
                n1 fuel Hpages).
    + rewrite max_bugs_flushed.
      change (max_bugs (buffered _ b)) with (max_bugs b).
      rewrite next_offset_cons with (p := p), after_pages_cons.
      destruct (__fetch_bugs fuel from_date _ _) as [[ys w'] r].
      cbn [flat_map app]. rewrite app_assoc. reflexivity.
    + rewrite client_flushed, max_bugs_flushed. exact Srest.
Qed.

(** X8.  Rounds compose.  When the server answers the first rounds with
    pages that hold bugs, [__fetch_bugs] hands the bugs of those pages
    over, commits each page, and is then where a fresh run of the loop
    would be: at the offset behind the pages, which is the page size times
    their number further, on the backend the pages left, with the budget
    that remains.  With a cache and an empty queue at the start, that
    backend has the entries of the pages committed and an empty queue. *)
Theorem rounds_compose from_date pages offset n b n1 fuel :
  Forall page_ok pages ->
  served n (run_exchanges (client b) from_date (max_bugs b) offset pages) n1 ->
  __fetch_bugs (length pages + fuel) from_date offset (World n b)
  = (let '(ys, w', r) :=
       __fetch_bugs fuel from_date
                    (offset + max_bugs b * Z.of_nat (length pages))
                    (World n1 (after_pages pages b)) in
     (flat_map page_yields pages ++ ys, w', r))
  /\ (forall committed,
         cache b = Some committed -> cache_queue b = [] ->
         cache (after_pages pages b)
         = Some (committed ++ flat_map page_entries pages)
         /\ cache_queue (after_pages pages b) = []).
Proof.
  intros Hok Hs. split.
  - exact (fetch_bugs_after_pages from_date offset b fuel Hok Hs).
  - intros committed Hc Hq. apply after_pages_cache; assumption.
Qed.

Lemma parse_page_raises raw e :
  parse_page raw = Raise e ->
  e = JSONDecodeError \/ e = KeyError (JString "bugs") \/ e = TypeError.
Proof.
  unfold parse_page, decode. destruct (json_loads raw) as [data |]; simpl.
  - destruct data; simpl; intros H; inversion H; auto.
    destruct (dict_get "bugs" fields); inversion H; auto.
  - intros H. inversion H. auto.
Qed.

Lemma getitem_raises o k e :
  getitem o k = Raise e -> e = KeyError (JString k) \/ e = TypeError.
Proof.
  destruct o; simpl; intros H; inversion H; auto.
  destruct (dict_get k fields); inversion H; auto.
Qed.

(** The run of [fetch] as written when, after pages with bugs, the list
    GET is answered with a body that cannot be used. *)
Lemma page_error_raises raw e :
  page_error raw e ->
  e = JSONDecodeError \/ e = KeyError (JString "bugs") \/ e = TypeError.
Proof.
  intros [H | (shells & _ & H)]; [ exact (parse_page_raises _ H) | ].
  destruct shells; simpl in H; inversion H; auto.
Qed.

Lemma fetch_page_undecodable from_date pages n b n' r e fuel committed :
  cache b = Some committed ->
  Forall page_ok pages ->
  served n (run_exchanges (client b) (since from_date) (max_bugs b) 0 pages
            ++ [(bugs_request (client b) (since from_date)
                   (next_offset 0 (max_bugs b) pages) (max_bugs b), r)]) n' ->
  success r ->
  page_error (text r) e ->
  (length pages < fuel)%nat ->
  exists w',
    fetch fuel from_date (World n b) = (flat_map page_yields pages, w', Raise e)
    /\ wire w' = n'
    /\ cache (self w') = Some (committed ++ flat_map page_entries pages)
    /\ cache_queue (self w') = [text r]
    /\ (e = JSONDecodeError \/ e = KeyError (JString "bugs") \/ e = TypeError).
Proof.
  intros Hc Hpages Hs Sr Hparse Hfuel.
  apply served_app_inv in Hs. destruct Hs as (n1 & Spages & Slast).
  inversion Slast as [| ? ? ? n2 ? ? Hget Snil]; subst. inversion Snil; subst.
  clear Slast Snil.
  exists (World n' (buffered [text r] (after_pages pages (with_cache_queue [] b)))).
  destruct (@after_pages_cache pages (with_cache_queue [] b) committed Hc eq_refl)
    as (H1 & H2).
  cbn [wire self]. rewrite cache_buffered, queue_buffered, H1, H2.
  pose proof (page_error_raises Hparse) as He.
  repeat split; auto.
  rewrite fetch_eq.
  replace fuel with (length pages + S (fuel - S (length pages)))%nat by lia.
  rewrite (@fetch_bugs_after_pages (since from_date) pages 0 n (with_cache_queue [] b)
             n1 _ Hpages Spages).
  rewrite fetch_bugs_round. unfold bind. rewrite fetch_page_eq.
  rewrite max_bugs_after_pages.
  assert (Hget' :
            requests_get
              (fst (bugs_request (client (after_pages pages (with_cache_queue [] b)))
                      (since from_date)
                      (next_offset 0 (max_bugs (with_cache_queue [] b)) pages)
                      (max_bugs (with_cache_queue [] b))))
              (snd (bugs_request (client (after_pages pages (with_cache_queue [] b)))
                      (since from_date)
                      (next_offset 0 (max_bugs (with_cache_queue [] b)) pages)
                      (max_bugs (with_cache_queue [] b))))
              n1 = (Replied r, n'))
    by (rewrite client_after_pages; exact Hget).
  rewrite (@receive_run N
             (fun c => bugs_request c (since from_date)
                         (next_offset 0 (max_bugs (with_cache_queue [] b)) pages)
                         (max_bugs (with_cache_queue [] b)))
             parse_page n1 (after_pages pages (with_cache_queue [] b)) r n'
             Hget' Sr).
  destruct Hparse as [Hparse | (shells & Hparse & Hlen)]; rewrite Hparse.
  - rewrite app_nil_r. destruct He as [-> | [-> | ->]]; reflexivity.
  - unfold lift. rewrite Hlen, !app_nil_r.
    destruct He as [-> | [-> | ->]]; reflexivity.
Qed.

End RoundClaims.

Section MidPageClaims.
Context {L : PyLib} {N : Network}.

(** The run of [fetch] as written when a page lists, behind bugs that
    could be completed, a bug without [id]. *)
Lemma fetch_bug_without_id from_date pages n b n' r data shells done shell more e
        fuel committed :
  cache b = Some committed ->
  Forall page_ok pages ->
  served n (run_exchanges (client b) (since from_date) (max_bugs b) 0 pages
            ++ (bugs_request (client b) (since from_date)
                  (next_offset 0 (max_bugs b) pages) (max_bugs b), r)
               :: flat_map (bug_exchanges (client b)) done) n' ->
  success r ->
  json_loads (text r) = Some data ->
  getitem data "bugs" = Ok shells ->
  py_iter shells = Ok (map b_shell done ++ shell :: more) ->
  Forall bug_ok done ->
  getitem shell "id" = Raise e ->
  (length pages < fuel)%nat ->
  exists w',
    fetch fuel from_date (World n b)
    = (flat_map page_yields pages ++ map b_bug done, w', Raise e)
    /\ wire w' = n'
    /\ cache (self w') = Some (committed ++ flat_map page_entries pages)
    /\ cache_queue (self w') = text r :: flat_map bug_entries done
    /\ (e = KeyError (JString "id") \/ e = TypeError).
Proof.
  intros Hc Hpages Hs Sr Hdata Hshells Hiter Hdone Hid Hfuel.
  apply served_app_inv in Hs. destruct Hs as (n1 & Spages & Slast).
  inversion Slast as [| ? ? ? n2 ? ? Hget Sdone]; subst. clear Slast.
  exists (World n' (buffered (text r :: flat_map bug_entries done)
                            (after_pages pages (with_cache_queue [] b)))).
  destruct (@after_pages_cache pages (with_cache_queue [] b) committed Hc eq_refl)
    as (H1 & H2).
  cbn [wire self]. rewrite cache_buffered, queue_buffered, H1, H2.
  pose proof (getitem_raises _ _ Hid) as He.
  repeat split; auto.
  rewrite fetch_eq.
  replace fuel with (length pages + S (fuel - S (length pages)))%nat by lia.
  rewrite (@fetch_bugs_after_pages _ _ (since from_date) pages 0 n (with_cache_queue [] b)
             n1 _ Hpages Spages).
  rewrite fetch_bugs_round. unfold bind. rewrite fetch_page_eq.
  rewrite max_bugs_after_pages.
  assert (Hget' :
            requests_get
              (fst (bugs_request (client (after_pages pages (with_cache_queue [] b)))
                      (since from_date)
                      (next_offset 0 (max_bugs (with_cache_queue [] b)) pages)
                      (max_bugs (with_cache_queue [] b))))
              (snd (bugs_request (client (after_pages pages (with_cache_queue [] b)))
                      (since from_date)
                      (next_offset 0 (max_bugs (with_cache_queue [] b)) pages)
                      (max_bugs (with_cache_queue [] b))))
              n1 = (Replied r, n2))
    by (rewrite client_after_pages; exact Hget).
  rewrite (@receive_run N
             (fun c => bugs_request c (since from_date)
                         (next_offset 0 (max_bugs (with_cache_queue [] b)) pages)
                         (max_bugs (with_cache_queue [] b)))
             parse_page n1 (after_pages pages (with_cache_queue [] b)) r n2
             Hget' Sr).
  rewrite (parse_page_run _ Hdata Hshells). unfold lift.
  rewrite (py_iter_len _ Hiter), Hiter.
  destruct (Z.of_nat (length (map b_shell done ++ shell :: more)) =? 0) eqn:Hzero.
  { apply Z.eqb_eq in Hzero. rewrite length_app in Hzero. simpl in Hzero. lia. }
  rewrite for_each_app. unfold bind.
  assert (Sdone' :
            served n2
              (flat_map (bug_exchanges
                           (client (buffered [text r]
                                      (after_pages pages (with_cache_queue [] b)))))
                        done) n')
    by (change (client (buffered [text r] (after_pages pages (with_cache_queue [] b))))
          with (client (after_pages pages (with_cache_queue [] b)));
        rewrite client_after_pages; exact Sdone).
  rewrite (@for_each_fetch_run L N done n2
             (buffered [text r] (after_pages pages (with_cache_queue [] b))) n'
             Hdone Sdone').
  cbn [for_each]. unfold bind, fetch_bug at 1. unfold bind, lift. rewrite Hid.
  rewrite buffered_app, !app_nil_r.
  destruct He as [-> | ->]; reflexivity.
Qed.

End MidPageClaims.

Section WholePagesClaims.
Context {L : PyLib}.
#[local] Existing Instance scripted.

Lemma fetch_world_inv {N : Network} fuel from_date n b ys (w' : world) r :
  fetch fuel from_date (World n b) = (ys, w', r) ->
  exists r0,
    __fetch_bugs fuel (since from_date) 0 (World n (with_cache_queue [] b))
    = (ys, w', r0).
Proof.
  intros H. apply fetch_run_inv in H. destruct H as (r0 & H & _). eauto.
Qed.

(** X11.  Whole pages only.  On a scripted server, however a run of
    [fetch] as written ends (normally, with any exception, or still
    running when the budget is spent), the replies it took off the script
    are the responses of whole pages, each a page response followed by the
    three responses of every bug of the page, then further responses, all
    of them successes, and behind them at most one reply that is no
    success, the one that ended the run.  What the run committed to the
    cache are the entries of the whole pages; the texts of the further
    responses are in the queue, and of nothing else. *)
Theorem whole_pages_only fuel from_date (script : list reply) b committed ys
        (w' : world) r :
  cache b = Some committed ->
  fetch fuel from_date (World (N := scripted) script b) = (ys, w', r) ->
  exists pages partial last,
    script = map Replied (flat_map page_responses pages ++ partial)
               ++ last ++ wire w' /\
    (last = [] \/ exists bad, last = [bad] /\ ~ good bad) /\
    Forall page_ok pages /\ Forall success partial /\
    cache (self w') = Some (committed ++ flat_map page_entries pages) /\
    cache_queue (self w') = map text partial.
Proof.
  intros Hc H. apply fetch_world_inv in H. destruct H as (r0 & H).
  apply fetch_bugs_tracked in H.
  destruct H as (pages & partial & Hpages & Hpartial & Hself & Hn).
  destruct (@after_pages_cache pages (with_cache_queue [] b) committed Hc eq_refl)
    as (H1 & H2).
  exists pages, partial.
  destruct Hn as [Hn | (bad & Hn & Hbad & _)];
    [ exists [] | exists [bad] ];
    rewrite Hself, cache_buffered, queue_buffered, H1, H2;
    (split; [ exact Hn | ]); (split; [ | auto ]).
  - left. reflexivity.
  - right. exists bad. auto.
Qed.

End WholePagesClaims.

(** ** The bugs handed over *)

Section FieldClaims.
Context {L : PyLib} {N : Network}.

Lemma getitem_setitem_same o k v o' :
  setitem o k v = Ok o' -> getitem o' k = Ok v.
Proof.
  destruct o; simpl; try discriminate. intros H. inversion H; subst. simpl.
  rewrite dict_get_set_same. reflexivity.
Qed.

Lemma getitem_setitem_other o k v o' k' :
  setitem o k v = Ok o' -> k' <> k -> getitem o' k' = getitem o k'.
Proof.
  destruct o; simpl; try discriminate. intros H Hne. inversion H; subst. simpl.
  rewrite dict_get_set_other by exact Hne. reflexivity.
Qed.

Lemma assemble_fields shell c h a bug :
  assemble shell c h a = Ok bug ->
  exists id,
    getitem shell "id" = Ok id /\
    getitem bug "comments" = parse_comments id c /\
    getitem bug "history" = parse_history h /\
    getitem bug "attachments" = parse_attachments id a /\
    (forall k, k <> "comments" -> k <> "history" -> k <> "attachments" ->
               getitem bug k = getitem shell k).
Proof.
  unfold assemble. intros H.
  destruct (getitem shell "id") as [id | |] eqn:Hid; try discriminate.
  simpl in H.
  destruct (parse_comments id c) as [cs | |] eqn:Pc; try discriminate.
  simpl in H.
  destruct (setitem shell "comments" cs) as [b1 | |] eqn:Hb1; try discriminate.
  simpl in H.
  destruct (parse_history h) as [hs | |] eqn:Ph; try discriminate.
  simpl in H.
  destruct (setitem b1 "history" hs) as [b2 | |] eqn:Hb2; try discriminate.
  simpl in H.
  destruct (parse_attachments id a) as [ats | |] eqn:Pa; try discriminate.
  simpl in H.
  exists id. rewrite ?Pc, ?Ph, ?Pa.
  split; [ reflexivity | ]. split; [ | split; [ | split ] ].
  - rewrite (getitem_setitem_other _ _ H) by discriminate.
    rewrite (getitem_setitem_other _ _ Hb2) by discriminate.
    apply (getitem_setitem_same _ _ _ Hb1).
  - rewrite (getitem_setitem_other _ _ H) by discriminate.
    apply (getitem_setitem_same _ _ _ Hb2).
  - apply (getitem_setitem_same _ _ _ H).
  - intros k Hc Hh Ha.
    rewrite (getitem_setitem_other _ _ H) by exact Ha.
    rewrite (getitem_setitem_other _ _ Hb2) by exact Hh.
    apply (getitem_setitem_other _ _ Hb1). exact Hc.
Qed.

(** X12.  The fields of a bug.  A bug that [fetch_bug] hands over is its
    shell with three fields set: [comments], [history] and [attachments]
    hold what was taken out of the three responses, whatever the shell
    held under those names, and every other field is the field of the
    shell.  So [metadata_id] of the bug is [str] of the identifier its
    three GETs were made for. *)
Theorem fetched_bug_fields shell n b ys w' u :
  fetch_bug shell (World n b) = (ys, w', Ok u) ->
  exists x,
    ys = [b_bug x] /\ b_shell x = shell /\
    served n (bug_exchanges (client b) x) (wire w') /\
    getitem (b_bug x) "comments" = parse_comments (b_id x) (text (b_comments x)) /\
    getitem (b_bug x) "history" = parse_history (text (b_history x)) /\
    getitem (b_bug x) "attachments"
    = parse_attachments (b_id x) (text (b_attachments x)) /\
    (forall k, k <> "comments" -> k <> "history" -> k <> "attachments" ->
               getitem (b_bug x) k = getitem shell k) /\
    metadata_id (b_bug x) = Ok (py_str (b_id x)).
Proof.
  intros H. apply fetch_bug_Ok_inv in H.
  destruct H as (x & n' & <- & (Hid & _ & _ & _ & Hasm) & Hs & -> & ->).
  exists x. cbn [wire].
  destruct (assemble_fields _ _ _ _ Hasm) as (id & Hid' & Hc & Hh & Ha & Hk).
  rewrite Hid in Hid'. inversion Hid'; subst id.
  repeat split; auto.
  unfold metadata_id. rewrite Hk by discriminate. rewrite Hid. reflexivity.
Qed.

End FieldClaims.

(** ** The replay, whatever the cache holds *)

Section ReplayTotal.
Context {L : PyLib}.

Lemma shrinks_ret {A} (a : A) : shrinks (ret a).
Proof. intros items ys rest r H. inversion H; subst. split; [ discriminate | lia ]. Qed.

Lemma shrinks_yield item : shrinks (yield item).
Proof. intros items ys rest r H. inversion H; subst. split; [ discriminate | lia ]. Qed.

Lemma shrinks_lift {A} (x : res A) : x <> Diverge -> shrinks (lift x).
Proof. intros Hx items ys rest r H. inversion H; subst. split; [ exact Hx | lia ]. Qed.

Lemma shrinks_bind {A B} (m : gen (list string) A) (k : A -> gen (list string) B) :
  shrinks m -> (forall a, shrinks (k a)) -> shrinks (bind m k).
Proof.
  intros Hm Hk items ys rest r H. unfold bind in H.
  destruct (m items) as [[ys1 s1] [a | e |]] eqn:E1.
  - destruct (k a s1) as [[ys2 s2] r2] eqn:E2. inversion H; subst.
    destruct (Hm _ _ _ _ E1) as (_ & Hl1). destruct (Hk _ _ _ _ _ E2) as (Hr & Hl2).
    split; [ exact Hr | lia ].
  - inversion H; subst. destruct (Hm _ _ _ _ E1) as (_ & Hl1).
    split; [ discriminate | exact Hl1 ].
  - destruct (Hm _ _ _ _ E1) as (Hr & _). contradiction.
Qed.

Lemma shrinks_next : shrinks next.
Proof.
  intros items ys rest r H. unfold next in H.
  destruct items; inversion H; subst; split; try discriminate; simpl; lia.
Qed.

Lemma shrinks_loads raw : shrinks (loads raw).
Proof.
  intros items ys rest r H. unfold loads in H.
  destruct (json_loads raw); inversion H; subst; split; try discriminate; lia.
Qed.

Lemma getitem_ends o k : getitem o k <> Diverge.
Proof. destruct o; simpl; try discriminate. destruct (dict_get k fields); discriminate. Qed.

Lemma getitem0_ends o : getitem0 o <> Diverge.
Proof. destruct o as [| | | | [| c s] | [| x l] |]; simpl; discriminate. Qed.

Lemma setitem_ends o k v : setitem o k v <> Diverge.
Proof. destruct o; simpl; discriminate. Qed.

Lemma py_iter_ends o : py_iter o <> Diverge.
Proof. destruct o; simpl; discriminate. Qed.

Lemma shrinks_for_each xs (body : json -> gen (list string) unit) :
  (forall x, shrinks (body x)) -> shrinks (for_each xs body).
Proof.
  intros Hb. induction xs as [| x xs IH]; simpl.
  - apply shrinks_ret.
  - apply shrinks_bind; auto.
Qed.

Lemma shrinks_replay_bug bug : shrinks (replay_bug bug).
Proof.
  unfold replay_bug.
  repeat first
         [ apply shrinks_yield
         | apply shrinks_next
         | apply shrinks_loads
         | apply shrinks_lift;
           first [ apply getitem_ends | apply getitem0_ends | apply setitem_ends ]
         | apply shrinks_bind; [ | intros ? ] ].
Qed.

Lemma shrinks_replay_page raw : shrinks (replay_page raw).
Proof.
  unfold replay_page.
  repeat first
         [ apply shrinks_loads
         | apply shrinks_for_each; apply shrinks_replay_bug
         | apply shrinks_lift; first [ apply getitem_ends | apply py_iter_ends ]
         | apply shrinks_bind; [ | intros ? ] ].
Qed.

(** A round of the replay on a cache that is not at its end. *)
Lemma replay_cons fuel raw items :
  replay (S fuel) (raw :: items)
  = bind (replay_page raw) (fun _ => replay fuel) items.
Proof.
  cbn [replay]. unfold except_StopIteration, replay_page.
  unfold bind at 1. unfold bind at 1. unfold next, ret at 1 2. cbv iota beta.
  transitivity ((bugs <- loads raw ;;
                 shells <- lift (getitem bugs "bugs") ;;
                 items <- lift (py_iter shells) ;;
                 for_each items replay_bug ;; replay fuel) items).
  { destruct ((bugs <- loads raw ;; _) items) as [[ys s] r]. reflexivity. }
  symmetry.
  rewrite bind_assoc. apply bind_ext. intros bugs s1.
  rewrite bind_assoc. apply bind_ext. intros shells s2.
  rewrite bind_assoc. reflexivity.
Qed.

Lemma replay_ends fuel : forall items ys rest r,
  (length items < fuel)%nat ->
  replay fuel items = (ys, rest, r) -> r <> Diverge.
Proof.
  induction fuel as [| fuel IH]; intros items ys rest r Hlen H; [ lia | ].
  destruct items as [| raw items].
  - inversion H. discriminate.
  - rewrite replay_cons in H. unfold bind in H.
    destruct (replay_page raw items) as [[ys1 s1] [[] | e |]] eqn:E1.
    + destruct (shrinks_replay_page _ _ E1) as (_ & Hl).
      destruct (replay fuel s1) as [[ys2 s2] r2] eqn:E2. inversion H; subst.
      simpl in Hlen. assert (Hs1 : (length s1 < fuel)%nat) by lia.
      exact (IH _ _ _ _ Hs1 E2).
    + inversion H. discriminate.
    + destruct (shrinks_replay_page _ _ E1) as (Hr & _). contradiction.
Qed.

End ReplayTotal.

Section ReplayClaims.
Context {L : PyLib} {N : Network}.

(** [fetch_from_cache] as written always ends, leaves the backend and the
    network as they are, and ends with no other exception than those of
    [replay_outcome]. *)
Lemma fetch_from_cache_ends (w w' : world) ys r :
  fetch_from_cache w = (ys, w', r) ->
  w' = w /\ r <> Diverge /\ (forall e, r = Raise e -> replay_outcome e).
Proof.
  unfold fetch_from_cache, generator, bind, gets. unfold replay_outcome.
  destruct (cache (self w)) as [items |].
  - unfold counting, over_cache.
    destruct (replay (S (length items)) items) as [[ys0 rest] [u | e |]] eqn:E.
    + intros H. inversion H; subst. repeat split; try discriminate.
    + pose proof (@raises_replay L (S (length items)) _ _ _ _ E) as He.
      intros H.
      destruct e; simpl in He; try discriminate He; inversion H; subst;
        (split; [ reflexivity | split; [ discriminate | ] ]);
        intros e' He'; inversion He'; subst; eauto 10.
    + exfalso.
      apply (@replay_ends L (S (length items)) items ys0 rest Diverge
               (Nat.lt_succ_diag_r _) E).
      reflexivity.
  - intros H. inversion H; subst. repeat split; try discriminate.
    intros e He. inversion He. auto.
Qed.


Lemma py_len_zero_iter o : py_len o = Ok 0 -> py_iter o = Ok [].
Proof.
  destruct o; simpl; try discriminate; intros H; inversion H as [Hz].
  - destruct s; [ reflexivity | discriminate Hz ].
  - destruct items; [ reflexivity | discriminate Hz ].
  - destruct fields; [ reflexivity | discriminate Hz ].
Qed.

Lemma replay_empty_page fuel r rest :
  empty_page r -> replay (S fuel) (text r :: rest) = replay fuel rest.
Proof.
  intros (_ & data & shells & Hdata & Hshells & Hlen).
  rewrite replay_cons. unfold bind, replay_page, bind, loads, lift.
  rewrite Hdata. unfold ret. cbv iota beta.
  rewrite Hshells, (py_len_zero_iter _ Hlen). cbn [for_each]. unfold ret.
  destruct (replay fuel rest) as [[ys s] r0]. reflexivity.
Qed.

(** The replay as written goes past an entry that decodes to a page
    without bugs. *)
Lemma replay_over_empty_page (w : world) pages1 r pages2 :
  Forall page_ok pages1 ->
  empty_page r ->
  Forall page_ok pages2 ->
  cache (self w)
  = Some (flat_map page_entries pages1 ++ text r :: flat_map page_entries pages2) ->
  fetch_from_cache w
  = (flat_map page_yields pages1 ++ flat_map page_yields pages2, w,
     Ok (Z.of_nat (bug_count pages1 + bug_count pages2))).
Proof.
  intros H1 Hr H2 Hc.
  unfold fetch_from_cache, generator, bind, gets. rewrite Hc.
  unfold counting, over_cache.
  pose proof (length_page_entries pages1) as L1.
  pose proof (length_page_entries pages2) as L2.
  replace (S (length (flat_map page_entries pages1
                      ++ text r :: flat_map page_entries pages2)))
    with (length pages1
          + S (length pages2
               + S (length (flat_map page_entries pages1) - length pages1
                    + (length (flat_map page_entries pages2) - length pages2))))%nat
    by (rewrite length_app; simpl; lia).
  rewrite (replay_pages _ _ H1), (replay_empty_page _ _ Hr).
  rewrite <- (app_nil_r (flat_map page_entries pages2)).
  rewrite (replay_pages _ _ H2), replay_end, !app_nil_r.
  rewrite length_app, !length_pages_yields. reflexivity.
Qed.

End ReplayClaims.

Section ForeignEntryClaims.
Context {L : PyLib} {N : Network}.

Lemma replay_bug_foreign_comments shell id c h a cd m hd ad rest :
  getitem shell "id" = Ok id ->
  json_loads c = Some cd ->
  getitem cd "bugs" = Ok (JObject m) ->
  dict_get (py_str id) m = None ->
  json_loads h = Some hd ->
  json_loads a = Some ad ->
  replay_bug shell (c :: h :: a :: rest)
  = ([], rest, Raise (KeyError (JString (py_str id)))).
Proof.
  intros Hid Hc Hcb Hm Hh Ha.
  unfold replay_bug, bind, lift, next, loads. rewrite Hid, Hc. simpl.
  rewrite Hh. simpl. rewrite Ha. simpl. rewrite Hcb. simpl. rewrite Hm.
  reflexivity.
Qed.

(** The replay of complete pages, of a page and of its first bugs, up to a
    bug whose replay ends with an exception. *)
Lemma replay_mid_page pages raw data shells done shell more tail fuel ys' items' e :
  Forall page_ok pages ->
  json_loads raw = Some data ->
  getitem data "bugs" = Ok shells ->
  py_iter shells = Ok (map b_shell done ++ shell :: more) ->
  Forall bug_ok done ->
  replay_bug shell tail = (ys', items', Raise e) ->
  replay (length pages + S fuel)
         (flat_map page_entries pages ++ raw :: flat_map bug_entries done ++ tail)
  = (flat_map page_yields pages ++ map b_bug done ++ ys', items', Raise e).
Proof.
  intros Hpages Hdata Hshells Hiter Hdone Hbug.
  rewrite (replay_pages _ _ Hpages), replay_cons.
  unfold bind at 1. unfold replay_page, bind, loads, lift. rewrite Hdata.
  unfold ret. cbv iota beta. rewrite Hshells, Hiter, for_each_app. unfold bind.
  rewrite (for_each_replay_run _ Hdone). cbn [for_each]. unfold bind.
  rewrite Hbug. simpl app. reflexivity.
Qed.

(** The replay as written when the entry read as the comments of a bug
    holds nothing under the identifier of the bug. *)
Lemma replay_foreign_comments (w : world) pages raw data shells done shell more
        id c h a cd m hd ad rest :
  Forall page_ok pages ->
  json_loads raw = Some data ->
  getitem data "bugs" = Ok shells ->
  py_iter shells = Ok (map b_shell done ++ shell :: more) ->
  Forall bug_ok done ->
  getitem shell "id" = Ok id ->
  json_loads c = Some cd ->
  getitem cd "bugs" = Ok (JObject m) ->
  dict_get (py_str id) m = None ->
  json_loads h = Some hd ->
  json_loads a = Some ad ->
  cache (self w)
  = Some (flat_map page_entries pages
          ++ raw :: flat_map bug_entries done ++ c :: h :: a :: rest) ->
  fetch_from_cache w
  = (flat_map page_yields pages ++ map b_bug done, w,
     Raise (KeyError (JString (py_str id)))).
Proof.
  intros Hpages Hdata Hshells Hiter Hdone Hid Hc Hcb Hm Hh Ha Hcache.
  unfold fetch_from_cache, generator, bind, gets. rewrite Hcache.
  unfold counting, over_cache.
  pose proof (length_page_entries pages) as Lp.
  replace (S (length (flat_map page_entries pages
                      ++ raw :: flat_map bug_entries done ++ c :: h :: a :: rest)))
    with (length pages
          + S (length (flat_map page_entries pages) - length pages
               + length (raw :: flat_map bug_entries done ++ c :: h :: a :: rest)))%nat
    by (rewrite length_app; lia).
  rewrite (@replay_mid_page pages raw data shells done shell more
             (c :: h :: a :: rest) _ [] rest (KeyError (JString (py_str id))));
    auto.
  - rewrite app_nil_r. reflexivity.
  - eapply replay_bug_foreign_comments; eassumption.
Qed.

End ForeignEntryClaims.

(** ** What a run asks the server *)

Section RequestClaims.
Context {L : PyLib} {N : Network}.

Lemma request_of_token c resource params :
  truthy (BugzillaRESTClient.api_token c) = true ->
  dict_get "token" (snd (request_of c resource params))
  = Some (BugzillaRESTClient.api_token c).
Proof.
  intros Ht. unfold request_of. cbn [snd]. rewrite Ht. apply dict_get_set_same.
Qed.

Lemma bug_exchanges_token c x :
  truthy (BugzillaRESTClient.api_token c) = true ->
  Forall (fun y : exchange =>
            dict_get "token" (snd (fst y)) = Some (BugzillaRESTClient.api_token c))
         (bug_exchanges c x).
Proof.
  intros Ht. unfold bug_exchanges.
  repeat constructor; cbn [fst]; apply request_of_token; exact Ht.
Qed.

Lemma run_exchanges_token c from_date limit pages : forall offset,
  truthy (BugzillaRESTClient.api_token c) = true ->
  Forall (fun y : exchange =>
            dict_get "token" (snd (fst y)) = Some (BugzillaRESTClient.api_token c))
         (run_exchanges c from_date limit offset pages).
Proof.
  induction pages as [| p pages IH]; intros offset Ht; cbn [run_exchanges].
  - constructor.
  - apply Forall_app. split; [ | apply IH; exact Ht ].
    unfold page_exchanges. constructor.
    + cbn [fst]. apply request_of_token. exact Ht.
    + induction (p_bugs p) as [| x xs IHx]; cbn [flat_map]; [ constructor | ].
      apply Forall_app. split; [ apply bug_exchanges_token; exact Ht | exact IHx ].
Qed.

(** X17.  Every GET of a run carries the token.  When the client of the
    backend holds a token that is not empty, each request of a [fetch]
    that ran to its end (the list GETs and the three GETs of every bug)
    has the token among its parameters. *)
Theorem fetch_authenticated fuel from_date n b ys w' k :
  truthy (BugzillaRESTClient.api_token (client b)) = true ->
  fetch fuel from_date (World n b) = (ys, w', Ok k) ->
  exists pages last,
    served n (run_exchanges (client b) (since from_date) (max_bugs b) 0 pages
              ++ [(bugs_request (client b) (since from_date)
                     (next_offset 0 (max_bugs b) pages) (max_bugs b), last)])
           (wire w') /\
    ys = flat_map page_yields pages /\
    Forall (fun y : exchange =>
              dict_get "token" (snd (fst y))
              = Some (BugzillaRESTClient.api_token (client b)))
           (run_exchanges (client b) (since from_date) (max_bugs b) 0 pages
            ++ [(bugs_request (client b) (since from_date)
                   (next_offset 0 (max_bugs b) pages) (max_bugs b), last)]).
Proof.
  intros Ht H. apply fetch_Ok_inv in H. destruct H as (H & _).
  apply fetch_bugs_Ok_inv in H.
  destruct H as (pages & last & n' & _ & _ & Hs & -> & -> & _).
  exists pages, last. split; [ exact Hs | ]. split; [ reflexivity | ].
  apply Forall_app. split; [ apply run_exchanges_token; exact Ht | ].
  constructor; [ | constructor ]. cbn [fst]. apply request_of_token. exact Ht.
Qed.

(** X18.  The GETs for one bug.  [comments], [history] and [attachments]
    ask for the resources [bug/<id>/comment], [bug/<id>/history] and
    [bug/<id>/attachment] joined by [urljoin]; the first two pass no
    parameter of their own, and [attachments] always asks to leave the
    field [data] out, with or without a token. *)
Theorem bug_requests id n c :
  BugzillaRESTClient.comments id (n, c)
  = answered c (requests_get (fst (comments_request c id))
                             (snd (comments_request c id)) n)
  /\ BugzillaRESTClient.history id (n, c)
     = answered c (requests_get (fst (history_request c id))
                                (snd (history_request c id)) n)
  /\ BugzillaRESTClient.attachments id (n, c)
     = answered c (requests_get (fst (attachments_request c id))
                                (snd (attachments_request c id)) n)
  /\ dict_get "exclude_fields" (snd (attachments_request c id))
     = Some (JString "data")
  /\ (forall k, k <> "token" ->
                dict_get k (snd (comments_request c id)) = None
                /\ dict_get k (snd (history_request c id)) = None)
  /\ fst (attachments_request c id)
     = (BugzillaRESTClient.base_url c ++ "/rest/"
        ++ urljoin [JString "bug"; id; JString "attachment"])%string.
Proof.
  split; [ | split; [ | split; [ | split; [ | split ] ] ] ].
  - unfold BugzillaRESTClient.comments. cbv zeta. apply call_eq.
  - unfold BugzillaRESTClient.history. cbv zeta. apply call_eq.
  - unfold BugzillaRESTClient.attachments. cbv zeta. apply call_eq.
  - unfold attachments_request, request_of. cbn [snd].
    destruct (truthy (BugzillaRESTClient.api_token c));
      rewrite ?dict_get_set_other by discriminate; reflexivity.
  - intros k Hk. unfold comments_request, history_request, request_of. cbn [snd].
    destruct (truthy (BugzillaRESTClient.api_token c));
      rewrite ?dict_get_set_other by exact Hk; split; reflexivity.
  - reflexivity.
Qed.

End RequestClaims.

(** ** The further properties on the examples *)

Section FurtherExamples.

Lemma page1_served_then (rest : list reply) :
  served (N := scripted)
         (map Replied (page_responses page1) ++ rest)
         (run_exchanges (L := examples) (client backend0) epoch 500 0 [page1])
         rest.
Proof.
  cbn [run_exchanges]. rewrite app_nil_r.
  repeat (eapply served_cons; [ reflexivity | ]). apply served_nil.
Qed.

Lemma rounds_compose_witness :
  __fetch_bugs (L := examples) (N := scripted) (length [page1] + 1) epoch 0
               (World (N := scripted) upstream backend0)
  = (let '(ys, w', r) :=
       __fetch_bugs (L := examples) (N := scripted) 1 epoch
                    (0 + max_bugs backend0 * Z.of_nat (length [page1]))
                    (World (N := scripted) [Replied (ok200 page_none)]
                           (after_pages [page1] backend0)) in
     (flat_map page_yields [page1] ++ ys, w', r))
  /\ (forall committed,
         cache backend0 = Some committed -> cache_queue backend0 = [] ->
         cache (after_pages [page1] backend0)
         = Some (committed ++ flat_map page_entries [page1])
         /\ cache_queue (after_pages [page1] backend0) = []).
Proof.
  apply (@rounds_compose examples scripted epoch [page1] 0 upstream backend0
                         [Replied (ok200 page_none)] 1).
  - constructor; [ exact page1_ok | constructor ].
  - exact (page1_served_then [Replied (ok200 page_none)]).
Defined.

Lemma fetched_bug_fields_witness :
  exists x,
    [bug_of 10 "crash" "ann" "a.log"] = [b_bug x] /\ b_shell x = shell_of 10 "crash" /\
    served (N := scripted)
           (map Replied (bug_responses bug10)) (bug_exchanges (L := examples) (client backend0) x)
           (wire (World (N := scripted) [] (buffered (bug_entries bug10) backend0))) /\
    getitem (b_bug x) "comments"
    = parse_comments (L := examples) (b_id x) (text (b_comments x)) /\
    getitem (b_bug x) "history" = parse_history (L := examples) (text (b_history x)) /\
    getitem (b_bug x) "attachments"
    = parse_attachments (L := examples) (b_id x) (text (b_attachments x)) /\
    (forall k, k <> "comments" -> k <> "history" -> k <> "attachments" ->
               getitem (b_bug x) k = getitem (shell_of 10 "crash") k) /\
    metadata_id (L := examples) (b_bug x) = Ok (@py_str examples (b_id x)).
Proof.
  apply (@fetched_bug_fields examples scripted (shell_of 10 "crash")
           (map Replied (bug_responses bug10)) backend0
           [bug_of 10 "crash" "ann" "a.log"]
           (World (N := scripted) [] (buffered (bug_entries bug10) backend0)) tt).
  vm_compute. reflexivity.
Defined.

Lemma fetch_authenticated_witness :
  exists pages last,
    served (N := scripted) upstream
           (run_exchanges (L := examples) (client backend_with_token) epoch 500 0 pages
            ++ [(bugs_request (L := examples) (client backend_with_token) epoch
                   (next_offset 0 500 pages) 500, last)])
           [] /\
    yields0 = flat_map page_yields pages /\
    Forall (fun y : exchange =>
              dict_get "token" (snd (fst y)) = Some (JString "s3cr3t"))
           (run_exchanges (L := examples) (client backend_with_token) epoch 500 0 pages
            ++ [(bugs_request (L := examples) (client backend_with_token) epoch
                   (next_offset 0 500 pages) 500, last)]).
Proof.
  apply (@fetch_authenticated examples scripted 5 None upstream backend_with_token
           yields0
           (snd (fst (fetch (L := examples) (N := scripted) 5 None
                            (World (N := scripted) upstream backend_with_token))))
           2).
  - reflexivity.
  - vm_compute. reflexivity.
Defined.

Lemma call_token_witness :
  BugzillaRESTClient.call (N := scripted) "bug" [("token", JString "mine")]
                          ([], client backend_with_token)
  = answered (client backend_with_token)
             (requests_get (Network := scripted)
                (fst (request_of (client backend_with_token) "bug"
                                 [("token", JString "mine")]))
                (snd (request_of (client backend_with_token) "bug"
                                 [("token", JString "mine")])) [])
  /\ fst (request_of (client backend_with_token) "bug" [("token", JString "mine")])
     = (BugzillaRESTClient.base_url (client backend_with_token)
        ++ "/rest/" ++ "bug")%string
  /\ (truthy (BugzillaRESTClient.api_token (client backend_with_token)) = true ->
      dict_get "token"
               (snd (request_of (client backend_with_token) "bug"
                                [("token", JString "mine")]))
      = Some (BugzillaRESTClient.api_token (client backend_with_token))
      /\ forall k, k <> "token" ->
                   dict_get k
                            (snd (request_of (client backend_with_token) "bug"
                                             [("token", JString "mine")]))
                   = dict_get k [("token", JString "mine")])
  /\ (truthy (BugzillaRESTClient.api_token (client backend_with_token)) = false ->
      snd (request_of (client backend_with_token) "bug" [("token", JString "mine")])
      = [("token", JString "mine")]).
Proof.
  apply (@call_token scripted "bug" [("token", JString "mine")] []
                     (client backend_with_token)).
Defined.

Lemma bug_requests_witness :
  BugzillaRESTClient.comments (L := examples) (N := scripted) (JInt 10)
                              ([], client0)
  = answered client0
             (requests_get (Network := scripted)
                (fst (comments_request (L := examples) client0 (JInt 10)))
                (snd (comments_request (L := examples) client0 (JInt 10))) [])
  /\ BugzillaRESTClient.history (L := examples) (N := scripted) (JInt 10)
                                ([], client0)
     = answered client0
                (requests_get (Network := scripted)
                   (fst (history_request (L := examples) client0 (JInt 10)))
                   (snd (history_request (L := examples) client0 (JInt 10))) [])
  /\ BugzillaRESTClient.attachments (L := examples) (N := scripted) (JInt 10)
                                    ([], client0)
     = answered client0
                (requests_get (Network := scripted)
                   (fst (attachments_request (L := examples) client0 (JInt 10)))
                   (snd (attachments_request (L := examples) client0 (JInt 10))) [])
  /\ dict_get "exclude_fields"
              (snd (attachments_request (L := examples) client0 (JInt 10)))
     = Some (JString "data")
  /\ (forall k, k <> "token" ->
                dict_get k (snd (comments_request (L := examples) client0 (JInt 10)))
                = None
                /\ dict_get k (snd (history_request (L := examples) client0 (JInt 10)))
                   = None)
  /\ fst (attachments_request (L := examples) client0 (JInt 10))
     = (BugzillaRESTClient.base_url client0 ++ "/rest/"
        ++ urljoin (PyLib := examples)
                   [JString "bug"; JInt 10; JString "attachment"])%string.
Proof.
  apply (@bug_requests examples scripted (JInt 10) [] client0).
Defined.

End FurtherExamples.

(** * The public generators, under the decorator *)

Section DecoratorFacts.
Context {D : Decorator} {S : Type} (origin : S -> string).

Lemma wrapped_app o ys1 ys2 items1 items2 :
  wrapped o ys1 items1 -> wrapped o ys2 items2 ->
  wrapped o (ys1 ++ ys2) (items1 ++ items2).
Proof. apply Forall2_app. Qed.

Lemma wrapped_unique o ys : forall items1 items2,
  wrapped o ys items1 -> wrapped o ys items2 -> items1 = items2.
Proof.
  induction ys as [| y ys IH]; intros items1 items2 H1 H2;
    inversion H1; inversion H2; subst; [ reflexivity | ].
  f_equal; [ congruence | auto ].
Qed.

Lemma wrapped_length o ys items : wrapped o ys items -> length items = length ys.
Proof. intros H. symmetry. exact (Forall2_length H). Qed.

(** Building an item for everything excludes that none is built for a
    piece of data. *)
Lemma wrapped_not_stopped {A} o ys1 y ys2 items (r : res A) :
  wrapped o (ys1 ++ y :: ys2) items -> stopped (metadata o y) r -> False.
Proof.
  intros H Hs. apply Forall2_app_inv_l in H.
  destruct H as (l1 & l2 & _ & H & _). inversion H; subst.
  destruct Hs as [(Hd & _) | (e & He & _)]; congruence.
Qed.

Lemma stopped_not_Ok {A} built (a : A) : stopped built (Ok a) -> False.
Proof.
  intros [(_ & H) | (e & _ & [H | (_ & H)])]; discriminate.
Qed.

Lemma quiet_ret {A} (a : A) : quiet origin (ret a).
Proof. intros s ys s' r H. inversion H. auto. Qed.

Lemma quiet_lift {A} (x : res A) : quiet origin (lift x).
Proof. intros s ys s' r H. inversion H. auto. Qed.

Lemma quiet_raise {A} e : quiet origin (raise (A := A) e).
Proof. intros s ys s' r H. inversion H. auto. Qed.

Lemma quiet_gets {A} (f : S -> A) : quiet origin (gets f).
Proof. intros s ys s' r H. inversion H. auto. Qed.

Lemma quiet_loads {L : PyLib} raw : quiet origin (loads raw).
Proof.
  unfold loads. destruct (json_loads raw); [ apply quiet_ret | apply quiet_raise ].
Qed.

Lemma quiet_bind {A B} (m : gen S A) (k : A -> gen S B) :
  quiet origin m -> (forall a, quiet origin (k a)) -> quiet origin (bind m k).
Proof.
  intros Hm Hk s ys s' r H. unfold bind in H.
  destruct (m s) as [[ys1 s1] r1] eqn:E1.
  destruct (Hm _ _ _ _ E1) as (-> & Ho1).
  destruct r1 as [a | e |]; try (inversion H; subst; auto; fail).
  destruct (k a s1) as [[ys2 s2] r2] eqn:E2.
  destruct (Hk a _ _ _ _ E2) as (-> & Ho2).
  inversion H; subst. split; [ reflexivity | congruence ].
Qed.

Lemma quiet_except_StopIteration {A} (m handler : gen S A) :
  quiet origin m -> quiet origin handler ->
  quiet origin (except_StopIteration m handler).
Proof.
  intros Hm Hh s ys s' r H. unfold except_StopIteration in H.
  destruct (m s) as [[ys1 s1] r1] eqn:E1.
  destruct (Hm _ _ _ _ E1) as (-> & Ho1).
  destruct r1 as [a | e |]; try (inversion H; subst; auto; fail).
  destruct e; try (inversion H; subst; auto; fail).
  destruct (handler s1) as [[ys2 s2] r2] eqn:E2.
  destruct (Hh _ _ _ _ E2) as (-> & Ho2).
  inversion H; subst. split; [ reflexivity | congruence ].
Qed.

(** A generator that yields nothing is its own run under the decorator. *)
Lemma decorates_quiet {A} (g : gen S A) : quiet origin g -> decorates origin g g.
Proof.
  intros Hq s ys s' r H. destruct (Hq _ _ _ _ H) as (-> & Ho).
  split; [ exact Ho | ]. left. exists []. split; [ constructor | exact H ].
Qed.

Lemma decorates_yield data :
  decorates origin (yield data) (fun s => Decorated.emit (origin s) data s).
Proof.
  intros s ys s' r H. inversion H; subst. split; [ reflexivity | ].
  unfold Decorated.emit, bind, lift, yield.
  destruct (metadata (origin s') data) as [item | e |] eqn:E.
  - left. exists [item]. split; [ | reflexivity ].
    constructor; [ exact E | constructor ].
  - right. exists [], data, [], [], s', (Raise e).
    split; [ reflexivity | ]. split; [ constructor | ]. split; [ reflexivity | ].
    right. exists e. rewrite E. auto.
  - right. exists [], data, [], [], s', Diverge.
    split; [ reflexivity | ]. split; [ constructor | ]. split; [ reflexivity | ].
    left. rewrite E. auto.
Qed.

Lemma bind_stopped {A B} (m' : gen S A) (k' : A -> gen S B) s items s'' r' built :
  m' s = (items, s'', r') -> stopped built r' ->
  exists r2, bind m' k' s = (items, s'', r2) /\ stopped built r2.
Proof.
  intros E [(Hb & ->) | (e & Hb & [-> | (-> & ->)])]; unfold bind; rewrite E.
  - exists Diverge. split; [ reflexivity | left; auto ].
  - exists (Raise e). split; [ reflexivity | right; exists e; auto ].
  - exists (Raise RuntimeError).
    split; [ reflexivity | right; exists StopIteration; auto ].
Qed.

Lemma decorates_bind {A B} (m m' : gen S A) (k k' : A -> gen S B) :
  decorates origin m m' -> (forall a, decorates origin (k a) (k' a)) ->
  decorates origin (bind m k) (bind m' k').
Proof.
  intros Hm Hk s ys s' r H. unfold bind in H.
  destruct (m s) as [[ys1 s1] r1] eqn:E1.
  destruct (Hm _ _ _ _ E1) as (Ho1 & Hd1).
  assert (Hstop : forall ys2,
             (exists ys1' y ys2' items s'' r',
                 ys1 = ys1' ++ y :: ys2' /\ wrapped (origin s) ys1' items /\
                 m' s = (items, s'', r') /\
                 stopped (metadata (origin s) y) r') ->
             exists ys1' y ys2' items s'' r',
               ys1 ++ ys2 = ys1' ++ y :: ys2' /\ wrapped (origin s) ys1' items /\
               bind m' k' s = (items, s'', r') /\
               stopped (metadata (origin s) y) r').
  { intros ys2 (ys1' & y & ys2' & items & s'' & r' & -> & Hw & E' & Hs).
    destruct (@bind_stopped _ _ m' k' _ _ _ _ _ E' Hs) as (r2 & E2 & Hs2).
    exists ys1', y, (ys2' ++ ys2), items, s'', r2.
    split; [ rewrite <- app_assoc; reflexivity | ]. auto. }
  destruct r1 as [a | e |].
  - destruct (k a s1) as [[ys2 s2] r2] eqn:E2. inversion H; subst.
    destruct (Hk a _ _ _ _ E2) as (Ho2 & Hd2).
    split; [ congruence | ].
    destruct Hd1 as [(items1 & Hw1 & E1') | Hf]; [ | right; apply Hstop; exact Hf ].
    rewrite Ho1 in Hd2.
    destruct Hd2 as [(items2 & Hw2 & E2')
                    | (ys1' & y & ys2' & items2 & s'' & r' & -> & Hw2 & E2' & Hs)].
    + left. exists (items1 ++ items2). split; [ apply wrapped_app; assumption | ].
      unfold bind. rewrite E1', E2'. reflexivity.
    + right. exists (ys1 ++ ys1'), y, ys2', (items1 ++ items2), s'', r'.
      split; [ rewrite <- app_assoc; reflexivity | ].
      split; [ apply wrapped_app; assumption | ]. split; [ | exact Hs ].
      unfold bind. rewrite E1', E2'. reflexivity.
  - inversion H; subst. split; [ exact Ho1 | ].
    destruct Hd1 as [(items1 & Hw1 & E1') | Hf].
    + left. exists items1. split; [ exact Hw1 | ]. unfold bind. rewrite E1'. reflexivity.
    + right. rewrite <- (app_nil_r ys). apply Hstop. exact Hf.
  - inversion H; subst. split; [ exact Ho1 | ].
    destruct Hd1 as [(items1 & Hw1 & E1') | Hf].
    + left. exists items1. split; [ exact Hw1 | ]. unfold bind. rewrite E1'. reflexivity.
    + right. rewrite <- (app_nil_r ys). apply Hstop. exact Hf.
Qed.

Lemma decorates_for_each xs (body body' : json -> gen S unit) :
  (forall x, decorates origin (body x) (body' x)) ->
  decorates origin (for_each xs body) (for_each xs body').
Proof.
  intros Hb. induction xs as [| x xs IH]; simpl.
  - apply decorates_quiet, quiet_ret.
  - apply decorates_bind; [ apply Hb | intros _; exact IH ].
Qed.

Lemma decorates_generator {A} (g g' : gen S A) :
  decorates origin g g' -> decorates origin (generator g) (generator g').
Proof.
  intros Hg s ys s' r H. unfold generator in H.
  destruct (g s) as [[ys0 s0] r0] eqn:E.
  destruct (Hg _ _ _ _ E) as (Ho & Hd).
  assert (ys = ys0 /\ s' = s0) as (-> & ->)
      by (destruct r0 as [a | [] |]; inversion H; auto).
  split; [ exact Ho | ].
  destruct Hd as [(items & Hw & E')
                 | (ys1 & y & ys2 & items & s'' & r' & -> & Hw & E' & Hs)].
  - left. exists items. split; [ exact Hw | ].
    unfold generator. rewrite E'.
    destruct r0 as [a | [] |]; inversion H; reflexivity.
  - right.
    exists ys1, y, ys2, items, s'',
           (match r' with Raise StopIteration => Raise RuntimeError | _ => r' end).
    split; [ reflexivity | ]. split; [ exact Hw | ]. split.
    + unfold generator. rewrite E'. destruct r' as [a | [] |]; reflexivity.
    + destruct Hs as [(Hb & ->) | (e & Hb & [-> | (-> & ->)])].
      * left. auto.
      * right. exists e. split; [ exact Hb | ].
        destruct e; auto.
      * right. exists StopIteration. auto.
Qed.

Lemma decorates_counting (g g' : gen S unit) :
  decorates origin g g' -> decorates origin (counting g) (counting g').
Proof.
  intros Hg s ys s' r H. unfold counting in H.
  destruct (g s) as [[ys0 s0] r0] eqn:E.
  destruct (Hg _ _ _ _ E) as (Ho & Hd).
  assert (ys = ys0 /\ s' = s0) as (-> & ->)
      by (destruct r0 as [a | e |]; inversion H; auto).
  split; [ exact Ho | ].
  destruct Hd as [(items & Hw & E')
                 | (ys1 & y & ys2 & items & s'' & r' & -> & Hw & E' & Hs)].
  - left. exists items. split; [ exact Hw | ].
    unfold counting. rewrite E', (@wrapped_length _ _ _ Hw).
    destruct r0 as [a | e |]; inversion H; reflexivity.
  - right.
    exists ys1, y, ys2, items, s'',
           (match r' with Ok _ => Ok 0 | Raise e => Raise e | Diverge => Diverge end).
    split; [ reflexivity | ]. split; [ exact Hw | ]. split.
    + unfold counting. rewrite E'.
      destruct r' as [a | e |]; [ | reflexivity | reflexivity ].
      exfalso. eapply stopped_not_Ok; eassumption.
    + destruct Hs as [(Hb & ->) | (e & Hb & [-> | (-> & ->)])].
      * left. auto.
      * right. exists e. auto.
      * right. exists StopIteration. auto.
Qed.

(** When an item is built for everything the generator yields, its run
    under the decorator yields the items and ends as the generator does, in
    the same state. *)
Lemma decorates_wrapped {A} (g g' : gen S A) s ys s' r items :
  decorates origin g g' ->
  g s = (ys, s', r) ->
  wrapped (origin s) ys items ->
  g' s = (items, s', r).
Proof.
  intros Hg H Hw. destruct (Hg _ _ _ _ H) as (_ & Hd).
  destruct Hd as [(items' & Hw' & E')
                 | (ys1 & y & ys2 & items' & s'' & r' & -> & _ & _ & Hs)].
  - rewrite (@wrapped_unique _ _ _ _ Hw Hw'). exact E'.
  - exfalso. eapply wrapped_not_stopped; eassumption.
Qed.


(** The first piece of data for which no item is built is determined by
    what is yielded. *)
Lemma first_rejected o ys1 : forall ys1' y y' ys2 ys2' items items' e,
  ys1 ++ y :: ys2 = ys1' ++ y' :: ys2' ->
  wrapped o ys1 items -> metadata o y = Raise e ->
  wrapped o ys1' items' -> (forall item, metadata o y' <> Ok item) ->
  ys1 = ys1' /\ y = y'.
Proof.
  induction ys1 as [| x ys1 IH]; intros ys1' y y' ys2 ys2' items items' e E Hw Hy Hw' Hy'.
  - destruct ys1' as [| x' ys1']; simpl in E; inversion E; subst; [ auto | ].
    inversion Hw'; subst. congruence.
  - destruct ys1' as [| x' ys1']; simpl in E; inversion E; subst.
    + inversion Hw; subst. exfalso. eapply Hy'. eassumption.
    + inversion Hw; inversion Hw'; subst.
      destruct (IH ys1' y y' ys2 ys2' _ _ e H1 H4 Hy H9 Hy') as (-> & ->). auto.
Qed.

(** When no item is built for a piece of data the generator yields, its
    run under the decorator yields the items of what comes before and
    ends there with the exception of the decorator. *)
Lemma decorates_rejected {A} (g g' : gen S A) s ys1 y ys2 s' r items e :
  decorates origin g g' ->
  g s = (ys1 ++ y :: ys2, s', r) ->
  wrapped (origin s) ys1 items ->
  metadata (origin s) y = Raise e ->
  e <> StopIteration ->
  exists s'', g' s = (items, s'', Raise e).
Proof.
  intros Hg H Hw Hy He. destruct (Hg _ _ _ _ H) as (_ & Hd).
  destruct Hd as [(items' & Hw' & _)
                 | (ys1' & y' & ys2' & items' & s'' & r' & E & Hw' & E' & Hs)].
  - exfalso. apply Forall2_app_inv_l in Hw'.
    destruct Hw' as (l1 & l2 & _ & Hw' & _). inversion Hw'; subst. congruence.
  - assert (Hno : forall item, metadata (origin s) y' <> Ok item)
      by (intros item Hitem;
          destruct Hs as [(Hb & _) | (e' & Hb & _)]; congruence).
    destruct (first_rejected _ _ _ _ E Hw Hy Hw' Hno) as (-> & ->).
    rewrite (@wrapped_unique _ _ _ _ Hw Hw'). exists s''.
    destruct Hs as [(Hb & _) | (e' & Hb & [-> | (-> & _)])]; congruence.
Qed.

End DecoratorFacts.

Section DecoratedRuns.
Context {L : PyLib} {N : Network} {D : Decorator}.

Lemma decorates_ext {S A} (origin : S -> string) (g g' g'' : gen S A) :
  (forall s, g' s = g'' s) -> decorates origin g g' -> decorates origin g g''.
Proof.
  intros E Hg s ys s' r H. destruct (Hg _ _ _ _ H) as (Ho & Hd).
  split; [ exact Ho | ]. rewrite <- E. exact Hd.
Qed.

Lemma bind_gets {S A B} (f : S -> A) (k : A -> gen S B) s :
  bind (gets f) k s = k (f s) s.
Proof. unfold bind, gets. destruct (k (f s) s) as [[ys s'] r]. reflexivity. Qed.

Lemma quiet_diverge {S A} (origin : S -> string) : quiet origin (diverge (A := A)).
Proof. intros s ys s' r H. inversion H. auto. Qed.

Lemma quiet_on_client_call resource params :
  quiet origin_of (on_client (BugzillaRESTClient.call resource params)).
Proof.
  intros [n b] ys s' r H. rewrite on_client_call in H.
  destruct (requests_get _ _ n) as [[r0 | e] n'];
    [ destruct (is_error r0) | ]; inversion H; auto.
Qed.

Lemma quiet_purge : quiet origin_of _purge_cache_queue.
Proof. intros s ys s' r H. inversion H. auto. Qed.

Lemma quiet_push item : quiet origin_of (_push_cache_queue item).
Proof. intros s ys s' r H. inversion H. auto. Qed.

Lemma quiet_flush : quiet origin_of _flush_cache_queue.
Proof.
  intros s ys s' r H. unfold _flush_cache_queue, modify in H.
  inversion H. split; [ reflexivity | ]. destruct (cache (self s)); reflexivity.
Qed.

Lemma quiet_next (o : string) : quiet (fun _ : list string => o) next.
Proof. intros s ys s' r H. unfold next in H. destruct s; inversion H; auto. Qed.

End DecoratedRuns.

(** Go through the steps of a generator that yields nothing. *)
Ltac quiet_steps :=
  repeat first
    [ apply quiet_bind; [ | intros ? ]
    | apply quiet_ret | apply quiet_lift | apply quiet_gets | apply quiet_loads
    | apply quiet_raise | apply quiet_diverge | apply quiet_next
    | apply quiet_on_client_call | apply quiet_purge | apply quiet_push
    | apply quiet_flush | apply quiet_except_StopIteration ].

(** Go through the steps of a generator up to the first one that may
    yield. *)
Ltac decorated_steps :=
  repeat (apply decorates_bind;
          [ apply decorates_quiet; quiet_steps; fail | intros ? ]).

Section DecoratedMethods.
Context {L : PyLib} {N : Network} {D : Decorator}.

Lemma quiet_comments id : quiet origin_of (__fetch_and_parse_comments id).
Proof.
  unfold __fetch_and_parse_comments, BugzillaRESTClient.comments. quiet_steps.
Qed.

Lemma quiet_history id : quiet origin_of (__fetch_and_parse_history id).
Proof.
  unfold __fetch_and_parse_history, BugzillaRESTClient.history. quiet_steps.
Qed.

Lemma quiet_attachments id : quiet origin_of (__fetch_and_parse_attachments id).
Proof.
  unfold __fetch_and_parse_attachments, BugzillaRESTClient.attachments. quiet_steps.
Qed.

Lemma quiet_bugs from_date offset limit :
  quiet origin_of (on_client (BugzillaRESTClient.bugs from_date offset limit)).
Proof. unfold BugzillaRESTClient.bugs. cbv zeta. apply quiet_on_client_call. Qed.

Lemma decorates_fetch_bug bug :
  decorates origin_of (fetch_bug bug) (Decorated.fetch_bug bug).
Proof.
  unfold fetch_bug, Decorated.fetch_bug.
  apply decorates_bind; [ apply decorates_quiet, quiet_lift | intros id ].
  apply decorates_bind; [ apply decorates_quiet, quiet_comments | intros c ].
  apply decorates_bind; [ apply decorates_quiet, quiet_lift | intros bug1 ].
  apply decorates_bind; [ apply decorates_quiet, quiet_history | intros h ].
  apply decorates_bind; [ apply decorates_quiet, quiet_lift | intros bug2 ].
  apply decorates_bind; [ apply decorates_quiet, quiet_attachments | intros a ].
  apply decorates_bind; [ apply decorates_quiet, quiet_lift | intros bug3 ].
  apply decorates_ext with (g' := fun w => Decorated.emit (origin_of w) bug3 w).
  - intros w. rewrite bind_gets. reflexivity.
  - apply decorates_yield.
Qed.

Lemma decorates_fetch_bugs fuel from_date : forall offset,
  decorates origin_of (__fetch_bugs fuel from_date offset)
            (Decorated.__fetch_bugs fuel from_date offset).
Proof.
  induction fuel as [| fuel IH]; intros offset.
  - apply decorates_quiet, quiet_diverge.
  - cbn [__fetch_bugs Decorated.__fetch_bugs].
    apply decorates_bind; [ apply decorates_quiet, quiet_gets | intros limit ].
    apply decorates_bind; [ apply decorates_quiet, quiet_bugs | intros raw ].
    apply decorates_bind; [ apply decorates_quiet, quiet_push | intros _ ].
    apply decorates_bind; [ apply decorates_quiet, quiet_loads | intros data ].
    apply decorates_bind; [ apply decorates_quiet, quiet_lift | intros bugs ].
    apply decorates_bind; [ apply decorates_quiet, quiet_lift | intros len ].
    destruct (len =? 0); [ apply decorates_quiet, quiet_ret | ].
    apply decorates_bind; [ apply decorates_quiet, quiet_lift | intros items ].
    apply decorates_bind;
      [ apply decorates_for_each; intros x; apply decorates_fetch_bug | intros _ ].
    apply decorates_bind; [ apply decorates_quiet, quiet_flush | intros _ ].
    apply decorates_bind; [ apply decorates_quiet, quiet_gets | intros step ].
    apply IH.
Qed.

(** The decorated [fetch] is [fetch] as written, run under the
    decorator. *)
Lemma decorates_fetch fuel from_date :
  decorates origin_of (fetch fuel from_date) (Decorated.fetch fuel from_date).
Proof.
  unfold fetch, Decorated.fetch. cbv zeta.
  apply decorates_generator.
  apply decorates_bind; [ apply decorates_quiet, quiet_purge | intros _ ].
  apply decorates_counting, decorates_generator, decorates_fetch_bugs.
Qed.

Lemma decorates_replay_bug o bug :
  decorates (fun _ => o) (replay_bug bug) (Decorated.replay_bug o bug).
Proof.
  unfold replay_bug, Decorated.replay_bug.
  decorated_steps.
  apply (@decorates_yield D (list string) (fun _ => o)).
Qed.

Lemma decorates_replay o fuel :
  decorates (fun _ => o) (replay fuel) (Decorated.replay o fuel).
Proof.
  induction fuel as [| fuel IH].
  - apply decorates_quiet, quiet_diverge.
  - cbn [replay Decorated.replay].
    apply decorates_bind; [ apply decorates_quiet; quiet_steps | intros entry ].
    destruct entry as [raw |]; [ | apply decorates_quiet, quiet_ret ].
    decorated_steps.
    apply decorates_bind;
      [ apply decorates_for_each; intros x; apply decorates_replay_bug | intros _ ].
    exact IH.
Qed.

Lemma decorates_over_cache {A} items (g : gen (list string) A)
      (g' : string -> gen (list string) A) :
  (forall o, decorates (fun _ => o) g (g' o)) ->
  decorates origin_of (over_cache items g)
            (fun w => over_cache items (g' (origin_of w)) w).
Proof.
  intros Hg w ys w' r H. unfold over_cache in H.
  destruct (g items) as [[ys0 rest] r0] eqn:E. inversion H; subst.
  split; [ reflexivity | ].
  destruct (Hg (origin_of w') _ _ _ _ E) as (_ & Hd).
  destruct Hd as [(its & Hw & E')
                 | (ys1 & y & ys2 & its & s'' & r' & -> & Hw & E' & Hs)].
  - left. exists its. split; [ exact Hw | ]. unfold over_cache. rewrite E'.
    reflexivity.
  - right. exists ys1, y, ys2, its, w', r'.
    split; [ reflexivity | ]. split; [ exact Hw | ]. split; [ | exact Hs ].
    unfold over_cache. rewrite E'. reflexivity.
Qed.

(** The decorated [fetch_from_cache] is [fetch_from_cache] as written,
    run under the decorator. *)
Lemma decorates_fetch_from_cache :
  decorates origin_of fetch_from_cache Decorated.fetch_from_cache.
Proof.
  unfold fetch_from_cache, Decorated.fetch_from_cache.
  apply decorates_generator.
  apply decorates_bind; [ apply decorates_quiet, quiet_gets | intros c ].
  destruct c as [items |]; [ | apply decorates_quiet, quiet_raise ].
  apply decorates_ext
    with (g' := counting
                  (fun w => over_cache items
                              (Decorated.replay (origin_of w) (S (length items))) w)).
  - intros w. rewrite bind_gets. reflexivity.
  - apply decorates_counting.
    apply (@decorates_over_cache _ items (replay (S (length items)))
             (fun o => Decorated.replay o (S (length items)))).
    intros o. apply decorates_replay.
Qed.

(** The decorated [fetch_from_cache] leaves the backend and the network
    as they are, however it ends. *)
Lemma decorated_replay_state (w w' : world) items r :
  Decorated.fetch_from_cache w = (items, w', r) -> w' = w.
Proof.
  unfold Decorated.fetch_from_cache, generator, bind, gets, raise, counting,
    over_cache.
  destruct (cache (self w)) as [entries |].
  - destruct (Decorated.replay _ _ _) as [[ys rest] [[] | e |]];
      try (intros H; inversion H; reflexivity).
    destruct e; intros H; inversion H; reflexivity.
  - intros H. inversion H. reflexivity.
Qed.

End DecoratedMethods.

(** ** What callers get from [fetch] *)

Section PublicFetch.
Context {L : PyLib} {N : Network} {D : Decorator}.

(** C4, pagination.  When the server answers with pages that hold bugs
    and then with a page that holds none, and the decorator builds an item
    for each of the bugs, [fetch] hands over one item for every bug of
    the pages, each bug once and assembled, in their order, and ends; the
    number of bugs it counted is their number. *)
Theorem pagination_terminates from_date pages last n b n' fuel items :
  Forall page_ok pages ->
  empty_page last ->
  served n (run_exchanges (client b) (since from_date) (max_bugs b) 0 pages
            ++ [(bugs_request (client b) (since from_date)
                   (next_offset 0 (max_bugs b) pages) (max_bugs b), last)])
         n' ->
  (length pages < fuel)%nat ->
  wrapped (origin b) (flat_map page_yields pages) items ->
  Decorated.fetch fuel from_date (World n b)
  = (items,
     World n' (buffered [text last] (after_pages pages (with_cache_queue [] b))),
     Ok (Z.of_nat (bug_count pages)))
  /\ length items = bug_count pages.
Proof.
  intros Hpages Hlast Hs Hfuel Hw.
  destruct (fetch_terminates from_date b Hpages Hlast Hs Hfuel) as (H & Hlen).
  split.
  - exact (decorates_wrapped (decorates_fetch fuel from_date) H Hw).
  - rewrite (wrapped_length Hw). exact Hlen.
Qed.

(** X9.  A list response that cannot be used.  When, after pages with
    bugs for each of which the decorator builds an item, the list GET is
    answered with a success status but with a body that is no JSON, or no
    JSON object with [bugs], or one whose [bugs] has no length, [fetch]
    hands over the items of the bugs of those pages and ends with the
    error of the decoding.  The text of that response was buffered before
    it was decoded and stays in the queue; the cache holds the pages
    before it. *)
Theorem page_decode_failure from_date pages n b n' r e fuel committed items :
  cache b = Some committed ->
  Forall page_ok pages ->
  served n (run_exchanges (client b) (since from_date) (max_bugs b) 0 pages
            ++ [(bugs_request (client b) (since from_date)
                   (next_offset 0 (max_bugs b) pages) (max_bugs b), r)]) n' ->
  success r ->
  page_error (text r) e ->
  (length pages < fuel)%nat ->
  wrapped (origin b) (flat_map page_yields pages) items ->
  exists w',
    Decorated.fetch fuel from_date (World n b) = (items, w', Raise e)
    /\ wire w' = n'
    /\ cache (self w') = Some (committed ++ flat_map page_entries pages)
    /\ cache_queue (self w') = [text r]
    /\ (e = JSONDecodeError \/ e = KeyError (JString "bugs") \/ e = TypeError).
Proof.
  intros Hc Hpages Hs Sr Hparse Hfuel Hw.
  destruct (fetch_page_undecodable from_date b Hc Hpages Hs Sr Hparse Hfuel)
    as (w' & H & Hrest).
  exists w'. split; [ | exact Hrest ].
  exact (decorates_wrapped (decorates_fetch fuel from_date) H Hw).
Qed.

(** X10.  A bug without an identifier.  When a page lists, behind bugs
    that could be completed, a bug whose shell has no [id], and the
    decorator builds an item for each of the bugs completed so far,
    [fetch] hands those items over and ends with the error of that lookup
    before it asks the server anything about the bug.  The page is not
    committed: its text and the texts of the completed bugs stay in the
    queue. *)
Theorem bug_without_id from_date pages n b n' r data shells done shell more e
        fuel committed items :
  cache b = Some committed ->
  Forall page_ok pages ->
  served n (run_exchanges (client b) (since from_date) (max_bugs b) 0 pages
            ++ (bugs_request (client b) (since from_date)
                  (next_offset 0 (max_bugs b) pages) (max_bugs b), r)
               :: flat_map (bug_exchanges (client b)) done) n' ->
  success r ->
  json_loads (text r) = Some data ->
  getitem data "bugs" = Ok shells ->
  py_iter shells = Ok (map b_shell done ++ shell :: more) ->
  Forall bug_ok done ->
  getitem shell "id" = Raise e ->
  (length pages < fuel)%nat ->
  wrapped (origin b) (flat_map page_yields pages ++ map b_bug done) items ->
  exists w',
    Decorated.fetch fuel from_date (World n b) = (items, w', Raise e)
    /\ wire w' = n'
    /\ cache (self w') = Some (committed ++ flat_map page_entries pages)
    /\ cache_queue (self w') = text r :: flat_map bug_entries done
    /\ (e = KeyError (JString "id") \/ e = TypeError).
Proof.
  intros Hc Hpages Hs Sr Hdata Hshells Hiter Hdone Hid Hfuel Hw.
  destruct (@fetch_bug_without_id L N from_date pages n b n' r data shells done
              shell more e fuel committed Hc Hpages Hs Sr Hdata Hshells Hiter
              Hdone Hid Hfuel) as (w' & H & Hrest).
  exists w'. split; [ | exact Hrest ].
  exact (decorates_wrapped (decorates_fetch fuel from_date) H Hw).
Qed.

End PublicFetch.

(** ** What callers get from [fetch_from_cache] *)

Section PublicReplay.
Context {L : PyLib} {N : Network} {D : Decorator}.




(** X13.  [fetch_from_cache] leaves the backend and the network as they
    are, however it ends, and it always ends unless building an item does
    not: each round of its loop takes at least one entry.  The exceptions
    it ends with are the cache error, the [RuntimeError] of a read behind
    the end of the cache, the errors of decoding and of lookups
    ([JSONDecodeError], [KeyError], [IndexError], [TypeError]) and what
    the decorator raises while it builds an item; it never ends with an
    error of the transport that the decorator did not raise. *)
Theorem fetch_from_cache_outcomes (w w' : world) items r :
  Decorated.fetch_from_cache w = (items, w', r) ->
  w' = w
  /\ (r = Diverge -> exists data, metadata (origin (self w)) data = Diverge)
  /\ (forall e, r = Raise e ->
                replay_outcome e
                \/ exists data, metadata (origin (self w)) data = Raise e).
Proof.
  intros H. split; [ eapply decorated_replay_state; exact H | ].
  destruct (fetch_from_cache w) as [[ys w0] r0] eqn:E.
  destruct (@fetch_from_cache_ends L N _ _ _ _ E) as (_ & Hends & Hraise).
  destruct (@decorates_fetch_from_cache L N D _ _ _ _ E) as (_ & Hd).
  destruct Hd as [(items' & _ & E')
                 | (ys1 & y & ys2 & items' & s'' & r' & _ & _ & E' & Hs)];
    rewrite H in E'; inversion E'; subst.
  - split; [ intros Hr; contradiction | ].
    intros e He. left. exact (Hraise e He).
  - destruct Hs as [(Hb & ->) | (e & Hb & [-> | (-> & ->)])].
    + split; [ intros _; exists y; exact Hb | discriminate ].
    + split; [ discriminate | ].
      intros e' He'. inversion He'; subst. right. exists y. exact Hb.
    + split; [ discriminate | ].
      intros e' He'. inversion He'; subst. left. unfold replay_outcome. auto.
Qed.


(** X15.  An empty page in the cache does not end the replay.  Unlike
    [fetch], which stops at the first page without bugs,
    [fetch_from_cache] goes past an entry that decodes to such a page:
    when the decorator builds an item for each bug of the pages before and
    behind it, all those items are handed over. *)
Theorem replay_passes_empty_page (w : world) pages1 r pages2 items :
  Forall page_ok pages1 ->
  empty_page r ->
  Forall page_ok pages2 ->
  cache (self w)
  = Some (flat_map page_entries pages1 ++ text r :: flat_map page_entries pages2) ->
  wrapped (origin (self w))
          (flat_map page_yields pages1 ++ flat_map page_yields pages2) items ->
  Decorated.fetch_from_cache w
  = (items, w, Ok (Z.of_nat (bug_count pages1 + bug_count pages2))).
Proof.
  intros H1 Hr H2 Hc Hw.
  exact (decorates_wrapped decorates_fetch_from_cache
           (@replay_over_empty_page L N w pages1 r pages2 H1 Hr H2 Hc) Hw).
Qed.

(** X16.  A comments entry of another bug.  The comments and attachments
    of a bug are looked up in their entries under [str] of its identifier.
    When the entry read as the comments of a bug decodes to an object whose
    [bugs] holds nothing under that key, [fetch_from_cache] reads and
    decodes the three entries of the bug, then ends with the [KeyError] of
    the lookup; the items of the bugs before it, when the decorator builds
    them, were handed over, and nothing is handed over for this bug. *)
Theorem foreign_comments_entry (w : world) pages raw data shells done shell more
        id c h a cd m hd ad rest items :
  Forall page_ok pages ->
  json_loads raw = Some data ->
  getitem data "bugs" = Ok shells ->
  py_iter shells = Ok (map b_shell done ++ shell :: more) ->
  Forall bug_ok done ->
  getitem shell "id" = Ok id ->
  json_loads c = Some cd ->
  getitem cd "bugs" = Ok (JObject m) ->
  dict_get (py_str id) m = None ->
  json_loads h = Some hd ->
  json_loads a = Some ad ->
  cache (self w)
  = Some (flat_map page_entries pages
          ++ raw :: flat_map bug_entries done ++ c :: h :: a :: rest) ->
  wrapped (origin (self w)) (flat_map page_yields pages ++ map b_bug done) items ->
  Decorated.fetch_from_cache w
  = (items, w, Raise (KeyError (JString (py_str id)))).
Proof.
  intros Hpages Hdata Hshells Hiter Hdone Hid Hc Hcb Hm Hh Ha Hcache Hw.
  apply (decorates_wrapped decorates_fetch_from_cache
           (@replay_foreign_comments L N w pages raw data shells done shell more
              id c h a cd m hd ad rest Hpages Hdata Hshells Hiter Hdone Hid Hc
              Hcb Hm Hh Ha Hcache)).
  exact Hw.
Qed.

End PublicReplay.

(** ** The examples, under the decorator *)

Section PublicExamples.

Lemma dated10_ok : bug_ok (L := dated_lib) dated10.
Proof. unfold bug_ok. repeat split; vm_compute; reflexivity. Qed.

Lemma dated11_ok : bug_ok (L := dated_lib) dated11.
Proof. unfold bug_ok. repeat split; vm_compute; reflexivity. Qed.

Lemma dated_page_ok : page_ok (L := dated_lib) dated_page.
Proof.
  unfold page_ok. split; [ reflexivity | ]. split; [ discriminate | ]. split.
  - exists page_dated,
           (JArray [dated_shell 10 "2016-06-07T13:21:50Z" "crash";
                    dated_shell 11 "2016-06-07T15:21:50+02:00" "typo"]).
    repeat split; vm_compute; reflexivity.
  - constructor; [ exact dated10_ok | ].
    constructor; [ exact dated11_ok | constructor ].
Qed.

Lemma dated_none_empty : empty_page (L := dated_lib) (ok200 page_none).
Proof.
  split; [ reflexivity | ]. exists page_none, (JArray []).
  repeat split; vm_compute; reflexivity.
Qed.

Lemma dated_served_then (b : BugzillaREST.t) (rest : list reply) :
  served (N := scripted)
         (map Replied (page_responses dated_page) ++ rest)
         (run_exchanges (L := dated_lib) (client b) epoch 500 0 [dated_page])
         rest.
Proof.
  cbn [run_exchanges]. rewrite app_nil_r.
  repeat (eapply served_cons; [ reflexivity | ]). apply served_nil.
Qed.

(** The decorator of the examples builds the items of the bugs 10 and
    11. *)
Lemma dated_wrapped :
  wrapped (D := stamping dated_lib) "http://example.com"
          (flat_map page_yields [dated_page]) [item_10; item_11].
Proof. repeat constructor. Qed.

Lemma pagination_terminates_witness :
  Decorated.fetch (L := dated_lib) (N := scripted) (D := stamping dated_lib) 5 None
                  (World (N := scripted) dated_upstream backend0)
  = ([item_10; item_11],
     World (N := scripted) []
           (buffered [text (ok200 page_none)]
                     (after_pages [dated_page] (with_cache_queue [] backend0))),
     Ok (Z.of_nat (bug_count [dated_page])))
  /\ length [item_10; item_11] = bug_count [dated_page].
Proof.
  apply (@pagination_terminates dated_lib scripted (stamping dated_lib) None
           [dated_page] (ok200 page_none) dated_upstream backend0 [] 5
           [item_10; item_11]).
  - constructor; [ exact dated_page_ok | constructor ].
  - exact dated_none_empty.
  - eapply served_app; [ exact (dated_served_then backend0 [Replied (ok200 page_none)]) | ].
    eapply served_cons; [ reflexivity | apply served_nil ].
  - simpl. lia.
  - exact dated_wrapped.
Defined.


Lemma page_decode_failure_witness :
  exists w',
    Decorated.fetch (L := dated_lib) (N := scripted) (D := stamping dated_lib) 5 None
                    (World (N := scripted) number_upstream backend0)
    = ([item_10; item_11], w', Raise TypeError)
    /\ wire w' = []
    /\ cache (self w') = Some ([] ++ flat_map page_entries [dated_page])
    /\ cache_queue (self w') = [text (ok200 page_number)]
    /\ (TypeError = JSONDecodeError \/ TypeError = KeyError (JString "bugs")
        \/ TypeError = TypeError).
Proof.
  apply (@page_decode_failure dated_lib scripted (stamping dated_lib) None
           [dated_page] number_upstream backend0 [] (ok200 page_number) TypeError 5
           [] [item_10; item_11]).
  - reflexivity.
  - constructor; [ exact dated_page_ok | constructor ].
  - eapply served_app; [ exact (dated_served_then backend0 [Replied (ok200 page_number)]) | ].
    eapply served_cons; [ reflexivity | apply served_nil ].
  - reflexivity.
  - right. exists (JInt 5). split; vm_compute; reflexivity.
  - simpl. lia.
  - exact dated_wrapped.
Defined.

Lemma bug_without_id_witness :
  exists w',
    Decorated.fetch (L := dated_lib) (N := scripted) (D := stamping dated_lib) 5 None
                    (World (N := scripted) dated_no_id_upstream backend0)
    = ([item_10], w', Raise (KeyError (JString "id")))
    /\ wire w' = [Replied (ok200 page_none)]
    /\ cache (self w') = Some ([] ++ flat_map page_entries [])
    /\ cache_queue (self w')
       = text (ok200 page_dated_no_id) :: flat_map bug_entries [dated10]
    /\ (KeyError (JString "id") = KeyError (JString "id")
        \/ KeyError (JString "id") = TypeError).
Proof.
  apply (@bug_without_id dated_lib scripted (stamping dated_lib) None []
           dated_no_id_upstream backend0 [Replied (ok200 page_none)]
           (ok200 page_dated_no_id) page_dated_no_id
           (JArray [dated_shell 10 "2016-06-07T13:21:50Z" "crash";
                    JObject [("summary", JString "lost")]])
           [dated10] (JObject [("summary", JString "lost")]) []
           (KeyError (JString "id")) 5 [] [item_10]).
  - reflexivity.
  - constructor.
  - cbn [run_exchanges app flat_map].
    repeat (eapply served_cons; [ reflexivity | ]). apply served_nil.
  - reflexivity.
  - vm_compute. reflexivity.
  - reflexivity.
  - reflexivity.
  - constructor; [ exact dated10_ok | constructor ].
  - reflexivity.
  - simpl. lia.
  - repeat constructor.
Defined.

Lemma whole_pages_only_witness :
  exists pages partial last,
    failing_upstream
    = map Replied (flat_map page_responses pages ++ partial)
        ++ last ++ wire world_failed /\
    (last = [] \/ exists bad, last = [bad] /\ ~ good bad) /\
    Forall (page_ok (L := examples)) pages /\ Forall success partial /\
    cache (self world_failed) = Some ([] ++ flat_map page_entries pages) /\
    cache_queue (self world_failed) = map text partial.
Proof.
  apply (@whole_pages_only examples 5 None failing_upstream backend0 []
           (fst (fst (fetch (L := examples) (N := scripted) 5 None
                            (World (N := scripted) failing_upstream backend0))))
           world_failed (Raise (HTTPError 503))).
  - reflexivity.
  - vm_compute. reflexivity.
Defined.

Lemma fetch_from_cache_outcomes_witness :
  world1 = world1
  /\ (@Raise Z (KeyError (JString "last_change_time")) = Diverge ->
      exists data,
        metadata (Decorator := stamping examples) (origin (self world1)) data
        = Diverge)
  /\ (forall e,
         @Raise Z (KeyError (JString "last_change_time")) = Raise e ->
         replay_outcome e
         \/ exists data,
             metadata (Decorator := stamping examples) (origin (self world1)) data
             = Raise e).
Proof.
  apply (@fetch_from_cache_outcomes examples scripted (stamping examples)
           world1 world1 [] (Raise (KeyError (JString "last_change_time")))).
  vm_compute. reflexivity.
Defined.


Lemma replay_passes_empty_page_witness :
  Decorated.fetch_from_cache (L := dated_lib) (D := stamping dated_lib)
    (World (N := scripted) []
           (with_cache (Some (flat_map page_entries [dated_page]
                              ++ text (ok200 page_none)
                                 :: flat_map page_entries [dated_page]))
                       backend0))
  = ([item_10; item_11; item_10; item_11],
     World (N := scripted) []
           (with_cache (Some (flat_map page_entries [dated_page]
                              ++ text (ok200 page_none)
                                 :: flat_map page_entries [dated_page]))
                       backend0),
     Ok (Z.of_nat (bug_count [dated_page] + bug_count [dated_page]))).
Proof.
  apply (@replay_passes_empty_page dated_lib scripted (stamping dated_lib) _
           [dated_page] (ok200 page_none) [dated_page]
           [item_10; item_11; item_10; item_11]).
  - constructor; [ exact dated_page_ok | constructor ].
  - exact dated_none_empty.
  - constructor; [ exact dated_page_ok | constructor ].
  - reflexivity.
  - repeat constructor.
Defined.

Lemma foreign_comments_entry_witness :
  Decorated.fetch_from_cache (L := dated_lib) (D := stamping dated_lib)
    (World (N := scripted) [] (with_cache (Some foreign_cache) backend0))
  = ([item_10],
     World (N := scripted) [] (with_cache (Some foreign_cache) backend0),
     Raise (KeyError (JString (@py_str dated_lib (JInt 11))))).
Proof.
  apply (@foreign_comments_entry dated_lib scripted (stamping dated_lib)
           (World (N := scripted) [] (with_cache (Some foreign_cache) backend0))
           [] (text (ok200 page_dated)) page_dated
           (JArray [dated_shell 10 "2016-06-07T13:21:50Z" "crash";
                    dated_shell 11 "2016-06-07T15:21:50+02:00" "typo"])
           [dated10] (dated_shell 11 "2016-06-07T15:21:50+02:00" "typo") []
           (JInt 11)
           (text (ok200 (comments_of "10" "ann")))
           (text (ok200 (history_of 11 "bob")))
           (text (ok200 (attachments_of "11" "b.log")))
           (comments_of "10" "ann")
           [("10", JObject [("comments", JArray [JObject [("creator", JString "ann")]])])]
           (history_of 11 "bob") (attachments_of "11" "b.log") [] [item_10]).
  - constructor.
  - vm_compute. reflexivity.
  - reflexivity.
  - reflexivity.
  - constructor; [ exact dated10_ok | constructor ].
  - reflexivity.
  - vm_compute. reflexivity.
  - reflexivity.
  - vm_compute. reflexivity.
  - vm_compute. reflexivity.
  - vm_compute. reflexivity.
  - reflexivity.
  - repeat constructor.
Defined.

End PublicExamples.

(** ** A bug the decorator rejects *)

Section RejectedBug.
Context {L : PyLib} {N : Network} {D : Decorator}.

(** X19.  A bug for which the decorator builds no item ends the run.  Take
    a run of [fetch] as written, and the first bug among those it yields
    for which the decorator raises an exception in place of building an
    item.  Then [fetch] as callers get it hands over the items of the
    bugs before that one and ends with the exception of the decorator:
    neither that bug nor any bug behind it is handed over, whatever the
    generator as written would have gone on to do. *)
Theorem decorator_rejection fuel from_date (w : world) ys1 y ys2 w0 r items e :
  fetch fuel from_date w = (ys1 ++ y :: ys2, w0, r) ->
  wrapped (origin (self w)) ys1 items ->
  metadata (origin (self w)) y = Raise e ->
  e <> StopIteration ->
  exists w', Decorated.fetch fuel from_date w = (items, w', Raise e).
Proof.
  intros H Hw Hy He.
  destruct (@decorates_rejected D world origin_of Z _ _ _ _ _ _ _ _ _ _
              (decorates_fetch fuel from_date) H Hw Hy He)
    as (w' & H').
  exists w'. exact H'.
Qed.

End RejectedBug.

Section RejectedBugExample.

Lemma decorator_rejection_witness :
  exists w',
    Decorated.fetch (L := examples) (N := scripted) (D := stamping examples)
                    5 None world0
    = ([], w', Raise (KeyError (JString "last_change_time"))).
Proof.
  apply (@decorator_rejection examples scripted (stamping examples) 5 None world0
           [] (b_bug bug10) [b_bug bug11] world1 (Ok 2) []
           (KeyError (JString "last_change_time"))).
  - vm_compute. reflexivity.
  - constructor.
  - reflexivity.
  - discriminate.
Defined.

End RejectedBugExample.
